(** * reconstruct-api: the request handlers of [server.js] as pure functions

    The Express handlers are embedded as functions from a request and the
    contents of the tables they touch to a response and the new contents.
    A table is the list of its rows in insertion order together with its
    AUTO_INCREMENT counter.  [WHERE col = ?] on a text column is modelled by
    equality of strings, except for the task tables of POST /api/tasks/save,
    whose comparison and whose [tasks] column are those of the schema of the
    table ([Tasks.Schema]).  Request bodies are read at the types of the
    columns they are bound to: a text field is [option string], a numeric
    field is [option Z], [None] standing for an absent ([undefined]) field.
    Connection failures are outside the model: a query fails only where a
    column refuses a value, in [Tasks.upsert].  The [created_at] and
    [updated_at] columns are not represented.  Where a message of the source
    contains quotation marks they are left out. *)

From Stdlib Require Import Strings.String Strings.Ascii Lists.List ZArith Bool Lia.
From Stdlib Require Import Numbers.DecimalString Numbers.DecimalPos.
Import ListNotations.
Open Scope string_scope.
Open Scope Z_scope.

(** ** JavaScript string primitives used by the handlers *)

Module JS.

(** [s.startsWith(p)] *)
Definition startsWith (s p : string) : bool := String.prefix p s.

(** [!s] for a value that is a string or [undefined]. *)
Definition falsy (v : option string) : bool :=
  match v with
  | None => true
  | Some s => String.eqb s ""
  end.

(** [!n] for a value that is an integer or [undefined]. *)
Definition falsyZ (v : option Z) : bool :=
  match v with
  | None => true
  | Some n => n =? 0
  end.

(** [s.split(sep)] for a non-empty separator: the pieces between the
    non-overlapping occurrences of [sep], scanned from the left.  [skip]
    counts the characters of a matched separator still to be passed over,
    [cur] is the piece being built. *)
Fixpoint split_go (sep s : string) (skip : nat) (cur : string) : list string :=
  match s with
  | EmptyString => [cur]
  | String c s' =>
      match skip with
      | S k => split_go sep s' k cur
      | O =>
          if String.prefix sep s
          then cur :: split_go sep s' (String.length sep - 1) ""
          else split_go sep s' 0 (cur ++ String c "")
      end
  end.

Definition split (s sep : string) : list string := split_go sep s 0 "".

(** [sep] occurs somewhere in [s]. *)
Fixpoint occurs (sep s : string) : bool :=
  match s with
  | EmptyString => String.prefix sep ""
  | String _ s' => String.prefix sep s || occurs sep s'
  end.

(** Template-literal rendering of an integer: [`${n}`]. *)
Definition toString (n : Z) : string := NilZero.string_of_int (Z.to_int n).

Definition is_digit (c : ascii) : bool :=
  let n := nat_of_ascii c in (Nat.leb 48 n && Nat.leb n 57)%bool.

(** [parseInt(d, 10)] on a string of decimal digits.  The result is exact
    as long as it stays below 2^53; the only strings it is applied to come
    from a VARCHAR(20) column after a 15-character prefix. *)
Fixpoint parse_digits (acc : Z) (d : string) : Z :=
  match d with
  | EmptyString => acc
  | String c d' => parse_digits (10 * acc + Z.of_nat (nat_of_ascii c - 48)) d'
  end.

Definition parseInt (d : string) : Z := parse_digits 0 d.

End JS.

(** ** The identity gate for [Bearer name:email] pseudo-tokens *)

Module Gate.

Record Identity := { user_name : string; email : string }.

Inductive Outcome :=
| Next (user : Identity)
| Rejected (status : Z) (message : string).

(** [authenticateUserByToken]: [authHeader] is [req.headers.authorization]. *)
Definition authenticateUserByToken (authHeader : option string) : Outcome :=
  match authHeader with
  | None => Rejected 401 "Authentication required"
  | Some h =>
      if (String.eqb h "" || negb (JS.startsWith h "Bearer "))%bool
      then Rejected 401 "Authentication required"
      else
        match nth_error (JS.split h "Bearer ") 1 with
        | None => Rejected 401 "Authentication failed"
        | Some token =>
            let parts := JS.split token ":" in
            let user_name := nth_error parts 0 in
            let email := nth_error parts 1 in
            if (JS.falsy user_name || JS.falsy email)%bool
            then Rejected 401
                   "Invalid authentication format. Expected: Bearer username:email"
            else
              match user_name, email with
              | Some n, Some e => Next {| user_name := n; email := e |}
              | _, _ => Rejected 401 "Authentication failed"
              end
        end
  end.

End Gate.

(** ** Responses of the save and delete handlers

    [res.status(status).json({ success, message, id })]; [id] is [None]
    where the body carries no row id. *)

Record Response := {
  status : Z;
  success : bool;
  message : string;
  id : option Z
}.

Definition reject (st : Z) (msg : string) : Response :=
  {| status := st; success := false; message := msg; id := None |}.

Definition accept (st : Z) (msg : string) (i : option Z) : Response :=
  {| status := st; success := true; message := msg; id := i |}.

(** ** Vision-board and weekly-planner task collections *)

Module Tasks.

(** A row of [vision_board_tasks] ([config/schema.sql]); [user_name] and
    [email] are nullable columns, [tasks] is the document as the column
    holds it.  [weekly_planner_tasks] has the same columns as far as the
    handler uses them. *)
Record Row := {
  id : Z;
  user_name : option string;
  email : option string;
  card_id : string;
  tasks : string;
  theme : string
}.

Record Table := { rows : list Row; auto_increment : Z }.

Record Tables := {
  vision_board_tasks : Table;
  weekly_planner_tasks : Table
}.

(** What the definition of a table decides and the handler does not see:
    how [=] compares a text column with a parameter under the table's
    collation, and what the [tasks] column keeps of a text bound to it,
    [None] when the column refuses the text and the query fails.
    [config/schema.sql] declares [vision_board_tasks] with
    COLLATE utf8mb4_unicode_ci, under which texts that differ in the case of
    their letters are equal, and [tasks] as JSON NOT NULL, which refuses a
    text that is not a JSON document and may give a document back in
    another rendering.  The definition of [weekly_planner_tasks] is not in
    the repository. *)
Record Schema := {
  text_eq : string -> string -> bool;
  tasks_column : string -> option string
}.

(** [req.body] of POST /api/tasks/save. *)
Record Body := {
  b_user_name : option string;
  b_email : option string;
  b_card_id : option string;
  b_tasks : option string;
  b_theme : option string;
  b_table : option string
}.

Definition get_table (table : string) (db : Tables) : Table :=
  if String.eqb table "vision_board_tasks"
  then vision_board_tasks db else weekly_planner_tasks db.

Definition set_table (table : string) (t : Table) (db : Tables) : Tables :=
  if String.eqb table "vision_board_tasks"
  then {| vision_board_tasks := t; weekly_planner_tasks := weekly_planner_tasks db |}
  else {| vision_board_tasks := vision_board_tasks db; weekly_planner_tasks := t |}.

(** [WHERE user_name = ? AND email = ? AND card_id = ? AND theme = ?],
    with [eq] for the [=] of the table; a NULL column matches nothing. *)
Definition key_matches (eq : string -> string -> bool)
    (user_name email card_id theme : string) (r : Row) : bool :=
  match Tasks.user_name r, Tasks.email r with
  | Some n, Some e =>
      (eq n user_name && eq e email
       && eq (Tasks.card_id r) card_id && eq (Tasks.theme r) theme)%bool
  | _, _ => false
  end.

(** [UPDATE ... SET tasks = ? WHERE id = ?] *)
Definition update_tasks (i : Z) (tasks : string) (r : Row) : Row :=
  if Tasks.id r =? i
  then {| id := Tasks.id r; user_name := Tasks.user_name r; email := Tasks.email r;
          card_id := Tasks.card_id r; tasks := tasks; theme := Tasks.theme r |}
  else r.

(** [!user_name || !email || !card_id || !tasks || !theme || !table] *)
Definition missing_fields (body : Body) : bool :=
  (JS.falsy (b_user_name body) || JS.falsy (b_email body)
   || JS.falsy (b_card_id body) || JS.falsy (b_tasks body)
   || JS.falsy (b_theme body) || JS.falsy (b_table body))%bool.

Section Handlers.

(** The schema of the table of each name. *)
Variable schema : string -> Schema.

(** The handler from [// Check if record exists] on: look the natural key
    up, update the first row found or insert a new one.  When the [tasks]
    column refuses the text, the UPDATE or INSERT throws and the [catch] of
    the handler answers 500; nothing is written. *)
Definition upsert (user_name email card_id tasks theme table : string) (db : Tables)
  : Response * Tables :=
  let t := get_table table db in
  let failed := (reject 500 "Error saving task", db) in
  let existingRecords :=
    filter (key_matches (text_eq (schema table)) user_name email card_id theme)
      (rows t) in
  match existingRecords with
  | existing :: _ =>
      match tasks_column (schema table) tasks with
      | Some kept =>
          let t' := {| rows := map (update_tasks (Tasks.id existing) kept) (rows t);
                       auto_increment := auto_increment t |} in
          (accept 200 "Task updated successfully" (Some (Tasks.id existing)),
           set_table table t' db)
      | None => failed
      end
  | [] =>
      match tasks_column (schema table) tasks with
      | Some kept =>
          let insertId := auto_increment t in
          let r := {| id := insertId; user_name := Some user_name; email := Some email;
                      card_id := card_id; tasks := kept; theme := theme |} in
          let t' := {| rows := rows t ++ [r]; auto_increment := insertId + 1 |} in
          (accept 201 "Task saved successfully" (Some insertId),
           set_table table t' db)
      | None => failed
      end
  end.

(** POST /api/tasks/save, after [authenticateUserByToken] has set
    [req.user] to [requestUser].  The message of the table check is given
    without the quotation marks it has around the two names. *)
Definition save (requestUser : Gate.Identity) (body : Body) (db : Tables)
  : Response * Tables :=
  if missing_fields body
  then (reject 400
          "Missing required fields: user_name, email, card_id, tasks, theme, or table",
        db)
  else
    match b_user_name body, b_email body, b_card_id body,
          b_tasks body, b_theme body, b_table body with
    | Some user_name, Some email, Some card_id, Some tasks, Some theme, Some table =>
        if (negb (String.eqb user_name (Gate.user_name requestUser))
            || negb (String.eqb email (Gate.email requestUser)))%bool
        then (reject 403 "Authorization mismatch: Cannot save tasks for another user", db)
        else if (negb (String.eqb table "vision_board_tasks")
                 && negb (String.eqb table "weekly_planner_tasks"))%bool
        then (reject 400 "Invalid table name. Only vision_board_tasks or weekly_planner_tasks allowed.",
              db)
        else upsert user_name email card_id tasks theme table db
    | _, _, _, _, _, _ =>
        (reject 400
           "Missing required fields: user_name, email, card_id, tasks, theme, or table",
         db)
    end.

End Handlers.

End Tasks.

(** *** Sample schemas

    [plain] compares texts letter by letter and keeps every tasks text as
    it is sent.  [folding] is a sample of what [config/schema.sql] declares
    for [vision_board_tasks]: texts are equal when they agree up to the case
    of the letters a to z, and the tasks column keeps a text that opens with
    a bracket or a brace and refuses any other; for any other table it is as
    [plain]. *)

Definition plain (table : string) : Tasks.Schema :=
  {| Tasks.text_eq := String.eqb; Tasks.tasks_column := Some |}.

Definition lower (c : ascii) : ascii :=
  let n := nat_of_ascii c in
  if (Nat.leb 65 n && Nat.leb n 90)%bool then ascii_of_nat (n + 32) else c.

Fixpoint lowercase (s : string) : string :=
  match s with
  | EmptyString => ""
  | String c s' => String (lower c) (lowercase s')
  end.

Definition folding (table : string) : Tasks.Schema :=
  if String.eqb table "vision_board_tasks"
  then {| Tasks.text_eq := fun a b => String.eqb (lowercase a) (lowercase b);
          Tasks.tasks_column := fun s =>
            if (String.prefix "[" s || String.prefix "{" s)%bool
            then Some s else None |}
  else plain table.

(** ** Calendar entries *)

Module Calendar.

(** A row of [calendar_2025_tasks]; every column is NOT NULL. *)
Record Task := {
  id : Z;
  user_name : string;
  email : string;
  task_date : string;
  task_type : Z;
  task_description : string;
  color_code : string;
  theme : string
}.

Record Table := { rows : list Task; auto_increment : Z }.

Definition set_color_code (c : string) (t : Task) : Task :=
  {| id := id t; user_name := user_name t; email := email t;
     task_date := task_date t; task_type := task_type t;
     task_description := task_description t; color_code := c; theme := theme t |}.

Definition set_task_type (n : Z) (t : Task) : Task :=
  {| id := id t; user_name := user_name t; email := email t;
     task_date := task_date t; task_type := n;
     task_description := task_description t; color_code := color_code t;
     theme := theme t |}.

(** *** The regular expression [/selected-color-(\d+)/] *)

Fixpoint take_digits (s : string) : string :=
  match s with
  | EmptyString => ""
  | String c s' => if JS.is_digit c then String c (take_digits s') else ""
  end.

Fixpoint drop (n : nat) (s : string) : string :=
  match n, s with
  | O, _ => s
  | S k, EmptyString => ""
  | S k, String _ s' => drop k s'
  end.

(** An attempt to match at the start of [s]: the literal, then the longest
    non-empty run of digits, which is capture group 1. *)
Definition match_here (s : string) : option string :=
  if String.prefix "selected-color-" s
  then
    let d := take_digits (drop 15 s) in
    if String.eqb d "" then None else Some d
  else None.

(** [s.match(/selected-color-(\d+)/)]: group 1 of the leftmost match. *)
Fixpoint regex_match (s : string) : option string :=
  match match_here s with
  | Some d => Some d
  | None =>
      match s with
      | EmptyString => None
      | String _ s' => regex_match s'
      end
  end.

(** The body of [results.map(task => ...)] in the three load handlers. *)
Definition normalize (task : Task) : Task :=
  let task1 :=
    if (String.eqb (color_code task) ""
        || negb (JS.startsWith (color_code task) "selected-color-"))%bool
    then set_color_code ("selected-color-" ++ JS.toString (task_type task)) task
    else task in
  if JS.startsWith (color_code task1) "selected-color-"
  then
    match regex_match (color_code task1) with
    | Some d =>
        let colorType := JS.parseInt d in
        if negb (task_type task1 =? colorType)
        then set_task_type colorType task1
        else task1
    | None => task1
    end
  else task1.

Inductive LoadResponse :=
| LoadOk (tasks : list Task)
| LoadError (status : Z) (message : string).

Definition owned_in_theme (user_name email theme : string) (r : Task) : bool :=
  (String.eqb (Calendar.user_name r) user_name
   && String.eqb (Calendar.email r) email
   && String.eqb (Calendar.theme r) theme)%bool.

(** GET /api/calendar/load, after the gate; [theme] is [req.query.theme]. *)
Definition load (user : Gate.Identity) (theme : option string) (t : Table)
  : LoadResponse :=
  match theme with
  | None => LoadError 400 "Missing required parameter: theme"
  | Some th =>
      if String.eqb th ""
      then LoadError 400 "Missing required parameter: theme"
      else
        let results :=
          filter (owned_in_theme (Gate.user_name user) (Gate.email user) th) (rows t) in
        LoadOk (map normalize results)
  end.

(** GET /calendar2025/tasks, first registration (gated): the theme
    defaults to [animal].  The second handler registered for the same route
    is never reached, the first one always answers. *)
Definition load_compat (user : Gate.Identity) (theme : option string) (t : Table)
  : LoadResponse :=
  let th := if JS.falsy theme then "animal"
            else match theme with Some x => x | None => "animal" end in
  let results :=
    filter (owned_in_theme (Gate.user_name user) (Gate.email user) th) (rows t) in
  LoadOk (map normalize results).

(** [req.body] of POST /api/calendar/save; [b_delete] is the truthiness of
    the [delete] field. *)
Record Body := {
  b_user_name : option string;
  b_email : option string;
  b_task_date : option string;
  b_task_type : option Z;
  b_task_description : option string;
  b_color_code : option string;
  b_theme : option string;
  b_id : option Z;
  b_delete : bool
}.

Definition owned_id (i : Z) (user_name email : string) (r : Task) : bool :=
  ((Calendar.id r =? i) && String.eqb (Calendar.user_name r) user_name
   && String.eqb (Calendar.email r) email)%bool.

Definition or_else {A} (v : option A) (d : A) : A :=
  match v with Some x => x | None => d end.

(** The dynamic [UPDATE ... SET ...]: a column is assigned when its field
    is not [undefined]. *)
Definition apply_fields (body : Body) (r : Task) : Task :=
  {| id := Calendar.id r;
     user_name := Calendar.user_name r;
     email := Calendar.email r;
     task_date := or_else (b_task_date body) (Calendar.task_date r);
     task_type := or_else (b_task_type body) (Calendar.task_type r);
     task_description := or_else (b_task_description body) (Calendar.task_description r);
     color_code := or_else (b_color_code body) (Calendar.color_code r);
     theme := or_else (b_theme body) (Calendar.theme r) |}.

(** [WHERE user_name = ? AND email = ? AND task_date = ? AND theme = ?].
    [task_date] is a DATE column: a row holds the text of its day, and the
    comparison is that of the texts, which is the comparison of the days
    when the parameter is written as a day as well.  What the column does
    with any other text is not represented; the statements that depend on
    it take the date sent to be a day. *)
Definition date_key (user_name email task_date theme : string) (r : Task) : bool :=
  (String.eqb (Calendar.user_name r) user_name
   && String.eqb (Calendar.email r) email
   && String.eqb (Calendar.task_date r) task_date
   && String.eqb (Calendar.theme r) theme)%bool.

(** [UPDATE ... SET task_type = ?, task_description = ?, color_code = ?
    WHERE id = ?] *)
Definition overwrite (i : Z) (ty : Z) (descr color : string) (r : Task) : Task :=
  if Calendar.id r =? i
  then {| id := Calendar.id r; user_name := Calendar.user_name r;
          email := Calendar.email r; task_date := Calendar.task_date r;
          task_type := ty; task_description := descr; color_code := color;
          theme := Calendar.theme r |}
  else r.

(** POST /api/calendar/save, after the gate has set [req.user].  In the
    update-by-id branch the list of SET clauses always holds [updated_at],
    so the answer [No fields to update] is never given. *)
Definition save (requestUser : Gate.Identity) (body : Body) (t : Table)
  : Response * Table :=
  let mismatch := reject 403
    "Authorization mismatch: Cannot save calendar tasks for another user" in
  match b_user_name body, b_email body with
  | Some user_name, Some email =>
      if (negb (String.eqb user_name (Gate.user_name requestUser))
          || negb (String.eqb email (Gate.email requestUser)))%bool
      then (mismatch, t)
      else if (b_delete body && negb (JS.falsyZ (b_id body)))%bool
      then
        let i := or_else (b_id body) 0 in
        let kept := filter (fun r => negb (owned_id i user_name email r)) (rows t) in
        let affectedRows := (List.length (rows t) - List.length kept)%nat in
        if Nat.ltb 0 affectedRows
        then (accept 200 "Calendar task deleted successfully" (Some i),
              {| rows := kept; auto_increment := auto_increment t |})
        else (reject 404 "Calendar task not found or not owned by this user",
              {| rows := kept; auto_increment := auto_increment t |})
      else if negb (JS.falsyZ (b_id body))
      then
        let i := or_else (b_id body) 0 in
        let affectedRows := List.length (filter (owned_id i user_name email) (rows t)) in
        let t' := {| rows := map (fun r => if owned_id i user_name email r
                                            then apply_fields body r else r) (rows t);
                     auto_increment := auto_increment t |} in
        if Nat.ltb 0 affectedRows
        then (accept 200 "Calendar task updated successfully" (Some i), t')
        else (reject 404 "Calendar task not found or not owned by this user", t')
      else if (JS.falsy (b_task_date body) || JS.falsyZ (b_task_type body)
               || JS.falsy (b_task_description body) || JS.falsy (b_color_code body)
               || JS.falsy (b_theme body))%bool
      then (reject 400
              "Missing required fields: task_date, task_type, task_description, color_code, or theme",
            t)
      else
        let task_date := or_else (b_task_date body) "" in
        let task_type := or_else (b_task_type body) 0 in
        let task_description := or_else (b_task_description body) "" in
        let color_code := or_else (b_color_code body) "" in
        let theme := or_else (b_theme body) "" in
        match filter (date_key user_name email task_date theme) (rows t) with
        | existing :: _ =>
            (accept 200 "Calendar task updated successfully" (Some (Calendar.id existing)),
             {| rows := map (overwrite (Calendar.id existing) task_type
                               task_description color_code) (rows t);
                auto_increment := auto_increment t |})
        | [] =>
            let insertId := auto_increment t in
            let r := {| id := insertId; user_name := user_name; email := email;
                        task_date := task_date; task_type := task_type;
                        task_description := task_description;
                        color_code := color_code; theme := theme |} in
            (accept 201 "Calendar task saved successfully" (Some insertId),
             {| rows := rows t ++ [r]; auto_increment := insertId + 1 |})
        end
  | _, _ => (mismatch, t)
  end.

(** *** DELETE /calendar2025/tasks/:id

    The route has no gate in front of it and its handler never reads the
    request headers.  The path parameter is a string, the [id] column an
    INT: the comparison [id = ?] is the database's, taken here as
    [sql_id_eq]. *)

Record DeleteRequest := {
  headers_authorization : option string;
  params_id : string
}.

Section CompatDelete.

Variable sql_id_eq : Z -> string -> bool.

Definition delete_compat (req : DeleteRequest) (t : Table) : Response * Table :=
  let taskId := params_id req in
  let kept := filter (fun r => negb (sql_id_eq (Calendar.id r) taskId)) (rows t) in
  let affectedRows := (List.length (rows t) - List.length kept)%nat in
  let t' := {| rows := kept; auto_increment := auto_increment t |} in
  if Nat.ltb 0 affectedRows
  then (accept 200 "Calendar task deleted successfully" None, t')
  else (reject 404 "Calendar task not found", t').

End CompatDelete.

(** The comparison on ids written in plain decimal. *)
Definition decimal_id_eq (i : Z) (s : string) : bool :=
  String.eqb (JS.toString i) s.

End Calendar.

(** ** Mind-tools activity counters *)

Module MindTools.

(** The row [SELECT id, name, email FROM user WHERE id = ?] found for the
    id carried by the verified token. *)
Record User := { user_id : Z; name : string; email : string }.

(** A row of [mind_tools_activity]. *)
Record Row := {
  id : Z;
  row_user_name : string;
  row_email : string;
  row_tracker_type : string;
  row_activity_date : string;
  row_count : Z
}.

Record Table := { rows : list Row; auto_increment : Z }.

(** An element of [req.body.activities]. *)
Record Activity := {
  tracker_type : option string;
  activity_date : option string;
  count : option Z
}.

(** [count || 1] *)
Definition count_or_1 (count : option Z) : Z :=
  match count with
  | None => 1
  | Some n => if n =? 0 then 1 else n
  end.

Inductive Data :=
| Inserted (insertId : Z) (tracker_type activity_date : string) (count : Z)
| Counter (tracker_type activity_date : string) (count : Z)
| Echo (activity : Activity).

Record Result := { success : bool; message : string; data : Data }.

Inductive SyncResponse :=
| SyncOk (message : string) (results : list Result)
| SyncError (status : Z) (message : string).

(** [WHERE email = ? AND tracker_type = ? AND activity_date = ?] *)
Definition key_matches (email tracker date : string) (r : Row) : bool :=
  (String.eqb (row_email r) email && String.eqb (row_tracker_type r) tracker
   && String.eqb (row_activity_date r) date)%bool.

Definition select (email tracker date : string) (t : Table) : list Row :=
  filter (key_matches email tracker date) (rows t).

(** [UPDATE mind_tools_activity SET count = ? WHERE id = ?] *)
Definition set_count (i n : Z) (r : Row) : Row :=
  if id r =? i
  then {| id := id r; row_user_name := row_user_name r; row_email := row_email r;
          row_tracker_type := row_tracker_type r;
          row_activity_date := row_activity_date r; row_count := n |}
  else r.

Definition update_count (i n : Z) (t : Table) : Table :=
  {| rows := map (set_count i n) (rows t); auto_increment := auto_increment t |}.

(** [INSERT INTO mind_tools_activity (...) VALUES (?, ?, ?, ?, ?)] *)
Definition insert (user_name email tracker date : string) (n : Z) (t : Table) : Table :=
  {| rows := rows t ++ [ {| id := auto_increment t; row_user_name := user_name;
                            row_email := email; row_tracker_type := tracker;
                            row_activity_date := date; row_count := n |} ];
     auto_increment := auto_increment t + 1 |}.

Definition validTrackers : list string :=
  ["thought_shredder"; "make_me_smile"; "bubble_wrap_popper"; "break_things"].

(** [validTrackers.includes(tracker_type)] *)
Definition includes (l : list string) (s : string) : bool :=
  existsb (String.eqb s) l.

Section Handlers.

(** [new Date(d).toISOString().split('T')[0]]; [None] when [toISOString]
    throws a RangeError because the date is invalid. *)
Variable formatDate : string -> option string.

(** The body of [for (const activity of activities)] in
    POST /api/mind-tools/sync.  [None]: an exception left the loop (the
    date is formatted before the inner [try]). *)
Definition sync_activity (user : User) (activity : Activity) (t : Table)
  : option (Result * Table) :=
  let missing := {| success := false; message := "Missing required fields";
                    data := Echo activity |} in
  if (JS.falsy (tracker_type activity) || JS.falsy (activity_date activity))%bool
  then Some (missing, t)
  else
    match tracker_type activity, activity_date activity with
    | Some tracker, Some date =>
        match formatDate date with
        | None => None
        | Some formattedDate =>
            match select (email user) tracker formattedDate t with
            | existing :: _ =>
                if row_count existing <? count_or_1 (count activity)
                then Some ({| success := true; message := "Activity updated";
                              data := Counter tracker formattedDate
                                        (count_or_1 (count activity)) |},
                           update_count (id existing) (count_or_1 (count activity)) t)
                else Some ({| success := true;
                              message := "No update needed (server has higher count)";
                              data := Counter tracker formattedDate (row_count existing) |},
                           t)
            | [] =>
                Some ({| success := true; message := "Activity recorded";
                         data := Inserted (auto_increment t) tracker formattedDate
                                   (count_or_1 (count activity)) |},
                      insert (name user) (email user) tracker formattedDate
                        (count_or_1 (count activity)) t)
            end
        end
    | _, _ => Some (missing, t)
    end.

(** The loop: [results] accumulates one entry per activity processed; the
    table keeps the writes made before an exception. *)
Fixpoint process (user : User) (activities : list Activity)
    (results : list Result) (t : Table) : option (list Result) * Table :=
  match activities with
  | [] => (Some results, t)
  | activity :: rest =>
      match sync_activity user activity t with
      | None => (None, t)
      | Some (r, t') => process user rest (results ++ [r]) t'
      end
  end.

(** POST /api/mind-tools/sync once the token has been verified and [user]
    found; [activities] is [None] when the field is absent or not an
    array. *)
Definition sync (user : User) (activities : option (list Activity)) (t : Table)
  : SyncResponse * Table :=
  match activities with
  | None | Some [] =>
      (SyncError 400 "Invalid request format. Expected activities array.", t)
  | Some acts =>
      match process user acts [] t with
      | (Some results, t') =>
          (SyncOk ("Processed " ++ JS.toString (Z.of_nat (List.length results))
                   ++ " activities") results, t')
      | (None, t') => (SyncError 500 "Error syncing activities", t')
      end
  end.

(** A sequence of sync requests, each with its own user and batch. *)
Fixpoint sync_all (calls : list (User * option (list Activity))) (t : Table) : Table :=
  match calls with
  | [] => t
  | (user, activities) :: rest => sync_all rest (snd (sync user activities t))
  end.

(** POST /api/mind-tools/activity once the user is found: the
    single-counter increment.  [today] is what [new Date()] formats to. *)
Variable today : string.

Inductive ActivityResponse :=
| ActivityOk (status : Z) (message : string) (data : Data)
| ActivityError (status : Z) (message : string).

Definition record_activity (user : User) (tracker_type activity_date : option string)
    (t : Table) : ActivityResponse * Table :=
  match tracker_type with
  | None => (ActivityError 400 "Missing required field: tracker_type", t)
  | Some tracker =>
      if String.eqb tracker ""
      then (ActivityError 400 "Missing required field: tracker_type", t)
      else
        let formatted :=
          if JS.falsy activity_date then Some today
          else match activity_date with Some d => formatDate d | None => Some today end in
        match formatted with
        | None => (ActivityError 500 "Error recording activity", t)
        | Some formattedDate =>
            if negb (includes validTrackers tracker)
            then (ActivityError 400
                    ("Invalid tracker_type. Must be one of: "
                     ++ String.concat ", " validTrackers), t)
            else
              match select (email user) tracker formattedDate t with
              | existing :: _ =>
                  let newCount := row_count existing + 1 in
                  (ActivityOk 200 "Activity count updated"
                     (Counter tracker formattedDate newCount),
                   update_count (id existing) newCount t)
              | [] =>
                  (ActivityOk 201 "Activity recorded"
                     (Inserted (auto_increment t) tracker formattedDate 1),
                   insert (name user) (email user) tracker formattedDate 1 t)
              end
        end
  end.

End Handlers.

(** *** Reading the table *)

(** The count the handlers see for a key: that of the first matching row. *)
Definition stored_count (email tracker date : string) (t : Table) : option Z :=
  match select email tracker date t with
  | r :: _ => Some (row_count r)
  | [] => None
  end.

(** Ids are unique and below the AUTO_INCREMENT counter ([id] is the
    primary key). *)
Definition well_formed (t : Table) : Prop :=
  NoDup (map id (rows t)) /\ Forall (fun r => id r < auto_increment t) (rows t).

Definition empty : Table := {| rows := []; auto_increment := 1 |}.

(** The action a result reports, read off its message. *)
Inductive Action := created | updated | unchanged | failed.

Definition action (r : Result) : Action :=
  if negb (success r) then failed
  else if String.eqb (message r) "Activity recorded" then created
  else if String.eqb (message r) "Activity updated" then updated
  else unchanged.

Definition finalCount (r : Result) : option Z :=
  match data r with
  | Inserted _ _ _ n => Some n
  | Counter _ _ n => Some n
  | Echo _ => None
  end.

(** *** An instance of the date formatting

    A date-only string [YYYY-MM-DD] naming a calendar day denotes midnight
    UTC of that day and formats back to itself.  Any other string is
    answered as an invalid date; of those, the examples below use only
    strings without a digit, which no engine parses. *)

Definition digit_val (c : ascii) : option Z :=
  if JS.is_digit c then Some (Z.of_nat (nat_of_ascii c - 48)) else None.

Definition two_digits (a b : ascii) : option Z :=
  match digit_val a, digit_val b with
  | Some x, Some y => Some (10 * x + y)
  | _, _ => None
  end.

Definition leap (y : Z) : bool :=
  ((y mod 4 =? 0) && (negb (y mod 100 =? 0) || (y mod 400 =? 0)))%bool.

Definition days_in_month (y m : Z) : Z :=
  if m =? 2 then (if leap y then 29 else 28)
  else if (m =? 4) || (m =? 6) || (m =? 9) || (m =? 11) then 30
  else 31.

Definition isoDateOnly (s : string) : option string :=
  match s with
  | String y1 (String y2 (String y3 (String y4 (String "-"
      (String m1 (String m2 (String "-" (String d1 (String d2 EmptyString))))))))) =>
      match two_digits y1 y2, two_digits y3 y4, two_digits m1 m2, two_digits d1 d2 with
      | Some yh, Some yl, Some m, Some d =>
          if ((1 <=? m) && (m <=? 12) && (1 <=? d)
              && (d <=? days_in_month (100 * yh + yl) m))%bool
          then Some s else None
      | _, _, _, _ => None
      end
  | _ => None
  end.

End MindTools.

(** * Further handlers

    The conventions are those of the handlers above; in addition, the width
    of a column and the range of a numeric column are not represented. *)

(** ** Loading task collections *)

Module TaskLoad.

Inductive Response :=
| Rows (results : list Tasks.Row)
| Error (status : Z) (message : string).

(** [WHERE user_name = ? AND email = ? AND theme = ?], with [eq] for the
    [=] of the table. *)
Definition owned_in_theme (eq : string -> string -> bool)
    (user_name email theme : string) (r : Tasks.Row) : bool :=
  match Tasks.user_name r, Tasks.email r with
  | Some n, Some e => (eq n user_name && eq e email && eq (Tasks.theme r) theme)%bool
  | _, _ => false
  end.

(** GET /api/tasks/load, after the gate: it reads [vision_board_tasks]
    only.  The rows are answered as the table holds them. *)
Definition load (schema : string -> Tasks.Schema) (user : Gate.Identity)
    (theme : option string) (db : Tasks.Tables) : Response :=
  if JS.falsy theme
  then Error 400 "Missing required parameter: theme"
  else
    match theme with
    | Some th =>
        Rows (filter (owned_in_theme (Tasks.text_eq (schema "vision_board_tasks"))
                        (Gate.user_name user) (Gate.email user) th)
                (Tasks.rows (Tasks.vision_board_tasks db)))
    | None => Error 400 "Missing required parameter: theme"
    end.

(** A table in which ids are unique and below the counter, and no natural
    key, taken letter by letter, is held by two rows. *)
Definition table_ok (t : Tasks.Table) : Prop :=
  NoDup (map Tasks.id (Tasks.rows t))
  /\ Forall (fun r => Tasks.id r < Tasks.auto_increment t) (Tasks.rows t)
  /\ forall user_name email card_id theme,
       (List.length (filter (Tasks.key_matches String.eqb user_name email card_id theme)
                       (Tasks.rows t)) <= 1)%nat.

Definition tables_ok (db : Tasks.Tables) : Prop :=
  table_ok (Tasks.vision_board_tasks db) /\ table_ok (Tasks.weekly_planner_tasks db).

End TaskLoad.

(** ** Calendar entries: the compatibility writes *)

Module CalendarCompat.

(** The [task: { id }] member of an answer: a number after an insert or an
    update by natural key, the path parameter after an update by id. *)
Inductive TaskRef :=
| NumId (i : Z)
| TextId (s : string).

Record Response := {
  status : Z;
  success : bool;
  message : string;
  task : option TaskRef
}.

(** POST /calendar2025/tasks: no gate; [b_id] and [b_delete] of the body
    are not read. *)
Definition post (body : Calendar.Body) (t : Calendar.Table) : Response * Calendar.Table :=
  if (JS.falsy (Calendar.b_user_name body) || JS.falsy (Calendar.b_email body)
      || JS.falsy (Calendar.b_task_date body) || JS.falsyZ (Calendar.b_task_type body)
      || JS.falsy (Calendar.b_task_description body)
      || JS.falsy (Calendar.b_color_code body) || JS.falsy (Calendar.b_theme body))%bool
  then ({| status := 400; success := false; message := "Missing required fields";
           task := None |}, t)
  else
    let user_name := Calendar.or_else (Calendar.b_user_name body) "" in
    let email := Calendar.or_else (Calendar.b_email body) "" in
    let task_date := Calendar.or_else (Calendar.b_task_date body) "" in
    let task_type := Calendar.or_else (Calendar.b_task_type body) 0 in
    let task_description := Calendar.or_else (Calendar.b_task_description body) "" in
    let color_code := Calendar.or_else (Calendar.b_color_code body) "" in
    let theme := Calendar.or_else (Calendar.b_theme body) "" in
    let normalizedColorCode :=
      if negb (JS.startsWith color_code "selected-color-")
      then "selected-color-" ++ JS.toString task_type
      else color_code in
    match filter (Calendar.date_key user_name email task_date theme) (Calendar.rows t) with
    | existing :: _ =>
        ({| status := 200; success := true;
            message := "Calendar task updated successfully";
            task := Some (NumId (Calendar.id existing)) |},
         {| Calendar.rows :=
              map (Calendar.overwrite (Calendar.id existing) task_type
                     task_description normalizedColorCode) (Calendar.rows t);
            Calendar.auto_increment := Calendar.auto_increment t |})
    | [] =>
        let insertId := Calendar.auto_increment t in
        ({| status := 201; success := true;
            message := "Calendar task saved successfully";
            task := Some (NumId insertId) |},
         {| Calendar.rows := Calendar.rows t ++
              [ {| Calendar.id := insertId; Calendar.user_name := user_name;
                   Calendar.email := email; Calendar.task_date := task_date;
                   Calendar.task_type := task_type;
                   Calendar.task_description := task_description;
                   Calendar.color_code := normalizedColorCode;
                   Calendar.theme := theme |} ];
            Calendar.auto_increment := insertId + 1 |})
    end.

(** The dynamic SET of the update by path id: type, description, color
    code and date, each when its field is not [undefined]; the theme is not
    among them. *)
Definition put_fields (body : Calendar.Body) (r : Calendar.Task) : Calendar.Task :=
  {| Calendar.id := Calendar.id r;
     Calendar.user_name := Calendar.user_name r;
     Calendar.email := Calendar.email r;
     Calendar.task_date := Calendar.or_else (Calendar.b_task_date body) (Calendar.task_date r);
     Calendar.task_type := Calendar.or_else (Calendar.b_task_type body) (Calendar.task_type r);
     Calendar.task_description :=
       Calendar.or_else (Calendar.b_task_description body) (Calendar.task_description r);
     Calendar.color_code :=
       Calendar.or_else (Calendar.b_color_code body) (Calendar.color_code r);
     Calendar.theme := Calendar.theme r |}.

Section Put.

(** The database's comparison of the INT column [id] with the path
    parameter. *)
Variable sql_id_eq : Z -> string -> bool.

(** [WHERE id = ? AND user_name = ? AND email = ?] *)
Definition put_target (taskId user_name email : string) (r : Calendar.Task) : bool :=
  (sql_id_eq (Calendar.id r) taskId && String.eqb (Calendar.user_name r) user_name
   && String.eqb (Calendar.email r) email)%bool.

(** PUT /calendar2025/tasks/:id: no gate; the owner is the one the body
    names. *)
Definition put (taskId : string) (body : Calendar.Body) (t : Calendar.Table)
  : Response * Calendar.Table :=
  if (JS.falsy (Calendar.b_user_name body) || JS.falsy (Calendar.b_email body))%bool
  then ({| status := 400; success := false;
           message := "Missing required fields: user_name or email";
           task := None |}, t)
  else
    let user_name := Calendar.or_else (Calendar.b_user_name body) "" in
    let email := Calendar.or_else (Calendar.b_email body) "" in
    let affectedRows :=
      List.length (filter (put_target taskId user_name email) (Calendar.rows t)) in
    let t' := {| Calendar.rows :=
                   map (fun r => if put_target taskId user_name email r
                                 then put_fields body r else r) (Calendar.rows t);
                 Calendar.auto_increment := Calendar.auto_increment t |} in
    if Nat.ltb 0 affectedRows
    then ({| status := 200; success := true;
             message := "Calendar task updated successfully";
             task := Some (TextId taskId) |}, t')
    else ({| status := 404; success := false;
             message := "Calendar task not found or not owned by this user";
             task := None |}, t').

End Put.

End CalendarCompat.

(** ** Accounts: register, login, profile, welcome email

    The [user] table is represented by the columns the handlers read.  The
    external libraries are parameters: [bcrypt_hash] is the hash
    [bcrypt.hash(password, 10)] returns, [bcrypt_compare] is
    [bcrypt.compare], [jwt_sign id email] is the token
    [jwt.sign({ id, email }, JWT_SECRET, ...)], [jwt_verify] is what
    [jwt.verify] hands to its callback.  Whether [sendWelcomeEmail]
    resolves is an input of the request, [emailOk]; the calls made to it are
    part of the outcome.  The salt of a hash and the issue time of a token
    are not represented: no statement compares the hashes or the tokens of
    two requests.  POST /auth/google is left out. *)

Module Auth.

Record UserRow := {
  id : Z;
  name : string;
  email : string;
  password_hash : option string;
  welcome_email_sent : Z
}.

Record Table := { rows : list UserRow; auto_increment : Z }.

(** The [user] member of an answer: id, name, email. *)
Record UserView := { view_id : Z; view_name : string; view_email : string }.

Definition view (u : UserRow) : UserView :=
  {| view_id := id u; view_name := name u; view_email := email u |}.

Record Response := {
  status : Z;
  message : string;
  user : option UserView;
  token : option string
}.

Definition answer (st : Z) (msg : string) : Response :=
  {| status := st; message := msg; user := None; token := None |}.

(** What a request leaves behind: the answer, the table, and the calls to
    [sendWelcomeEmail] as (email, name). *)
Record Outcome := {
  response : Response;
  users : Table;
  mails : list (string * string)
}.

(** [jwt.verify]: the decoded payload's [id], or the [name] of the error. *)
Inductive Verified :=
| Decoded (id : option Z)
| Failed (errorName : string).

(** [SELECT ... FROM user WHERE email = ?] *)
Definition by_email (e : string) (t : Table) : list UserRow :=
  filter (fun u => String.eqb (email u) e) (rows t).

(** [SELECT ... FROM user WHERE id = ?] *)
Definition by_id (i : Z) (t : Table) : list UserRow :=
  filter (fun u => id u =? i) (rows t).

(** [UPDATE user SET welcome_email_sent = 1 WHERE id = ?] *)
Definition mark_sent (i : Z) (t : Table) : Table :=
  {| rows := map (fun u => if id u =? i
                           then {| id := id u; name := name u; email := email u;
                                   password_hash := password_hash u;
                                   welcome_email_sent := 1 |}
                           else u) (rows t);
     auto_increment := auto_increment t |}.

Record RegisterBody := {
  r_username : option string;
  r_email : option string;
  r_password : option string
}.

Record LoginBody := {
  l_email : option string;
  l_password : option string
}.

Record WelcomeBody := {
  w_email : option string;
  w_name : option string;
  w_userId : option Z
}.

Section Handlers.

Variable bcrypt_hash : string -> string.
Variable bcrypt_compare : string -> string -> bool.
Variable jwt_sign : Z -> string -> string.
Variable jwt_verify : string -> Verified.

(** POST /auth/register *)
Definition register (emailOk : bool) (body : RegisterBody) (t : Table) : Outcome :=
  if (JS.falsy (r_username body) || JS.falsy (r_email body)
      || JS.falsy (r_password body))%bool
  then {| response := answer 400 "Missing required fields"; users := t; mails := [] |}
  else
    match r_username body, r_email body, r_password body with
    | Some username, Some email, Some password =>
        match by_email email t with
        | _ :: _ =>
            {| response := answer 400 "Email already in use"; users := t; mails := [] |}
        | [] =>
            let hashedPassword := bcrypt_hash password in
            let userId := auto_increment t in
            let t1 := {| rows := rows t ++
                           [ {| id := userId; name := username; email := email;
                                password_hash := Some hashedPassword;
                                welcome_email_sent := 0 |} ];
                         auto_increment := userId + 1 |} in
            let token := jwt_sign userId email in
            let userData := by_id userId t1 in
            {| response := {| status := 201; message := "Registration successful";
                              user := option_map view (hd_error userData);
                              token := Some token |};
               users := if emailOk then mark_sent userId t1 else t1;
               mails := [(email, username)] |}
        end
    | _, _, _ =>
        {| response := answer 400 "Missing required fields"; users := t; mails := [] |}
    end.

(** POST /auth/login.  An absent email is bound as NULL and matches no
    row; [bcrypt.compare] rejects when the password or the stored hash is
    missing, which the handler answers with 500. *)
Definition login (emailOk : bool) (body : LoginBody) (t : Table) : Outcome :=
  let results := match l_email body with
                 | Some e => by_email e t
                 | None => []
                 end in
  match results with
  | [] => {| response := answer 401 "Invalid email or password"; users := t; mails := [] |}
  | u :: _ =>
      match l_password body, password_hash u with
      | Some password, Some hash =>
          if negb (bcrypt_compare password hash)
          then {| response := answer 401 "Invalid email or password";
                  users := t; mails := [] |}
          else
            let token := jwt_sign (id u) (Calendar.or_else (l_email body) "") in
            let answered := {| status := 200; message := "Login successful";
                               user := Some (view u); token := Some token |} in
            if welcome_email_sent u =? 0
            then {| response := answered;
                    users := if emailOk then mark_sent (id u) t else t;
                    mails := [(email u, name u)] |}
            else {| response := answered; users := t; mails := [] |}
      | _, _ => {| response := answer 500 "Server error"; users := t; mails := [] |}
      end
  end.

(** [authHeader.split(' ')[1]] *)
Definition bearer_token (authHeader : string) : option string :=
  nth_error (JS.split authHeader " ") 1.

(** GET /auth/profile: only an error named [JsonWebTokenError] is answered
    401, any other failure of the verification 500. *)
Definition profile (authHeader : option string) (t : Table) : Response :=
  match authHeader with
  | None => answer 401 "Unauthorized"
  | Some h =>
      if (String.eqb h "" || negb (JS.startsWith h "Bearer "))%bool
      then answer 401 "Unauthorized"
      else
        match bearer_token h with
        | None => answer 401 "Invalid token"
        | Some token =>
            match jwt_verify token with
            | Failed errorName =>
                if String.eqb errorName "JsonWebTokenError"
                then answer 401 "Invalid token"
                else answer 500 "Server error"
            | Decoded None => answer 404 "User not found"
            | Decoded (Some i) =>
                match by_id i t with
                | [] => answer 404 "User not found"
                | u :: _ => {| status := 200; message := "";
                               user := Some (view u); token := None |}
                end
            end
        end
  end.

(** The preamble of the token-protected resource handlers (annual
    calendar, weekly planner, mind tools): the user row, or the answer that
    ends the request. *)
Inductive Resolved :=
| Known (u : UserRow)
| Denied (status : Z) (message : string).

Definition resolve_user (authHeader : option string) (t : Table) : Resolved :=
  match authHeader with
  | None => Denied 401 "Authentication required"
  | Some h =>
      if (String.eqb h "" || negb (JS.startsWith h "Bearer "))%bool
      then Denied 401 "Authentication required"
      else
        match bearer_token h with
        | None => Denied 401 "Invalid token"
        | Some token =>
            match jwt_verify token with
            | Failed _ => Denied 401 "Invalid token"
            | Decoded None => Denied 404 "User not found"
            | Decoded (Some i) =>
                match by_id i t with
                | [] => Denied 404 "User not found"
                | u :: _ => Known u
                end
            end
        end
  end.

(** POST /api/send-welcome-email *)
Definition send_welcome_email (emailOk : bool) (body : WelcomeBody) (t : Table)
  : Outcome :=
  if (JS.falsy (w_email body) || JS.falsy (w_name body))%bool
  then {| response := answer 400 "Missing required fields - email and name are required";
          users := t; mails := [] |}
  else
    let sent := [(Calendar.or_else (w_email body) "", Calendar.or_else (w_name body) "")] in
    if emailOk
    then {| response := answer 200 "Welcome email sent successfully";
            users := if JS.falsyZ (w_userId body) then t
                     else mark_sent (Calendar.or_else (w_userId body) 0) t;
            mails := sent |}
    else {| response := answer 500 "Failed to send welcome email";
            users := t; mails := sent |}.

End Handlers.

(** Ids are unique and below the counter, and no email is held by two
    rows. *)
Definition table_ok (t : Table) : Prop :=
  NoDup (map id (rows t))
  /\ Forall (fun u => id u < auto_increment t) (rows t)
  /\ forall e, (List.length (by_email e t) <= 1)%nat.

Definition no_users : Table := {| rows := []; auto_increment := 1 |}.

End Auth.

(** ** Weekly planner and annual calendar (token-protected)

    The two pairs of handlers differ in the table they address only.  The
    weekly planner's table is the [weekly_planner_tasks] that the generic
    task save writes as well.  The definitions of the two tables are not in
    the repository: texts are compared letter by letter and the tasks text
    is kept as sent. *)

Module Planner.

Record Body := {
  b_card_id : option string;
  b_tasks : option string;
  b_theme : option string
}.

Inductive GetResponse :=
| Listed (tasks : list Tasks.Row)
| GetDenied (status : Z) (message : string).

(** [WHERE user_name = ? AND email = ?] *)
Definition owned (name email : string) (r : Tasks.Row) : bool :=
  match Tasks.user_name r, Tasks.email r with
  | Some n, Some e => (String.eqb n name && String.eqb e email)%bool
  | _, _ => false
  end.

Section Handlers.

Variable jwt_verify : string -> Auth.Verified.

(** GET /weekly-planner/tasks, GET /annual-calendar/tasks *)
Definition get (authHeader : option string) (users : Auth.Table) (t : Tasks.Table)
  : GetResponse :=
  match Auth.resolve_user jwt_verify authHeader users with
  | Auth.Denied st msg => GetDenied st msg
  | Auth.Known user =>
      Listed (filter (owned (Auth.name user) (Auth.email user)) (Tasks.rows t))
  end.

(** POST /weekly-planner/tasks, POST /annual-calendar/tasks *)
Definition post (authHeader : option string) (body : Body) (users : Auth.Table)
    (t : Tasks.Table) : Response * Tasks.Table :=
  match Auth.resolve_user jwt_verify authHeader users with
  | Auth.Denied st msg => (reject st msg, t)
  | Auth.Known user =>
      if (JS.falsy (b_card_id body) || JS.falsy (b_tasks body)
          || JS.falsy (b_theme body))%bool
      then (reject 400 "Missing required fields: card_id, tasks, or theme", t)
      else
        let card_id := Calendar.or_else (b_card_id body) "" in
        let tasks := Calendar.or_else (b_tasks body) "" in
        let theme := Calendar.or_else (b_theme body) "" in
        match filter (Tasks.key_matches String.eqb (Auth.name user) (Auth.email user)
                        card_id theme)
                (Tasks.rows t) with
        | existing :: _ =>
            (accept 200 "Task updated successfully" (Some (Tasks.id existing)),
             {| Tasks.rows := map (Tasks.update_tasks (Tasks.id existing) tasks)
                                (Tasks.rows t);
                Tasks.auto_increment := Tasks.auto_increment t |})
        | [] =>
            let insertId := Tasks.auto_increment t in
            (accept 201 "Task created successfully" (Some insertId),
             {| Tasks.rows := Tasks.rows t ++
                  [ {| Tasks.id := insertId; Tasks.user_name := Some (Auth.name user);
                       Tasks.email := Some (Auth.email user); Tasks.card_id := card_id;
                       Tasks.tasks := tasks; Tasks.theme := theme |} ];
                Tasks.auto_increment := insertId + 1 |})
        end
  end.

(** POST /weekly-planner/tasks on the tables of the generic task save. *)
Definition weekly_post (authHeader : option string) (body : Body)
    (users : Auth.Table) (db : Tasks.Tables) : Response * Tasks.Tables :=
  let r := post authHeader body users (Tasks.weekly_planner_tasks db) in
  (fst r, {| Tasks.vision_board_tasks := Tasks.vision_board_tasks db;
             Tasks.weekly_planner_tasks := snd r |}).

End Handlers.

End Planner.

(** ** The connection test of [config/database.js] *)

Module Database.

(** How [testConnection] settles, with the number of calls it made to
    [pool.getConnection]. *)
Inductive Settled :=
| Resolved (attempts : nat)
| Rejected (attempts : nat).

(** [tryConnect(attemptsLeft)]: [connects k] tells whether the call number
    [k] (from 0) to [pool.getConnection] yields a connection; [attempt] is
    the number of the call about to be made.  The five seconds between two
    calls are not represented. *)
Fixpoint tryConnect (connects : nat -> bool) (attempt attemptsLeft : nat) : Settled :=
  if connects attempt
  then Resolved (S attempt)
  else
    match attemptsLeft with
    | O => Rejected (S attempt)
    | S n => tryConnect connects (S attempt) n
    end.

(** [testConnection(retries = 3)] for a whole number of retries. *)
Definition testConnection (retries : nat) (connects : nat -> bool) : Settled :=
  tryConnect connects 0 retries.

End Database.

(** ** The mail transporter of [services/emailService.js] *)

Module Email.

Inductive Transporter :=
| Gmail (user pass : string)
| Ethereal (user pass : string).

(** [process.env.EMAIL_USER], [process.env.EMAIL_PASS] *)
Record Env := { EMAIL_USER : option string; EMAIL_PASS : option string }.

(** What the outside answers during one call: whether
    [transporter.verify()] resolves, and the account
    [nodemailer.createTestAccount()] yields, [None] when it rejects. *)
Record Outside := { verifies : bool; testAccount : option (string * string) }.

Inductive Result :=
| Returned (tr : Transporter)
| Thrown.

(** [initializeTransporter], on the module variable [transporter]; the
    Gmail transporter is assigned before it is verified. *)
Definition initializeTransporter (env : Env) (outside : Outside)
    (transporter : option Transporter) : Result * option Transporter :=
  match transporter with
  | Some tr => (Returned tr, transporter)
  | None =>
      let ethereal (current : option Transporter) :=
        match testAccount outside with
        | Some (user, pass) => (Returned (Ethereal user pass), Some (Ethereal user pass))
        | None => (Thrown, current)
        end in
      if (negb (JS.falsy (EMAIL_USER env)) && negb (JS.falsy (EMAIL_PASS env)))%bool
      then
        let gmail := Gmail (Calendar.or_else (EMAIL_USER env) "")
                           (Calendar.or_else (EMAIL_PASS env) "") in
        if verifies outside
        then (Returned gmail, Some gmail)
        else ethereal (Some gmail)
      else ethereal None
  end.

(** Calls one after the other, each with its own answers from outside. *)
Fixpoint calls (env : Env) (outsides : list Outside) (transporter : option Transporter)
  : list Result * option Transporter :=
  match outsides with
  | [] => ([], transporter)
  | o :: rest =>
      let (r, tr') := initializeTransporter env o transporter in
      let (rs, tr'') := calls env rest tr' in
      (r :: rs, tr'')
  end.

End Email.

(** ** Vocabulary of the further statements *)

(** A counter table in which ids are unique and below the counter and no
    key (email, tracker, date) is held by two rows. *)
Definition counters_ok (t : MindTools.Table) : Prop :=
  MindTools.well_formed t
  /\ forall e tr d, (List.length (MindTools.select e tr d t) <= 1)%nat.

(** The item passes the date formatting of the sync loop: it lacks a field
    and is turned away before, or its date formats. *)
Definition formats (formatDate : string -> option string) (a : MindTools.Activity)
  : bool :=
  (JS.falsy (MindTools.tracker_type a) || JS.falsy (MindTools.activity_date a)
   || match MindTools.activity_date a with
      | Some d => match formatDate d with Some _ => true | None => false end
      | None => true
      end)%bool.

(** [n] increments of one counter, one request after the other. *)
Definition record_times (formatDate : string -> option string) (today : string)
    (user : MindTools.User) (tracker date : option string) (n : nat)
    (t : MindTools.Table) : MindTools.Table :=
  Nat.iter n (fun t => snd (MindTools.record_activity formatDate today user tracker date t)) t.

(** A day as a DATE column holds it and as a request names it: the text
    [YYYY-MM-DD] of a calendar day of the years 1000 to 9999.  Two such
    texts name the same day exactly when they are the same text. *)
Definition calendar_day (s : string) : bool :=
  match s, MindTools.isoDateOnly s with
  | String y _, Some _ => negb (Ascii.eqb y "0")
  | _, _ => false
  end.

(** A calendar table as its DATE column makes it: every stored date is a
    day. *)
Definition holds_days (t : Calendar.Table) : Prop :=
  Forall (fun r => calendar_day (Calendar.task_date r) = true) (Calendar.rows t).

(** Sample data of the further statements. *)
Definition dora : Auth.UserRow :=
  {| Auth.id := 1; Auth.name := "dora"; Auth.email := "dora@x.org";
     Auth.password_hash := Some "#pw"; Auth.welcome_email_sent := 0 |}.

Definition only_dora : Auth.Table :=
  {| Auth.rows := [dora]; Auth.auto_increment := 2 |}.

Definition no_rows : Tasks.Table := {| Tasks.rows := []; Tasks.auto_increment := 1 |}.

(** * Vocabulary of the statements *)

(** The header is the scheme, then [token], then nothing or a further
    [Bearer ] with whatever follows it, and [token] holds no [Bearer ]:
    [token] is what [authHeader.split('Bearer ')[1]] cuts out of a header
    that starts with the scheme. *)
Definition carries_token (h token : string) : Prop :=
  exists rest,
    h = "Bearer " ++ token ++ rest
    /\ JS.occurs "Bearer " token = false
    /\ (rest = "" \/ JS.startsWith rest "Bearer " = true).

(** [field] is [text] up to its first colon, or all of it when it has
    none. *)
Definition first_field (text field : string) : Prop :=
  exists tail,
    text = field ++ tail
    /\ JS.occurs ":" field = false
    /\ (tail = "" \/ JS.startsWith tail ":" = true).

(** What the gate answers once the token has been cut into its first two
    colon-separated fields. *)
Definition gate_decision (name mail : string) : Gate.Outcome :=
  if (String.eqb name "" || String.eqb mail "")%bool
  then Gate.Rejected 401
         "Invalid authentication format. Expected: Bearer username:email"
  else Gate.Next {| Gate.user_name := name; Gate.email := mail |}.

(** The shape [selected-color-<N>] as the specification words it: the
    prefix followed by a non-empty run of digits and nothing else. *)
Definition spec_color_shape (c : string) : bool :=
  (String.prefix "selected-color-" c
   && negb (String.eqb (Calendar.drop 15 c) "")
   && String.eqb (Calendar.take_digits (Calendar.drop 15 c)) (Calendar.drop 15 c))%bool.

(** The identity a body claims is the one the gate derived. *)
Definition same_identity (requestUser : Gate.Identity)
    (user_name email : option string) : Prop :=
  user_name = Some (Gate.user_name requestUser)
  /\ email = Some (Gate.email requestUser).

(** A stored row whose color code has the prefix and no number. *)
Definition prefixed_row : Calendar.Task :=
  {| Calendar.id := 1; Calendar.user_name := "u"; Calendar.email := "u@x.org";
     Calendar.task_date := "2025-01-01"; Calendar.task_type := 2;
     Calendar.task_description := "d";
     Calendar.color_code := "selected-color-x"; Calendar.theme := "animal" |}.

(** Sample data for the examples. *)
Definition alice : Gate.Identity :=
  {| Gate.user_name := "alice"; Gate.email := "alice@x.org" |}.

Definition no_tasks : Tasks.Tables :=
  {| Tasks.vision_board_tasks := {| Tasks.rows := []; Tasks.auto_increment := 1 |};
     Tasks.weekly_planner_tasks := {| Tasks.rows := []; Tasks.auto_increment := 1 |} |}.

Definition no_calendar : Calendar.Table :=
  {| Calendar.rows := []; Calendar.auto_increment := 1 |}.

(** A task save in bob's name, with [card_id] left out. *)
Definition bob_without_card : Tasks.Body :=
  {| Tasks.b_user_name := Some "bob"; Tasks.b_email := Some "bob@x.org";
     Tasks.b_card_id := None; Tasks.b_tasks := Some "[]";
     Tasks.b_theme := Some "animal"; Tasks.b_table := Some "vision_board_tasks" |}.

(** A calendar save in bob's name. *)
Definition bob_calendar : Calendar.Body :=
  {| Calendar.b_user_name := Some "bob"; Calendar.b_email := Some "bob@x.org";
     Calendar.b_task_date := Some "2025-05-15"; Calendar.b_task_type := Some 1;
     Calendar.b_task_description := Some "d";
     Calendar.b_color_code := Some "selected-color-1";
     Calendar.b_theme := Some "animal"; Calendar.b_id := None;
     Calendar.b_delete := false |}.

(** A calendar holding one entry of bob's, with id 7. *)
Definition bobs_calendar : Calendar.Table :=
  {| Calendar.rows :=
       [ {| Calendar.id := 7; Calendar.user_name := "bob"; Calendar.email := "bob@x.org";
            Calendar.task_date := "2025-05-15"; Calendar.task_type := 1;
            Calendar.task_description := "d";
            Calendar.color_code := "selected-color-1"; Calendar.theme := "animal" |} ];
     Calendar.auto_increment := 8 |}.

(** What a sync response reports per item: the action and the final count. *)
Definition summary (resp : MindTools.SyncResponse)
  : option (list (MindTools.Action * option Z)) :=
  match resp with
  | MindTools.SyncOk _ results =>
      Some (map (fun r => (MindTools.action r, MindTools.finalCount r)) results)
  | MindTools.SyncError _ _ => None
  end.

Definition carol : MindTools.User :=
  {| MindTools.user_id := 1; MindTools.name := "carol";
     MindTools.email := "carol@x.org" |}.

Definition item (tracker date : string) (count : option Z) : MindTools.Activity :=
  {| MindTools.tracker_type := Some tracker; MindTools.activity_date := Some date;
     MindTools.count := count |}.

(** Every counter stored in [t] is stored in [t'] with a count at least as
    large. *)
Definition grows (t t' : MindTools.Table) : Prop :=
  forall e tr d s,
    MindTools.stored_count e tr d t = Some s ->
    exists s', MindTools.stored_count e tr d t' = Some s' /\ s <= s'.

(** A table holding carol's counter for one day, at 3. *)
Definition carol_at_3 : MindTools.Table :=
  {| MindTools.rows :=
       [ {| MindTools.id := 1; MindTools.row_user_name := "carol";
            MindTools.row_email := "carol@x.org";
            MindTools.row_tracker_type := "break_things";
            MindTools.row_activity_date := "2025-01-01";
            MindTools.row_count := 3 |} ];
     MindTools.auto_increment := 2 |}.

(** What the loop body reports and leaves behind, without the echo of the
    item in a failure entry. *)
Definition outcome (x : option (MindTools.Result * MindTools.Table))
  : option (bool * string * option Z * MindTools.Table) :=
  option_map (fun p => (MindTools.success (fst p), MindTools.message (fst p),
                        MindTools.finalCount (fst p), snd p)) x.

(** A row with count 0, as another writer may have left it, and a table
    holding it. *)
Definition zero_row : MindTools.Row :=
  {| MindTools.id := 1; MindTools.row_user_name := "carol";
     MindTools.row_email := "carol@x.org";
     MindTools.row_tracker_type := "break_things";
     MindTools.row_activity_date := "2025-01-01"; MindTools.row_count := 0 |}.

Definition carol_at_0 : MindTools.Table :=
  {| MindTools.rows := [zero_row]; MindTools.auto_increment := 2 |}.

(** * Properties *)

(** ** Strings *)

Lemma append_empty_r (s : string) : s ++ "" = s.
Proof. induction s as [|c s IH]; simpl; [reflexivity | now rewrite IH]. Qed.

Lemma append_assoc (a b c : string) : (a ++ b) ++ c = a ++ (b ++ c).
Proof. induction a as [|x a IH]; simpl; [reflexivity | now rewrite IH]. Qed.

Lemma prefix_append (p s : string) : String.prefix p (p ++ s) = true.
Proof.
  induction p as [|c p IH]; simpl.
  - now destruct s.
  - destruct (ascii_dec c c) as [_|n]; [exact IH | now elim n].
Qed.

Lemma prefix_nonempty (p s : string) :
  p <> "" -> String.prefix p s = true -> String.eqb s "" = false.
Proof.
  intros Hp H. destruct s; [|reflexivity].
  destruct p; [now elim Hp | discriminate H].
Qed.

(** A piece without separator is returned whole. *)
Lemma split_go_no_occurrence (sep s cur : string) :
  JS.occurs sep s = false -> JS.split_go sep s 0 cur = [cur ++ s].
Proof.
  revert cur. induction s as [|c s IH]; intros cur H.
  - simpl. now rewrite append_empty_r.
  - cbn [JS.occurs] in H. apply orb_false_iff in H as [Hp Ho].
    cbn [JS.split_go]. rewrite Hp, (IH _ Ho), append_assoc. reflexivity.
Qed.

Lemma prefix_colon_head (c : ascii) (x y : string) :
  String.prefix ":" (String c x) = String.prefix ":" (String c y).
Proof.
  cbn [String.prefix].
  destruct (ascii_dec ":" c); [now destruct x, y | reflexivity].
Qed.

(** Splitting at the first colon. *)
Lemma split_go_colon (a b cur : string) :
  JS.occurs ":" a = false ->
  JS.split_go ":" (a ++ ":" ++ b) 0 cur = (cur ++ a) :: JS.split_go ":" b 0 "".
Proof.
  revert cur. induction a as [|c a IH]; intros cur H.
  - change ("" ++ ":" ++ b) with (String ":" b).
    cbn [JS.split_go]. replace (String.prefix ":" (String ":" b)) with true
      by (simpl; now destruct b).
    now rewrite append_empty_r.
  - cbn [JS.occurs] in H. apply orb_false_iff in H as [Hp Ho].
    change (String c a ++ ":" ++ b) with (String c (a ++ ":" ++ b)).
    cbn [JS.split_go].
    rewrite (prefix_colon_head c (a ++ ":" ++ b) a), Hp, (IH _ Ho), append_assoc.
    reflexivity.
Qed.

Lemma split_colon_fields (a b : string) :
  JS.occurs ":" a = false -> JS.split (a ++ ":" ++ b) ":" = a :: JS.split b ":".
Proof. intros H. unfold JS.split. now rewrite split_go_colon. Qed.

Lemma split_colon_single (a : string) :
  JS.occurs ":" a = false -> JS.split a ":" = [a].
Proof. intros H. unfold JS.split. now rewrite split_go_no_occurrence. Qed.

Lemma prefix_empty (s : string) : String.prefix "" s = true.
Proof. now destruct s. Qed.

Lemma prefix_app_mono (p a r : string) :
  String.prefix p a = true -> String.prefix p (a ++ r) = true.
Proof.
  revert a. induction p as [|c p IH]; intros a H.
  - apply prefix_empty.
  - destruct a as [|x a]; [discriminate H|].
    change (String x a ++ r) with (String x (a ++ r)).
    cbn [String.prefix] in H |- *.
    destruct (ascii_dec c x); [now apply IH | discriminate H].
Qed.

Lemma prefix_split (p s : string) :
  String.prefix p s = true -> exists s', s = p ++ s'.
Proof.
  revert s. induction p as [|c p IH]; intros s H.
  - now exists s.
  - destruct s as [|x s]; [discriminate H|].
    cbn [String.prefix] in H.
    destruct (ascii_dec c x) as [<-|]; [|discriminate H].
    destruct (IH _ H) as [s' ->]. now exists s'.
Qed.

(** Every text is a piece free of the separator, followed by nothing or by
    the separator and whatever comes after it. *)
Lemma cut_at_first (sep s : string) :
  sep <> "" ->
  exists a r, s = a ++ r /\ JS.occurs sep a = false
              /\ (r = "" \/ String.prefix sep r = true).
Proof.
  intros Hsep.
  assert (He : String.prefix sep "" = false)
    by (destruct sep; [now elim Hsep | reflexivity]).
  induction s as [|c s (a & r & -> & Ha & Hr)].
  - exists "", "". repeat split; [exact He | now left].
  - destruct (String.prefix sep (String c (a ++ r))) eqn:Hp.
    + exists "", (String c (a ++ r)). repeat split; [exact He | now right].
    + exists (String c a), r. repeat split; [|exact Hr].
      cbn [JS.occurs]. rewrite Ha, orb_false_r.
      destruct (String.prefix sep (String c a)) eqn:Hq; [|reflexivity].
      pose proof (prefix_app_mono _ _ r Hq) as Hq'.
      change (String c a ++ r) with (String c (a ++ r)) in Hq'.
      now rewrite Hq' in Hp.
Qed.

Ltac next_char x Hp :=
  destruct x as [|? x]; [reflexivity|];
  revert Hp; cbn [append String.prefix];
  match goal with
  | |- (if ?d then _ else _) = _ -> _ => destruct d; intros Hp; [|reflexivity]
  end.

(** The scheme does not overlap itself: where it starts inside a piece that
    is followed by the scheme, it lies inside the piece. *)
Lemma bearer_no_overlap (x rest : string) :
  x <> "" -> String.prefix "Bearer " x = false ->
  String.prefix "Bearer " rest = true ->
  String.prefix "Bearer " (x ++ rest) = false.
Proof.
  intros Hx Hp Hr.
  destruct (prefix_split _ _ Hr) as [rest' ->]. clear Hr.
  destruct x as [|c x]; [now elim Hx|]. clear Hx.
  revert Hp. cbn [append String.prefix].
  destruct (ascii_dec "B" c); intros Hp; [|reflexivity].
  do 6 (next_char x Hp).
  now rewrite prefix_empty in Hp.
Qed.

(** [split('Bearer ')] at the end of the first piece. *)
Lemma split_go_bearer (token rest cur : string) :
  JS.occurs "Bearer " token = false ->
  rest = "" \/ String.prefix "Bearer " rest = true ->
  exists l, JS.split_go "Bearer " (token ++ rest) 0 cur = (cur ++ token) :: l.
Proof.
  revert cur. induction token as [|c token IH]; intros cur Ho Hr.
  - change ("" ++ rest) with rest. rewrite append_empty_r.
    destruct Hr as [->|Hr].
    + now exists [].
    + destruct rest as [|b rest]; [discriminate Hr|].
      cbn [JS.split_go]. rewrite Hr. eauto.
  - cbn [JS.occurs] in Ho. apply orb_false_iff in Ho as [Hp Ho].
    change (String c token ++ rest) with (String c (token ++ rest)).
    cbn [JS.split_go].
    replace (String.prefix "Bearer " (String c (token ++ rest))) with false.
    + destruct (IH (cur ++ String c "") Ho Hr) as [l ->].
      exists l. now rewrite append_assoc.
    + symmetry. destruct Hr as [->|Hr].
      * now rewrite append_empty_r.
      * apply (bearer_no_overlap (String c token) rest); [discriminate|assumption..].
Qed.

Example split_three_fields : JS.split "a:b:c" ":" = ["a"; "b"; "c"].
Proof. reflexivity. Qed.

Example split_trailing_colon : JS.split "a:" ":" = ["a"; ""].
Proof. reflexivity. Qed.

Example split_scheme : JS.split "Bearer a:b" "Bearer " = [""; "a:b"].
Proof. reflexivity. Qed.

Example split_scheme_twice :
  JS.split "Bearer Bearer a:b" "Bearer " = [""; ""; "a:b"]
  /\ JS.split "Bearer a:bBearer z" "Bearer " = [""; "a:b"; "z"].
Proof. split; reflexivity. Qed.

Example toString_signs :
  JS.toString 2 = "2" /\ JS.toString 0 = "0" /\ JS.toString (-3) = "-3".
Proof. repeat split. Qed.

(** ** The identity gate *)

(** The gate on a header that starts with the scheme: the token is cut out
    and split at its colons. *)
Lemma gate_on_token (h token : string) :
  carries_token h token ->
  Gate.authenticateUserByToken (Some h) =
  let parts := JS.split token ":" in
  if (JS.falsy (nth_error parts 0) || JS.falsy (nth_error parts 1))%bool
  then Gate.Rejected 401
         "Invalid authentication format. Expected: Bearer username:email"
  else match nth_error parts 0, nth_error parts 1 with
       | Some n, Some e => Gate.Next {| Gate.user_name := n; Gate.email := e |}
       | _, _ => Gate.Rejected 401 "Authentication failed"
       end.
Proof.
  intros (rest & -> & Ho & Hr). unfold Gate.authenticateUserByToken.
  unfold JS.startsWith. rewrite prefix_append.
  unfold JS.split at 1.
  change (JS.split_go "Bearer " ("Bearer " ++ token ++ rest) 0 "")
    with (if String.prefix "" (token ++ rest)
          then "" :: JS.split_go "Bearer " (token ++ rest) 0 ""
          else JS.split_go "Bearer " ("earer " ++ token ++ rest) 0 "B").
  rewrite prefix_empty.
  destruct (split_go_bearer token rest "" Ho Hr) as [l ->].
  reflexivity.
Qed.

Lemma gate_not_bearer (h : string) :
  JS.startsWith h "Bearer " = false ->
  Gate.authenticateUserByToken (Some h) = Gate.Rejected 401 "Authentication required".
Proof.
  intros H. unfold Gate.authenticateUserByToken. rewrite H.
  now rewrite orb_true_r.
Qed.

Lemma gate_rejects_with_401 (h : option string) (st : Z) (m : string) :
  Gate.authenticateUserByToken h = Gate.Rejected st m -> st = 401.
Proof.
  unfold Gate.authenticateUserByToken.
  destruct h as [h|]; [|now inversion 1].
  destruct (_ || _)%bool; [now inversion 1|].
  destruct (nth_error (JS.split h "Bearer ") 1) as [token|]; [|now inversion 1].
  cbv zeta. destruct (_ || _)%bool; [now inversion 1|].
  destruct (nth_error (JS.split token ":") 0), (nth_error (JS.split token ":") 1);
    now inversion 1.
Qed.

Lemma header_carries (h : string) :
  JS.startsWith h "Bearer " = true -> exists token, carries_token h token.
Proof.
  intros H. destruct (prefix_split _ _ H) as [s ->].
  destruct (cut_at_first "Bearer " s ltac:(discriminate))
    as (token & rest & -> & Ho & Hr).
  exists token, rest. now repeat split.
Qed.

Lemma first_field_split (text field : string) :
  first_field text field -> nth_error (JS.split text ":") 0 = Some field.
Proof.
  intros (tail & -> & Hf & [->|Ht]).
  - rewrite append_empty_r. now rewrite split_colon_single.
  - destruct (prefix_split _ _ Ht) as [tail' ->].
    now rewrite split_colon_fields.
Qed.

Lemma token_shapes (token : string) :
  JS.occurs ":" token = false
  \/ exists name after mail,
       token = name ++ ":" ++ after
       /\ JS.occurs ":" name = false /\ first_field after mail.
Proof.
  destruct (cut_at_first ":" token ltac:(discriminate))
    as (name & r & -> & Hn & [->|Hr]).
  - left. now rewrite append_empty_r.
  - right. destruct (prefix_split _ _ Hr) as [after ->].
    destruct (cut_at_first ":" after ltac:(discriminate))
      as (mail & tail & -> & Hm & Ht).
    exists name, (mail ++ tail), mail. repeat split; trivial.
    exists tail. now repeat split.
Qed.

Lemma gate_one_field (h token : string) :
  carries_token h token -> JS.occurs ":" token = false ->
  Gate.authenticateUserByToken (Some h) =
  Gate.Rejected 401 "Invalid authentication format. Expected: Bearer username:email".
Proof.
  intros Hc Ho. rewrite (gate_on_token _ _ Hc). cbv zeta.
  rewrite (split_colon_single _ Ho). simpl. now rewrite orb_true_r.
Qed.

Lemma gate_two_fields (h name after mail : string) :
  carries_token h (name ++ ":" ++ after) ->
  JS.occurs ":" name = false -> first_field after mail ->
  Gate.authenticateUserByToken (Some h) = gate_decision name mail.
Proof.
  intros Hc Hn Hm. rewrite (gate_on_token _ _ Hc). cbv zeta.
  rewrite (split_colon_fields _ _ Hn).
  change (nth_error (name :: JS.split after ":") 0) with (Some name).
  change (nth_error (name :: JS.split after ":") 1)
    with (nth_error (JS.split after ":") 0).
  rewrite (first_field_split _ _ Hm). unfold gate_decision, JS.falsy.
  now destruct (_ || _)%bool.
Qed.

(** Claim C8, as the code has it.  The gate answers 401 when the header is
    missing or does not start with the scheme, and never rejects with another
    status.  A header that starts with the scheme carries a token: the text
    after the scheme, up to the next [Bearer ] if there is one.  A token
    without colon is rejected.  Any other token is [name:after]; with [mail]
    the text of [after] up to its first colon, or all of it when it has none,
    the gate accepts exactly when [name] and [mail] are both non-empty, and
    the identity is [(name, mail)]: the email is the text between the first
    and the second colon, whatever follows is dropped. *)
Theorem gate_pseudo_token :
  Gate.authenticateUserByToken None = Gate.Rejected 401 "Authentication required"
  /\ (forall h, JS.startsWith h "Bearer " = false ->
        Gate.authenticateUserByToken (Some h) =
        Gate.Rejected 401 "Authentication required")
  /\ (forall h st m, Gate.authenticateUserByToken h = Gate.Rejected st m -> st = 401)
  /\ (forall h, JS.startsWith h "Bearer " = true -> exists token, carries_token h token)
  /\ (forall token,
        JS.occurs ":" token = false
        \/ exists name after mail,
             token = name ++ ":" ++ after
             /\ JS.occurs ":" name = false /\ first_field after mail)
  /\ (forall h token,
        carries_token h token -> JS.occurs ":" token = false ->
        Gate.authenticateUserByToken (Some h) =
        Gate.Rejected 401
          "Invalid authentication format. Expected: Bearer username:email")
  /\ (forall h name after mail,
        carries_token h (name ++ ":" ++ after) ->
        JS.occurs ":" name = false -> first_field after mail ->
        Gate.authenticateUserByToken (Some h) = gate_decision name mail).
Proof.
  split; [reflexivity|].
  split; [exact gate_not_bearer|].
  split; [exact gate_rejects_with_401|].
  split; [exact header_carries|].
  split; [exact token_shapes|].
  split; [exact gate_one_field | exact gate_two_fields].
Qed.

Lemma gate_pseudo_token_witness :
  Gate.authenticateUserByToken (Some "Bearer alice:a@x.org:extraBearer z") =
  gate_decision "alice" "a@x.org".
Proof.
  apply (proj2 (proj2 (proj2 (proj2 (proj2 (proj2 gate_pseudo_token)))))
           "Bearer alice:a@x.org:extraBearer z" "alice" "a@x.org:extra" "a@x.org").
  - exists "Bearer z". split; [reflexivity|]. split; [reflexivity | now right].
  - reflexivity.
  - exists ":extra". split; [reflexivity|]. split; [reflexivity | now right].
Defined.

(** The email of a token with two colons is not everything after the first
    one, and a token whose second field is empty is rejected although text
    follows the first colon. *)
Lemma gate_email_stops_at_second_colon :
  Gate.authenticateUserByToken (Some "Bearer alice:a@x.org:extra") =
    Gate.Next {| Gate.user_name := "alice"; Gate.email := "a@x.org" |}
  /\ "a@x.org" <> "a@x.org:extra"
  /\ Gate.authenticateUserByToken (Some "Bearer alice::x") =
     Gate.Rejected 401
       "Invalid authentication format. Expected: Bearer username:email".
Proof. repeat split; [discriminate]. Qed.

(** A header that repeats the scheme: the token ends where the scheme
    starts again, and it is empty when the scheme follows at once. *)
Example gate_scheme_repeated :
  Gate.authenticateUserByToken (Some "Bearer Bearer alice:a@x.org") =
    Gate.Rejected 401 "Invalid authentication format. Expected: Bearer username:email"
  /\ Gate.authenticateUserByToken (Some "Bearer alice:a@x.orgBearer z") =
     Gate.Next {| Gate.user_name := "alice"; Gate.email := "a@x.org" |}.
Proof. split; reflexivity. Qed.

(** ** Calendar normalization *)

Lemma normalize_color_code (t : Calendar.Task) :
  Calendar.color_code (Calendar.normalize t) =
  if JS.startsWith (Calendar.color_code t) "selected-color-"
  then Calendar.color_code t
  else "selected-color-" ++ JS.toString (Calendar.task_type t).
Proof.
  unfold Calendar.normalize.
  destruct (JS.startsWith (Calendar.color_code t) "selected-color-") eqn:Hp.
  - rewrite (prefix_nonempty "selected-color-" _ ltac:(discriminate) Hp).
    cbn [orb negb]. rewrite Hp.
    destruct (Calendar.regex_match _); [|reflexivity].
    now destruct (negb _).
  - rewrite orb_true_r.
    set (c := "selected-color-" ++ JS.toString (Calendar.task_type t)).
    cbn [Calendar.color_code Calendar.set_color_code].
    unfold JS.startsWith. subst c. rewrite prefix_append.
    destruct (Calendar.regex_match _); [|reflexivity].
    now destruct (negb _).
Qed.

Lemma normalize_starts_with (t : Calendar.Task) :
  JS.startsWith (Calendar.color_code (Calendar.normalize t)) "selected-color-" = true.
Proof.
  rewrite normalize_color_code.
  destruct (JS.startsWith (Calendar.color_code t) "selected-color-") eqn:Hp; trivial.
  apply prefix_append.
Qed.

Lemma normalize_task_type (t : Calendar.Task) :
  Calendar.task_type (Calendar.normalize t) =
  match Calendar.regex_match (Calendar.color_code (Calendar.normalize t)) with
  | Some d => JS.parseInt d
  | None => Calendar.task_type t
  end.
Proof.
  rewrite normalize_color_code. unfold Calendar.normalize.
  destruct (JS.startsWith (Calendar.color_code t) "selected-color-") eqn:Hp.
  - rewrite (prefix_nonempty "selected-color-" _ ltac:(discriminate) Hp).
    cbn [orb negb]. rewrite Hp.
    destruct (Calendar.regex_match _) as [d|]; [|reflexivity].
    destruct (Calendar.task_type t =? JS.parseInt d) eqn:E; cbn [negb].
    + now apply Z.eqb_eq in E.
    + reflexivity.
  - rewrite orb_true_r.
    cbn [Calendar.color_code Calendar.set_color_code Calendar.task_type].
    unfold JS.startsWith. rewrite prefix_append.
    destruct (Calendar.regex_match _) as [d|]; [|reflexivity].
    destruct (Calendar.task_type t =? JS.parseInt d) eqn:E; cbn [negb].
    + now apply Z.eqb_eq in E.
    + reflexivity.
Qed.

Lemma normalize_other_fields (t : Calendar.Task) :
  Calendar.id (Calendar.normalize t) = Calendar.id t
  /\ Calendar.user_name (Calendar.normalize t) = Calendar.user_name t
  /\ Calendar.email (Calendar.normalize t) = Calendar.email t
  /\ Calendar.task_date (Calendar.normalize t) = Calendar.task_date t
  /\ Calendar.task_description (Calendar.normalize t) = Calendar.task_description t
  /\ Calendar.theme (Calendar.normalize t) = Calendar.theme t.
Proof.
  unfold Calendar.normalize.
  destruct (_ || _)%bool;
    (destruct (JS.startsWith _ _); [|now repeat split]);
    (destruct (Calendar.regex_match _); [|now repeat split]);
    destruct (negb _); now repeat split.
Qed.

(** A row is determined by its fields. *)
Lemma task_ext (a b : Calendar.Task) :
  Calendar.id a = Calendar.id b ->
  Calendar.user_name a = Calendar.user_name b ->
  Calendar.email a = Calendar.email b ->
  Calendar.task_date a = Calendar.task_date b ->
  Calendar.task_type a = Calendar.task_type b ->
  Calendar.task_description a = Calendar.task_description b ->
  Calendar.color_code a = Calendar.color_code b ->
  Calendar.theme a = Calendar.theme b ->
  a = b.
Proof. destruct a, b; simpl; intros; subst; reflexivity. Qed.

Example regex_match_leading_digits :
  Calendar.regex_match "selected-color-12ab" = Some "12"
  /\ Calendar.regex_match "selected-color-" = None
  /\ Calendar.regex_match "selected-color--3" = None
  /\ Calendar.regex_match "xselected-color-7" = Some "7".
Proof. repeat split. Qed.

(** *** Decimal rendering and the regular expression *)

Lemma parse_digits_acc (d : Decimal.uint) (acc : positive) :
  JS.parse_digits (Z.pos acc) (NilEmpty.string_of_uint d) =
  Z.pos (Pos.of_uint_acc d acc).
Proof.
  revert acc.
  induction d as [|d IH|d IH|d IH|d IH|d IH|d IH|d IH|d IH|d IH|d IH];
    intros acc; cbn [NilEmpty.string_of_uint JS.parse_digits Pos.of_uint_acc];
    [reflexivity|..];
    rewrite <- IH; f_equal;
    match goal with
    | |- context [Z.of_nat ?x] =>
        let v := eval vm_compute in (Z.of_nat x) in change (Z.of_nat x) with v
    end; lia.
Qed.

Lemma parse_digits_of_uint (d : Decimal.uint) :
  JS.parseInt (NilEmpty.string_of_uint d) = Z.of_N (Pos.of_uint d).
Proof.
  unfold JS.parseInt.
  induction d as [|d IH|d IH|d IH|d IH|d IH|d IH|d IH|d IH|d IH|d IH];
    cbn [NilEmpty.string_of_uint JS.parse_digits Pos.of_uint];
    [reflexivity | exact IH | ..];
    cbn [Z.of_N]; rewrite <- parse_digits_acc; reflexivity.
Qed.

Lemma take_digits_of_uint (d : Decimal.uint) :
  Calendar.take_digits (NilEmpty.string_of_uint d) = NilEmpty.string_of_uint d.
Proof.
  induction d as [|d IH|d IH|d IH|d IH|d IH|d IH|d IH|d IH|d IH|d IH];
    cbn [NilEmpty.string_of_uint Calendar.take_digits]; [reflexivity|..];
    (replace (JS.is_digit _) with true by reflexivity); now rewrite IH.
Qed.

Lemma string_of_uint_pos (p : positive) :
  NilZero.string_of_uint (Pos.to_uint p) = NilEmpty.string_of_uint (Pos.to_uint p).
Proof.
  pose proof (Unsigned.to_uint_nonnil p) as H.
  destruct (Pos.to_uint p); [now elim H | reflexivity..].
Qed.

Lemma string_of_uint_pos_nonempty (p : positive) :
  String.eqb (NilEmpty.string_of_uint (Pos.to_uint p)) "" = false.
Proof.
  pose proof (Unsigned.to_uint_nonnil p) as H.
  destruct (Pos.to_uint p); [now elim H | reflexivity..].
Qed.

(** Rendering a natural number and reading it back. *)
Lemma parseInt_toString (n : N) : JS.parseInt (JS.toString (Z.of_N n)) = Z.of_N n.
Proof.
  destruct n as [|p]; [reflexivity|].
  unfold JS.toString. cbn [Z.of_N Z.to_int NilZero.string_of_int].
  rewrite string_of_uint_pos, parse_digits_of_uint, Unsigned.of_to. reflexivity.
Qed.

Lemma take_digits_toString (n : N) :
  Calendar.take_digits (JS.toString (Z.of_N n)) = JS.toString (Z.of_N n)
  /\ String.eqb (JS.toString (Z.of_N n)) "" = false.
Proof.
  destruct n as [|p]; [split; reflexivity|].
  unfold JS.toString. cbn [Z.of_N Z.to_int NilZero.string_of_int].
  rewrite string_of_uint_pos. split.
  - apply take_digits_of_uint.
  - apply string_of_uint_pos_nonempty.
Qed.

(** The expression finds the rendering of a natural number behind the
    prefix. *)
Lemma regex_match_toString (n : N) :
  Calendar.regex_match ("selected-color-" ++ JS.toString (Z.of_N n)) =
  Some (JS.toString (Z.of_N n)).
Proof.
  destruct (take_digits_toString n) as [Ht He].
  set (d := JS.toString (Z.of_N n)) in *.
  assert (Hm : Calendar.match_here ("selected-color-" ++ d) = Some d).
  { unfold Calendar.match_here. rewrite prefix_append.
    change (Calendar.drop 15 ("selected-color-" ++ d)) with d.
    now rewrite Ht, He. }
  change ("selected-color-" ++ d) with (String "s" ("elected-color-" ++ d)) in *.
  cbn [Calendar.regex_match]. now rewrite Hm.
Qed.

Lemma regex_match_without_s (s : string) :
  JS.occurs "s" s = false -> Calendar.regex_match s = None.
Proof.
  induction s as [|c s IH]; intros H; [reflexivity|].
  cbn [JS.occurs] in H. apply orb_false_iff in H as [Hc Hs].
  cbn [Calendar.regex_match]. unfold Calendar.match_here.
  cbn [String.prefix] in Hc |- *.
  destruct (ascii_dec "s" c).
  - now destruct s.
  - now apply IH.
Qed.

Lemma digits_without_s (d : Decimal.uint) :
  JS.occurs "s" (NilEmpty.string_of_uint d) = false.
Proof.
  induction d as [|d IH|d IH|d IH|d IH|d IH|d IH|d IH|d IH|d IH|d IH];
    cbn [NilEmpty.string_of_uint JS.occurs]; [reflexivity|..];
    rewrite IH; reflexivity.
Qed.

(** Behind the prefix the rendering of a negative number starts with a
    sign, so the expression finds nothing. *)
Lemma regex_match_toString_neg (p : positive) :
  Calendar.regex_match ("selected-color-" ++ JS.toString (Z.neg p)) = None.
Proof.
  unfold JS.toString. cbn [Z.to_int NilZero.string_of_int].
  rewrite string_of_uint_pos.
  pose proof (regex_match_without_s _ (digits_without_s (Pos.to_uint p))) as H.
  revert H. generalize (NilEmpty.string_of_uint (Pos.to_uint p)). intros ds H.
  simpl. exact H.
Qed.

(** Rewriting the color code from the type never changes the type. *)
Lemma regex_match_rewritten (n : Z) :
  match Calendar.regex_match ("selected-color-" ++ JS.toString n) with
  | Some d => JS.parseInt d
  | None => n
  end = n.
Proof.
  destruct n as [|p|p].
  - reflexivity.
  - change (Z.pos p) with (Z.of_N (N.pos p)).
    now rewrite regex_match_toString, parseInt_toString.
  - now rewrite regex_match_toString_neg.
Qed.

(** Claim C6, as the code has it.  A color code that does not start with
    [selected-color-] is rewritten to [selected-color-<task_type>] and the
    type is kept; a color code that starts with the prefix is kept, and the
    type becomes the number the expression finds in it, if it finds one.
    Behind the prefix the expression finds exactly a rendered natural
    number.  The two stored rows of the scenarios normalize as stated. *)
Theorem normalize_repairs :
  (forall t,
     Calendar.color_code (Calendar.normalize t) =
     if JS.startsWith (Calendar.color_code t) "selected-color-"
     then Calendar.color_code t
     else "selected-color-" ++ JS.toString (Calendar.task_type t))
  /\ (forall t,
     Calendar.task_type (Calendar.normalize t) =
     if JS.startsWith (Calendar.color_code t) "selected-color-"
     then match Calendar.regex_match (Calendar.color_code t) with
          | Some d => JS.parseInt d
          | None => Calendar.task_type t
          end
     else Calendar.task_type t)
  /\ (forall n : N,
     Calendar.regex_match ("selected-color-" ++ JS.toString (Z.of_N n)) =
       Some (JS.toString (Z.of_N n))
     /\ JS.parseInt (JS.toString (Z.of_N n)) = Z.of_N n)
  /\ (forall i u e d descr th,
     Calendar.normalize
       {| Calendar.id := i; Calendar.user_name := u; Calendar.email := e;
          Calendar.task_date := d; Calendar.task_type := 2;
          Calendar.task_description := descr;
          Calendar.color_code := "selected-color-5"; Calendar.theme := th |} =
       {| Calendar.id := i; Calendar.user_name := u; Calendar.email := e;
          Calendar.task_date := d; Calendar.task_type := 5;
          Calendar.task_description := descr;
          Calendar.color_code := "selected-color-5"; Calendar.theme := th |})
  /\ (forall i u e d descr th,
     Calendar.normalize
       {| Calendar.id := i; Calendar.user_name := u; Calendar.email := e;
          Calendar.task_date := d; Calendar.task_type := 2;
          Calendar.task_description := descr;
          Calendar.color_code := "blue"; Calendar.theme := th |} =
       {| Calendar.id := i; Calendar.user_name := u; Calendar.email := e;
          Calendar.task_date := d; Calendar.task_type := 2;
          Calendar.task_description := descr;
          Calendar.color_code := "selected-color-2"; Calendar.theme := th |}).
Proof.
  split; [exact normalize_color_code|].
  split.
  - intros t. rewrite normalize_task_type, normalize_color_code.
    destruct (JS.startsWith (Calendar.color_code t) "selected-color-");
      [reflexivity | apply regex_match_rewritten].
  - split; [|split; reflexivity].
    intros n. split; [apply regex_match_toString | apply parseInt_toString].
Qed.

(** A stored color code that has the prefix but no number behind it does
    not have the shape [selected-color-<N>], and is left as it is. *)
Lemma normalize_keeps_prefixed_code :
  spec_color_shape (Calendar.color_code prefixed_row) = false
  /\ Calendar.normalize prefixed_row = prefixed_row
  /\ Calendar.color_code (Calendar.normalize prefixed_row) <>
     "selected-color-" ++ JS.toString (Calendar.task_type prefixed_row).
Proof. repeat split. discriminate. Qed.

(** A row whose color code has the prefix and whose type is the number
    found in it is left alone. *)
Lemma normalize_fixed (t : Calendar.Task) :
  JS.startsWith (Calendar.color_code t) "selected-color-" = true ->
  match Calendar.regex_match (Calendar.color_code t) with
  | Some d => Calendar.task_type t = JS.parseInt d
  | None => True
  end ->
  Calendar.normalize t = t.
Proof.
  intros Hp Hm. unfold Calendar.normalize.
  rewrite (prefix_nonempty "selected-color-" _ ltac:(discriminate) Hp).
  cbn [orb negb]. rewrite Hp. cbn [negb]. rewrite Hp.
  destruct (Calendar.regex_match (Calendar.color_code t)) as [d|]; [|reflexivity].
  rewrite Hm, Z.eqb_refl. reflexivity.
Qed.

(** Claim C7.  The normalization is a function of the row, and applying it
    twice gives what applying it once gives: on a normalized row it changes
    nothing. *)
Theorem normalize_idempotent (t : Calendar.Task) :
  Calendar.normalize (Calendar.normalize t) = Calendar.normalize t.
Proof.
  destruct (normalize_other_fields (Calendar.normalize t))
    as (Hi & Hu & He & Hd & Hde & Hth).
  assert (Hc : Calendar.color_code (Calendar.normalize (Calendar.normalize t)) =
               Calendar.color_code (Calendar.normalize t)).
  { rewrite (normalize_color_code (Calendar.normalize t)).
    now rewrite normalize_starts_with. }
  apply task_ext; trivial.
  rewrite (normalize_task_type (Calendar.normalize t)), Hc.
  destruct (Calendar.regex_match (Calendar.color_code (Calendar.normalize t)))
    as [d|] eqn:E; [|reflexivity].
  now rewrite normalize_task_type, E.
Qed.

(** The rows a load returns are fixed points of the normalization. *)
Lemma load_normalized (user : Gate.Identity) (theme : option string)
    (tbl : Calendar.Table) (tasks : list Calendar.Task) :
  Calendar.load user theme tbl = Calendar.LoadOk tasks ->
  map Calendar.normalize tasks = tasks.
Proof.
  unfold Calendar.load. destruct theme as [th|]; [|discriminate].
  destruct (String.eqb th ""); [discriminate|].
  intros H. injection H as <-.
  rewrite map_map. apply map_ext. intros a.
  apply normalize_fixed; [apply normalize_starts_with|].
  destruct (Calendar.regex_match (Calendar.color_code (Calendar.normalize a)))
    as [d|] eqn:E; [|exact I].
  now rewrite normalize_task_type, E.
Qed.

(** Both load handlers return the normalized rows of the caller in the
    theme asked for. *)
Lemma load_rows (user : Gate.Identity) (theme : option string)
    (tbl : Calendar.Table) (tasks : list Calendar.Task) (x : Calendar.Task) :
  Calendar.load user theme tbl = Calendar.LoadOk tasks
  \/ Calendar.load_compat user theme tbl = Calendar.LoadOk tasks ->
  In x tasks ->
  exists r, In r (Calendar.rows tbl) /\ x = Calendar.normalize r
            /\ Calendar.user_name r = Gate.user_name user
            /\ Calendar.email r = Gate.email user.
Proof.
  assert (Hrows : forall th,
             In x (map Calendar.normalize
                     (filter (Calendar.owned_in_theme (Gate.user_name user)
                                (Gate.email user) th) (Calendar.rows tbl))) ->
             exists r, In r (Calendar.rows tbl) /\ x = Calendar.normalize r
                       /\ Calendar.user_name r = Gate.user_name user
                       /\ Calendar.email r = Gate.email user).
  { intros th Hin. apply in_map_iff in Hin as (r & <- & Hr).
    apply filter_In in Hr as [Hr Ho]. exists r.
    unfold Calendar.owned_in_theme in Ho.
    apply andb_true_iff in Ho as [Ho _]. apply andb_true_iff in Ho as [Hu He].
    apply String.eqb_eq in Hu, He. now repeat split. }
  intros [H|H] Hin.
  - unfold Calendar.load in H. destruct theme as [th|]; [|discriminate].
    destruct (String.eqb th ""); [discriminate|].
    injection H as <-. now apply (Hrows th).
  - unfold Calendar.load_compat in H. cbv zeta in H. injection H as <-.
    exact (Hrows _ Hin).
Qed.

(** ** Saving task collections and calendar entries *)

Lemma falsy_some (s : string) : s <> "" -> JS.falsy (Some s) = false.
Proof. intros H. now apply String.eqb_neq. Qed.


Lemma differs_not_same (requestUser : Gate.Identity) (n e : string) :
  ~ same_identity requestUser (Some n) (Some e) ->
  (negb (String.eqb n (Gate.user_name requestUser))
   || negb (String.eqb e (Gate.email requestUser)))%bool = true.
Proof.
  intros H.
  destruct (String.eqb n (Gate.user_name requestUser)) eqn:En; [|reflexivity].
  destruct (String.eqb e (Gate.email requestUser)) eqn:Ee; [|reflexivity].
  apply String.eqb_eq in En, Ee. subst. elim H. now split.
Qed.

Lemma filter_map_stable {A} (p : A -> bool) (f : A -> A) (l : list A) :
  (forall a, p (f a) = p a) -> filter p (map f l) = map f (filter p l).
Proof.
  intros H. induction l as [|a l IH]; [reflexivity|].
  cbn [map filter]. rewrite H. destruct (p a); cbn [map]; now rewrite IH.
Qed.

Lemma key_matches_update_tasks (eq : string -> string -> bool) (n e c th : string)
    (i : Z) (ts : string) (r : Tasks.Row) :
  Tasks.key_matches eq n e c th (Tasks.update_tasks i ts r) =
  Tasks.key_matches eq n e c th r.
Proof. unfold Tasks.update_tasks. now destruct (Tasks.id r =? i). Qed.

(** Claim C3, as the code has it.  A save whose body names another identity
    than the credential is rejected and writes nothing.  The calendar
    endpoint answers 403 whatever the payload; the task endpoint answers 403
    when all six fields are present and 400 when one is missing, because it
    validates the fields before it checks the owner.  This holds whatever
    the schema of the task tables is. *)
Theorem save_rejects_foreign_identity :
  (forall requestUser body t,
     ~ same_identity requestUser (Calendar.b_user_name body) (Calendar.b_email body) ->
     Calendar.save requestUser body t =
     (reject 403 "Authorization mismatch: Cannot save calendar tasks for another user",
      t))
  /\ (forall schema requestUser body db,
     ~ same_identity requestUser (Tasks.b_user_name body) (Tasks.b_email body) ->
     Tasks.save schema requestUser body db =
     (if Tasks.missing_fields body
      then reject 400
             "Missing required fields: user_name, email, card_id, tasks, theme, or table"
      else reject 403 "Authorization mismatch: Cannot save tasks for another user",
      db)).
Proof.
  split.
  - intros requestUser body t H. unfold Calendar.save.
    destruct (Calendar.b_user_name body) as [n|], (Calendar.b_email body) as [e|];
      try reflexivity.
    now rewrite (differs_not_same _ _ _ H).
  - intros schema requestUser body db H. unfold Tasks.save.
    destruct (Tasks.missing_fields body) eqn:Hm; [reflexivity|].
    unfold Tasks.missing_fields in Hm.
    repeat (apply orb_false_iff in Hm; destruct Hm as [Hm ?]).
    destruct (Tasks.b_user_name body) as [n|]; [|discriminate].
    destruct (Tasks.b_email body) as [e|]; [|discriminate].
    destruct (Tasks.b_card_id body); [|discriminate].
    destruct (Tasks.b_tasks body); [|discriminate].
    destruct (Tasks.b_theme body); [|discriminate].
    destruct (Tasks.b_table body); [|discriminate].
    now rewrite (differs_not_same _ _ _ H).
Qed.

Lemma save_rejects_foreign_identity_witness :
  Calendar.save alice bob_calendar no_calendar =
    (reject 403 "Authorization mismatch: Cannot save calendar tasks for another user",
     no_calendar)
  /\ Tasks.save folding alice bob_without_card no_tasks =
    (reject 400
       "Missing required fields: user_name, email, card_id, tasks, theme, or table",
     no_tasks).
Proof.
  split.
  - apply (proj1 save_rejects_foreign_identity alice bob_calendar no_calendar).
    intros [H _]. discriminate H.
  - apply (proj2 save_rejects_foreign_identity folding alice bob_without_card no_tasks).
    intros [H _]. discriminate H.
Defined.

(** A task save for another identity that lacks a field is answered with
    the validation error, not with the authorization error. *)
Lemma tasks_save_validates_before_owner :
  ~ same_identity alice (Tasks.b_user_name bob_without_card)
      (Tasks.b_email bob_without_card)
  /\ status (fst (Tasks.save folding alice bob_without_card no_tasks)) = 400
  /\ status (fst (Tasks.save folding alice bob_without_card no_tasks)) <> 403.
Proof.
  split; [intros [H _]; discriminate H|].
  split; [reflexivity | discriminate].
Qed.

Lemma select_appended (eq : string -> string -> bool)
    (user_name email card_id theme tasks : string) (i : Z)
    (rows : list Tasks.Row) :
  (forall s, eq s s = true) ->
  filter (Tasks.key_matches eq user_name email card_id theme) rows = [] ->
  filter (Tasks.key_matches eq user_name email card_id theme)
    (rows ++ [ {| Tasks.id := i; Tasks.user_name := Some user_name;
                  Tasks.email := Some email; Tasks.card_id := card_id;
                  Tasks.tasks := tasks; Tasks.theme := theme |} ]) =
  [ {| Tasks.id := i; Tasks.user_name := Some user_name;
       Tasks.email := Some email; Tasks.card_id := card_id;
       Tasks.tasks := tasks; Tasks.theme := theme |} ].
Proof.
  intros Hrefl H. rewrite filter_app, H. cbn.
  unfold Tasks.key_matches. cbn. now rewrite !Hrefl.
Qed.

Lemma tasks_save_own (schema : string -> Tasks.Schema) (requestUser : Gate.Identity)
    (card_id tasks theme table : string) (db : Tasks.Tables) :
  Gate.user_name requestUser <> "" -> Gate.email requestUser <> "" ->
  card_id <> "" -> tasks <> "" -> theme <> "" ->
  table = "vision_board_tasks" \/ table = "weekly_planner_tasks" ->
  Tasks.save schema requestUser
    {| Tasks.b_user_name := Some (Gate.user_name requestUser);
       Tasks.b_email := Some (Gate.email requestUser);
       Tasks.b_card_id := Some card_id; Tasks.b_tasks := Some tasks;
       Tasks.b_theme := Some theme; Tasks.b_table := Some table |} db =
  Tasks.upsert schema (Gate.user_name requestUser) (Gate.email requestUser)
    card_id tasks theme table db.
Proof.
  intros Hn He Hc Hts Hth Htab.
  assert (Ht : table <> "") by (destruct Htab; subst table; discriminate).
  unfold Tasks.save, Tasks.missing_fields.
  cbn [Tasks.b_user_name Tasks.b_email Tasks.b_card_id Tasks.b_tasks
       Tasks.b_theme Tasks.b_table].
  rewrite !falsy_some by assumption. cbn [orb].
  rewrite !String.eqb_refl. cbn [negb orb].
  replace (negb (String.eqb table "vision_board_tasks")
           && negb (String.eqb table "weekly_planner_tasks"))%bool with false
    by (destruct Htab; subst table; reflexivity).
  reflexivity.
Qed.



(** The two differences that [config/schema.sql] makes for
    [vision_board_tasks], on the sample schema: a card sent as [Health]
    finds the row stored as [health] and updates it under its id, and a
    tasks text that the column refuses is answered 500 with nothing
    written. *)
Example tasks_save_under_declared_schema :
  let stored :=
    {| Tasks.vision_board_tasks :=
         {| Tasks.rows :=
              [ {| Tasks.id := 4; Tasks.user_name := Some "alice";
                   Tasks.email := Some "alice@x.org"; Tasks.card_id := "health";
                   Tasks.tasks := "[]"; Tasks.theme := "animal" |} ];
            Tasks.auto_increment := 5 |};
       Tasks.weekly_planner_tasks := {| Tasks.rows := []; Tasks.auto_increment := 1 |} |} in
  let body card tasks :=
    {| Tasks.b_user_name := Some "alice"; Tasks.b_email := Some "alice@x.org";
       Tasks.b_card_id := Some card; Tasks.b_tasks := Some tasks;
       Tasks.b_theme := Some "animal"; Tasks.b_table := Some "vision_board_tasks" |} in
  fst (Tasks.save folding alice (body "Health" "[1]") stored) =
    accept 200 "Task updated successfully" (Some 4)
  /\ Tasks.save folding alice (body "health" "hello") stored =
     (reject 500 "Error saving task", stored)
  /\ Tasks.save folding alice (body "sport" "hello") stored =
     (reject 500 "Error saving task", stored).
Proof. repeat split. Qed.

(** ** The compatibility delete *)

Lemma removed_rows {A} (p : A -> bool) (l : list A) :
  (List.length l - List.length (filter (fun r => negb (p r)) l))%nat =
  List.length (filter p l).
Proof. pose proof (filter_length p l). lia. Qed.

Lemma filter_none {A} (p : A -> bool) (l : list A) :
  (forall r, In r l -> p r = false) ->
  filter p l = [] /\ filter (fun r => negb (p r)) l = l.
Proof.
  induction l as [|a l IH]; intros H; [now split|].
  destruct IH as [IH1 IH2]; [intros r Hr; apply H; now right|].
  cbn [filter]. rewrite (H a (or_introl eq_refl)), IH1, IH2. now split.
Qed.

Lemma filter_some {A} (p : A -> bool) (l : list A) (r : A) :
  In r l -> p r = true -> Nat.ltb 0 (List.length (filter p l)) = true.
Proof.
  intros Hin Hp.
  assert (H : In r (filter p l)) by (apply filter_In; now split).
  destruct (filter p l); [elim H | reflexivity].
Qed.

Lemma calendar_table_eta (t : Calendar.Table) :
  {| Calendar.rows := Calendar.rows t;
     Calendar.auto_increment := Calendar.auto_increment t |} = t.
Proof. now destruct t. Qed.

(** Claim C9.  DELETE /calendar2025/tasks/:id answers the same with and
    without an authorization header; the rows left are those whose id does
    not match the path parameter, whoever owns them; the answer is 200 when a
    row matched, and 404 with the table untouched when none did. *)
Theorem delete_compat_unrestricted (sql_id_eq : Z -> string -> bool)
    (req : Calendar.DeleteRequest) (t : Calendar.Table) :
  Calendar.delete_compat sql_id_eq req t =
    Calendar.delete_compat sql_id_eq
      {| Calendar.headers_authorization := None;
         Calendar.params_id := Calendar.params_id req |} t
  /\ (forall r,
        In r (Calendar.rows (snd (Calendar.delete_compat sql_id_eq req t))) <->
        In r (Calendar.rows t)
        /\ sql_id_eq (Calendar.id r) (Calendar.params_id req) = false)
  /\ ((exists r, In r (Calendar.rows t)
                 /\ sql_id_eq (Calendar.id r) (Calendar.params_id req) = true) ->
      fst (Calendar.delete_compat sql_id_eq req t) =
      accept 200 "Calendar task deleted successfully" None)
  /\ ((forall r, In r (Calendar.rows t) ->
                 sql_id_eq (Calendar.id r) (Calendar.params_id req) = false) ->
      Calendar.delete_compat sql_id_eq req t =
      (reject 404 "Calendar task not found", t)).
Proof.
  unfold Calendar.delete_compat. cbn [Calendar.params_id].
  rewrite (removed_rows (fun r => sql_id_eq (Calendar.id r) (Calendar.params_id req))).
  split; [reflexivity|]. split; [|split].
  - intros r.
    destruct (Nat.ltb 0 _); cbn [snd Calendar.rows]; rewrite filter_In;
      now rewrite negb_true_iff.
  - intros (r & Hin & Hm).
    now rewrite (filter_some _ _ r Hin Hm).
  - intros Hnone.
    destruct (filter_none (fun r => sql_id_eq (Calendar.id r) (Calendar.params_id req))
                _ Hnone) as [H1 H2].
    rewrite H1, H2. cbn. now rewrite calendar_table_eta.
Qed.

Lemma delete_compat_unrestricted_witness :
  fst (Calendar.delete_compat Calendar.decimal_id_eq
         {| Calendar.headers_authorization := None; Calendar.params_id := "7" |}
         bobs_calendar) =
  accept 200 "Calendar task deleted successfully" None
  /\ Calendar.delete_compat Calendar.decimal_id_eq
    {| Calendar.headers_authorization := None; Calendar.params_id := "9" |}
    bobs_calendar =
  (reject 404 "Calendar task not found", bobs_calendar).
Proof.
  split.
  - apply (proj1 (proj2 (proj2 (delete_compat_unrestricted Calendar.decimal_id_eq
             {| Calendar.headers_authorization := None; Calendar.params_id := "7" |}
             bobs_calendar)))).
    eexists. split; [left; reflexivity | reflexivity].
  - apply (proj2 (proj2 (proj2 (delete_compat_unrestricted Calendar.decimal_id_eq
             {| Calendar.headers_authorization := None; Calendar.params_id := "9" |}
             bobs_calendar)))).
    intros r [<-|[]]. reflexivity.
Defined.

(** ** Mind-tools counters *)

Lemma key_matches_set_count (e tr d : string) (i n : Z) (r : MindTools.Row) :
  MindTools.key_matches e tr d (MindTools.set_count i n r) =
  MindTools.key_matches e tr d r.
Proof. unfold MindTools.set_count. now destruct (MindTools.id r =? i). Qed.

Lemma id_set_count (i n : Z) (r : MindTools.Row) :
  MindTools.id (MindTools.set_count i n r) = MindTools.id r.
Proof. unfold MindTools.set_count. now destruct (MindTools.id r =? i). Qed.

Lemma select_update_count (e tr d : string) (i n : Z) (t : MindTools.Table) :
  MindTools.select e tr d (MindTools.update_count i n t) =
  map (MindTools.set_count i n) (MindTools.select e tr d t).
Proof.
  unfold MindTools.select, MindTools.update_count. cbn [MindTools.rows].
  apply filter_map_stable. intros a. apply key_matches_set_count.
Qed.

Lemma select_insert (e tr d un e' tr' d' : string) (n : Z) (t : MindTools.Table) :
  MindTools.select e tr d (MindTools.insert un e' tr' d' n t) =
  (MindTools.select e tr d t ++
   filter (MindTools.key_matches e tr d)
     [ {| MindTools.id := MindTools.auto_increment t; MindTools.row_user_name := un;
          MindTools.row_email := e'; MindTools.row_tracker_type := tr';
          MindTools.row_activity_date := d'; MindTools.row_count := n |} ])%list.
Proof. unfold MindTools.select, MindTools.insert. cbn [MindTools.rows]. apply filter_app. Qed.

Lemma key_matches_refl (e tr d un : string) (i n : Z) :
  MindTools.key_matches e tr d
    {| MindTools.id := i; MindTools.row_user_name := un; MindTools.row_email := e;
       MindTools.row_tracker_type := tr; MindTools.row_activity_date := d;
       MindTools.row_count := n |} = true.
Proof. unfold MindTools.key_matches. cbn. now rewrite !String.eqb_refl. Qed.

Lemma stored_count_select (e tr d : string) (t : MindTools.Table) :
  MindTools.stored_count e tr d t =
  match MindTools.select e tr d t with
  | r :: _ => Some (MindTools.row_count r)
  | [] => None
  end.
Proof. reflexivity. Qed.

(** The loop body on an item that carries a tracker type and a date that
    formats. *)
Lemma sync_activity_present (formatDate : string -> option string)
    (user : MindTools.User) (tracker date fdate : string) (c : option Z)
    (t : MindTools.Table) :
  tracker <> "" -> date <> "" -> formatDate date = Some fdate ->
  MindTools.sync_activity formatDate user (item tracker date c) t =
  match MindTools.select (MindTools.email user) tracker fdate t with
  | existing :: _ =>
      if MindTools.row_count existing <? MindTools.count_or_1 c
      then Some ({| MindTools.success := true; MindTools.message := "Activity updated";
                    MindTools.data := MindTools.Counter tracker fdate
                                        (MindTools.count_or_1 c) |},
                 MindTools.update_count (MindTools.id existing)
                   (MindTools.count_or_1 c) t)
      else Some ({| MindTools.success := true;
                    MindTools.message := "No update needed (server has higher count)";
                    MindTools.data := MindTools.Counter tracker fdate
                                        (MindTools.row_count existing) |}, t)
  | [] =>
      Some ({| MindTools.success := true; MindTools.message := "Activity recorded";
               MindTools.data := MindTools.Inserted (MindTools.auto_increment t)
                                   tracker fdate (MindTools.count_or_1 c) |},
            MindTools.insert (MindTools.name user) (MindTools.email user) tracker fdate
              (MindTools.count_or_1 c) t)
  end.
Proof.
  intros Ht Hd Hf. unfold MindTools.sync_activity, item.
  cbn [MindTools.tracker_type MindTools.activity_date MindTools.count].
  rewrite !falsy_some by assumption. cbn [orb]. now rewrite Hf.
Qed.

(** Claim C1, as the code has it.  The count that takes part in the merge
    is the client's count when it is given and not zero, and 1 otherwise.
    For an item with a tracker type and a date that formats: without a stored
    row, a row with that count is appended and the item is reported created;
    with a stored row of smaller count, the stored count becomes that count
    and the item is reported updated; otherwise nothing is written and the
    item is reported unchanged with the stored count.  Counts 3, 2, 5 against
    an empty table give created/3, unchanged/3, updated/5. *)
Theorem sync_merge_rule (formatDate : string -> option string)
    (user : MindTools.User) (tracker date fdate : string) (c : option Z)
    (t : MindTools.Table) :
  tracker <> "" -> date <> "" -> formatDate date = Some fdate ->
  (MindTools.count_or_1 None = 1 /\ MindTools.count_or_1 (Some 0) = 1
   /\ forall k, k <> 0 -> MindTools.count_or_1 (Some k) = k)
  /\ (exists r t',
        MindTools.sync_activity formatDate user (item tracker date c) t = Some (r, t')
        /\ match MindTools.stored_count (MindTools.email user) tracker fdate t with
           | None =>
               MindTools.action r = MindTools.created
               /\ MindTools.finalCount r = Some (MindTools.count_or_1 c)
               /\ MindTools.stored_count (MindTools.email user) tracker fdate t' =
                  Some (MindTools.count_or_1 c)
               /\ MindTools.rows t' =
                  (MindTools.rows t ++
                   [ {| MindTools.id := MindTools.auto_increment t;
                        MindTools.row_user_name := MindTools.name user;
                        MindTools.row_email := MindTools.email user;
                        MindTools.row_tracker_type := tracker;
                        MindTools.row_activity_date := fdate;
                        MindTools.row_count := MindTools.count_or_1 c |} ])%list
           | Some s =>
               if s <? MindTools.count_or_1 c
               then MindTools.action r = MindTools.updated
                    /\ MindTools.finalCount r = Some (MindTools.count_or_1 c)
                    /\ MindTools.stored_count (MindTools.email user) tracker fdate t' =
                       Some (MindTools.count_or_1 c)
               else MindTools.action r = MindTools.unchanged
                    /\ MindTools.finalCount r = Some s
                    /\ t' = t
           end)
  /\ (let batch n := Some [item "break_things" "2025-01-01" (Some n)] in
      let first := MindTools.sync MindTools.isoDateOnly carol (batch 3) MindTools.empty in
      let second := MindTools.sync MindTools.isoDateOnly carol (batch 2) (snd first) in
      let third := MindTools.sync MindTools.isoDateOnly carol (batch 5) (snd second) in
      summary (fst first) = Some [(MindTools.created, Some 3)]
      /\ summary (fst second) = Some [(MindTools.unchanged, Some 3)]
      /\ summary (fst third) = Some [(MindTools.updated, Some 5)]).
Proof.
  intros Ht Hd Hf. split; [|split].
  - repeat split. intros k Hk. unfold MindTools.count_or_1.
    now rewrite (proj2 (Z.eqb_neq k 0) Hk).
  - rewrite (sync_activity_present _ _ _ _ _ _ _ Ht Hd Hf).
    rewrite stored_count_select.
    destruct (MindTools.select (MindTools.email user) tracker fdate t)
      as [|existing rest] eqn:E.
    + eexists; eexists; split; [reflexivity|].
      repeat split.
      rewrite stored_count_select, select_insert, E, app_nil_l.
      cbn [filter]. now rewrite key_matches_refl.
    + destruct (MindTools.row_count existing <? MindTools.count_or_1 c) eqn:Hlt.
      * eexists; eexists; split; [reflexivity|].
        repeat split.
        rewrite stored_count_select, select_update_count, E. cbn [map].
        unfold MindTools.set_count. now rewrite Z.eqb_refl.
      * eexists; eexists; split; [reflexivity|]. now repeat split.
  - repeat split.
Qed.

Lemma sync_merge_rule_witness :
  exists r t',
    MindTools.sync_activity MindTools.isoDateOnly carol
      (item "break_things" "2025-01-01" (Some 3)) MindTools.empty = Some (r, t')
    /\ MindTools.action r = MindTools.created
    /\ MindTools.finalCount r = Some 3.
Proof.
  destruct (proj1 (proj2 (sync_merge_rule MindTools.isoDateOnly carol
              "break_things" "2025-01-01" "2025-01-01" (Some 3) MindTools.empty
              ltac:(discriminate) ltac:(discriminate) eq_refl)))
    as (r & t' & Hs & Ha & Hc & _).
  exists r, t'. repeat split; assumption.
Defined.

(** A count of 0 sent by the client is not the count that is inserted. *)
Lemma sync_zero_count_recorded_as_one :
  summary (fst (MindTools.sync MindTools.isoDateOnly carol
                  (Some [item "break_things" "2025-01-01" (Some 0)]) MindTools.empty)) =
    Some [(MindTools.created, Some 1)]
  /\ MindTools.stored_count "carol@x.org" "break_things" "2025-01-01"
       (snd (MindTools.sync MindTools.isoDateOnly carol
               (Some [item "break_things" "2025-01-01" (Some 0)]) MindTools.empty)) =
     Some 1.
Proof. split; reflexivity. Qed.

Example isoDateOnly_examples :
  MindTools.isoDateOnly "2025-01-01" = Some "2025-01-01"
  /\ MindTools.isoDateOnly "2024-02-29" = Some "2024-02-29"
  /\ MindTools.isoDateOnly "someday" = None.
Proof. repeat split. Qed.

(** *** What one item can write *)

Lemma sync_activity_cases (formatDate : string -> option string)
    (user : MindTools.User) (a : MindTools.Activity) (t : MindTools.Table)
    (r : MindTools.Result) (t' : MindTools.Table) :
  MindTools.sync_activity formatDate user a t = Some (r, t') ->
  t' = t
  \/ (exists tracker fdate,
        MindTools.select (MindTools.email user) tracker fdate t = []
        /\ t' = MindTools.insert (MindTools.name user) (MindTools.email user)
                  tracker fdate (MindTools.count_or_1 (MindTools.count a)) t)
  \/ (exists tracker fdate existing rest,
        MindTools.select (MindTools.email user) tracker fdate t = existing :: rest
        /\ MindTools.row_count existing < MindTools.count_or_1 (MindTools.count a)
        /\ t' = MindTools.update_count (MindTools.id existing)
                  (MindTools.count_or_1 (MindTools.count a)) t).
Proof.
  unfold MindTools.sync_activity.
  destruct (_ || _)%bool; [intros [= _ <-]; now left|].
  destruct (MindTools.tracker_type a) as [tracker|]; [|intros [= _ <-]; now left].
  destruct (MindTools.activity_date a) as [date|]; [|intros [= _ <-]; now left].
  destruct (formatDate date) as [fdate|]; [|discriminate].
  destruct (MindTools.select (MindTools.email user) tracker fdate t)
    as [|existing rest] eqn:E.
  - intros [= _ <-]. right; left. now exists tracker, fdate.
  - destruct (MindTools.row_count existing <? _) eqn:Hlt.
    + intros [= _ <-]. right; right. exists tracker, fdate, existing, rest.
      apply Z.ltb_lt in Hlt. now repeat split.
    + intros [= _ <-]. now left.
Qed.

Lemma count_or_1_nonzero (c : option Z) : MindTools.count_or_1 c <> 0.
Proof.
  unfold MindTools.count_or_1. destruct c as [n|]; [|discriminate].
  destruct (n =? 0) eqn:E; [discriminate | now apply Z.eqb_neq].
Qed.

(** *** Unique ids *)

Lemma same_id_same_row (l : list MindTools.Row) (a b : MindTools.Row) :
  NoDup (map MindTools.id l) -> In a l -> In b l ->
  MindTools.id a = MindTools.id b -> a = b.
Proof.
  induction l as [|x l IH]; intros Hnd Ha Hb Hid; [elim Ha|].
  cbn [map] in Hnd. inversion Hnd as [|? ? Hx Hl]; subst.
  destruct Ha as [<-|Ha], Hb as [<-|Hb]; trivial.
  - elim Hx. rewrite Hid. now apply in_map.
  - elim Hx. rewrite <- Hid. now apply in_map.
  - now apply IH.
Qed.

Lemma well_formed_insert (un e tr d : string) (n : Z) (t : MindTools.Table) :
  MindTools.well_formed t -> MindTools.well_formed (MindTools.insert un e tr d n t).
Proof.
  intros [Hnd Hlt]. unfold MindTools.well_formed, MindTools.insert.
  cbn [MindTools.rows MindTools.auto_increment]. split.
  - rewrite map_app. cbn [map MindTools.id].
    apply NoDup_app; [assumption | repeat constructor; intros [] |].
    intros i Hi [<-|[]].
    apply in_map_iff in Hi as (r & Hr & Hin).
    rewrite Forall_forall in Hlt. specialize (Hlt r Hin). lia.
  - apply Forall_app. split.
    + eapply Forall_impl; [|exact Hlt]. cbn. intros; lia.
    + repeat constructor. cbn. lia.
Qed.

Lemma well_formed_update (i n : Z) (t : MindTools.Table) :
  MindTools.well_formed t -> MindTools.well_formed (MindTools.update_count i n t).
Proof.
  intros [Hnd Hlt]. unfold MindTools.well_formed, MindTools.update_count.
  cbn [MindTools.rows MindTools.auto_increment]. split.
  - rewrite map_map.
    now rewrite (map_ext _ MindTools.id (id_set_count i n)).
  - apply Forall_map. eapply Forall_impl; [|exact Hlt].
    intros r Hr. now rewrite id_set_count.
Qed.

(** *** Counts never go down *)

Lemma grows_refl (t : MindTools.Table) : grows t t.
Proof. intros e tr d s H. exists s. split; [assumption | lia]. Qed.

Lemma grows_trans (t1 t2 t3 : MindTools.Table) :
  grows t1 t2 -> grows t2 t3 -> grows t1 t3.
Proof.
  intros H12 H23 e tr d s H.
  destruct (H12 _ _ _ _ H) as (s2 & H2 & L2).
  destruct (H23 _ _ _ _ H2) as (s3 & H3 & L3).
  exists s3. split; [assumption | lia].
Qed.

Lemma grows_insert (un e tr d : string) (n : Z) (t : MindTools.Table) :
  grows t (MindTools.insert un e tr d n t).
Proof.
  intros e0 tr0 d0 s. rewrite !stored_count_select, select_insert.
  destruct (MindTools.select e0 tr0 d0 t) as [|r0 rest]; [discriminate|].
  intros [= <-]. exists (MindTools.row_count r0). split; [reflexivity | lia].
Qed.

Lemma grows_update (e tr d : string) (existing : MindTools.Row)
    (rest : list MindTools.Row) (n : Z) (t : MindTools.Table) :
  MindTools.well_formed t ->
  MindTools.select e tr d t = existing :: rest ->
  MindTools.row_count existing < n ->
  grows t (MindTools.update_count (MindTools.id existing) n t).
Proof.
  intros [Hnd _] Hsel Hlt e0 tr0 d0 s.
  rewrite !stored_count_select, select_update_count.
  destruct (MindTools.select e0 tr0 d0 t) as [|r0 rest0] eqn:E0; [discriminate|].
  intros [= <-]. cbn [map]. unfold MindTools.set_count.
  destruct (MindTools.id r0 =? MindTools.id existing) eqn:Hid.
  - apply Z.eqb_eq in Hid.
    assert (Hr0 : In r0 (MindTools.rows t)).
    { apply (proj1 (filter_In (MindTools.key_matches e0 tr0 d0) r0 (MindTools.rows t))).
      unfold MindTools.select in E0. rewrite E0. now left. }
    assert (Hex : In existing (MindTools.rows t)).
    { apply (proj1 (filter_In (MindTools.key_matches e tr d) existing (MindTools.rows t))).
      unfold MindTools.select in Hsel. rewrite Hsel. now left. }
    rewrite (same_id_same_row _ _ _ Hnd Hr0 Hex Hid).
    exists n. cbn. split; [reflexivity | lia].
  - exists (MindTools.row_count r0). split; [reflexivity | lia].
Qed.

Lemma sync_activity_grows (formatDate : string -> option string)
    (user : MindTools.User) (a : MindTools.Activity) (t : MindTools.Table)
    (r : MindTools.Result) (t' : MindTools.Table) :
  MindTools.well_formed t ->
  MindTools.sync_activity formatDate user a t = Some (r, t') ->
  MindTools.well_formed t' /\ grows t t'.
Proof.
  intros Hwf H.
  destruct (sync_activity_cases _ _ _ _ _ _ H)
    as [-> | [(tr & d & _ & ->) | (tr & d & ex & rest & Hsel & Hlt & ->)]].
  - split; [assumption | apply grows_refl].
  - split; [now apply well_formed_insert | apply grows_insert].
  - split; [now apply well_formed_update | now apply (grows_update _ _ _ _ _ _ _ Hwf Hsel)].
Qed.

Lemma process_grows (formatDate : string -> option string) (user : MindTools.User)
    (activities : list MindTools.Activity) (results : list MindTools.Result)
    (t : MindTools.Table) :
  MindTools.well_formed t ->
  MindTools.well_formed (snd (MindTools.process formatDate user activities results t))
  /\ grows t (snd (MindTools.process formatDate user activities results t)).
Proof.
  revert results t. induction activities as [|a rest IH]; intros results t Hwf.
  - split; [assumption | apply grows_refl].
  - cbn [MindTools.process].
    destruct (MindTools.sync_activity formatDate user a t) as [[r t']|] eqn:E.
    + destruct (sync_activity_grows _ _ _ _ _ _ Hwf E) as [Hwf' Hg].
      destruct (IH (results ++ [r])%list t' Hwf') as [Hwf'' Hg'].
      split; [assumption | now apply (grows_trans _ t')].
    + split; [assumption | apply grows_refl].
Qed.

Lemma sync_grows (formatDate : string -> option string) (user : MindTools.User)
    (activities : option (list MindTools.Activity)) (t : MindTools.Table) :
  MindTools.well_formed t ->
  MindTools.well_formed (snd (MindTools.sync formatDate user activities t))
  /\ grows t (snd (MindTools.sync formatDate user activities t)).
Proof.
  intros Hwf. unfold MindTools.sync.
  destruct activities as [[|a rest]|];
    try (split; [assumption | apply grows_refl]).
  pose proof (process_grows formatDate user (a :: rest) [] t Hwf) as H.
  destruct (MindTools.process formatDate user (a :: rest) [] t) as [[results|] t'];
    exact H.
Qed.

Lemma sync_all_grows (formatDate : string -> option string)
    (calls : list (MindTools.User * option (list MindTools.Activity)))
    (t : MindTools.Table) :
  MindTools.well_formed t ->
  MindTools.well_formed (MindTools.sync_all formatDate calls t)
  /\ grows t (MindTools.sync_all formatDate calls t).
Proof.
  revert t. induction calls as [|[user activities] rest IH]; intros t Hwf.
  - split; [assumption | apply grows_refl].
  - cbn [MindTools.sync_all].
    destruct (sync_grows formatDate user activities t Hwf) as [Hwf' Hg].
    destruct (IH _ Hwf') as [Hwf'' Hg'].
    split; [assumption | now apply (grows_trans _ _ _ Hg)].
Qed.

(** Claim C2.  Whatever an item writes to an existing counter row is
    strictly greater than the count it found there, and over any sequence of
    sync requests, on a table with unique ids, the stored count of every
    key only grows. *)
Theorem sync_count_monotone (formatDate : string -> option string) :
  (forall user a t r t',
     MindTools.sync_activity formatDate user a t = Some (r, t') ->
     t' = t
     \/ (exists tracker fdate,
           MindTools.select (MindTools.email user) tracker fdate t = []
           /\ t' = MindTools.insert (MindTools.name user) (MindTools.email user)
                     tracker fdate (MindTools.count_or_1 (MindTools.count a)) t)
     \/ (exists tracker fdate existing rest,
           MindTools.select (MindTools.email user) tracker fdate t = existing :: rest
           /\ MindTools.row_count existing < MindTools.count_or_1 (MindTools.count a)
           /\ t' = MindTools.update_count (MindTools.id existing)
                     (MindTools.count_or_1 (MindTools.count a)) t))
  /\ (forall calls t e tr d s,
       MindTools.well_formed t ->
       MindTools.stored_count e tr d t = Some s ->
       exists s',
         MindTools.stored_count e tr d (MindTools.sync_all formatDate calls t) = Some s'
         /\ s <= s').
Proof.
  split.
  - intros user a t r t'. apply sync_activity_cases.
  - intros calls t e tr d s Hwf Hs.
    destruct (sync_all_grows formatDate calls t Hwf) as [_ Hg].
    exact (Hg e tr d s Hs).
Qed.

Lemma carol_at_3_well_formed : MindTools.well_formed carol_at_3.
Proof.
  split; cbn.
  - repeat constructor. intros [].
  - repeat constructor.
Qed.

Lemma sync_count_monotone_witness :
  exists s',
    MindTools.stored_count "carol@x.org" "break_things" "2025-01-01"
      (MindTools.sync_all MindTools.isoDateOnly
         [ (carol, Some [item "break_things" "2025-01-01" (Some 2)]);
           (carol, Some [item "break_things" "2025-01-01" (Some 5)]) ]
         carol_at_3) = Some s'
    /\ 3 <= s'.
Proof.
  exact (proj2 (sync_count_monotone MindTools.isoDateOnly)
           [ (carol, Some [item "break_things" "2025-01-01" (Some 2)]);
             (carol, Some [item "break_things" "2025-01-01" (Some 5)]) ]
           carol_at_3 "carol@x.org" "break_things" "2025-01-01" 3
           carol_at_3_well_formed eq_refl).
Defined.

(** *** Zero counts *)

Lemma zero_rows_step (formatDate : string -> option string)
    (user : MindTools.User) (a : MindTools.Activity) (t : MindTools.Table)
    (r : MindTools.Result) (t' : MindTools.Table) (row : MindTools.Row) :
  MindTools.sync_activity formatDate user a t = Some (r, t') ->
  In row (MindTools.rows t') -> MindTools.row_count row = 0 ->
  In row (MindTools.rows t).
Proof.
  intros H Hin Hz.
  pose proof (count_or_1_nonzero (MindTools.count a)) as Hnz.
  destruct (sync_activity_cases _ _ _ _ _ _ H)
    as [-> | [(tr & d & _ & ->) | (tr & d & ex & rest & _ & _ & ->)]].
  - assumption.
  - cbn [MindTools.insert MindTools.rows] in Hin.
    apply in_app_or in Hin as [Hin|[<-|[]]]; [assumption|].
    now elim Hnz.
  - cbn [MindTools.update_count MindTools.rows] in Hin.
    apply in_map_iff in Hin as (r0 & <- & Hin).
    unfold MindTools.set_count in Hz |- *.
    destruct (MindTools.id r0 =? MindTools.id ex); [now elim Hnz | assumption].
Qed.

Lemma zero_rows_process (formatDate : string -> option string) (user : MindTools.User)
    (activities : list MindTools.Activity) (results : list MindTools.Result)
    (t : MindTools.Table) (row : MindTools.Row) :
  In row (MindTools.rows (snd (MindTools.process formatDate user activities results t))) ->
  MindTools.row_count row = 0 ->
  In row (MindTools.rows t).
Proof.
  revert results t. induction activities as [|a rest IH]; intros results t Hin Hz.
  - exact Hin.
  - cbn [MindTools.process] in Hin.
    destruct (MindTools.sync_activity formatDate user a t) as [[r t']|] eqn:E.
    + apply (zero_rows_step _ _ _ _ _ _ _ E); [|assumption].
      now apply (IH (results ++ [r])%list).
    + exact Hin.
Qed.

(** Claim C10.  A count of 0 takes part in the merge as an omitted count
    does, as 1.  For an item with a tracker type and a date that formats, the
    loop body answers and writes the same for the counts 0, omitted and 1.
    Without a stored row it appends a row whose count is 1 and reports it
    created with 1; with a stored row the comparison is with 1: a stored
    count below 1 is raised to 1 and reported updated, any other is kept and
    reported unchanged.  Either way the counter holds the larger of the
    stored count and 1 afterwards, never the 0 that was sent.  An item that
    lacks a field is answered alike for 0 and for an omitted count, and no
    sync request adds a row whose count is 0 to the table. *)
Theorem sync_zero_count_as_omitted (formatDate : string -> option string)
    (user : MindTools.User) (tracker date fdate : string) (t : MindTools.Table) :
  tracker <> "" -> date <> "" -> formatDate date = Some fdate ->
  let sent c := MindTools.sync_activity formatDate user (item tracker date c) t in
  (sent (Some 0) = sent None /\ sent (Some 0) = sent (Some 1))
  /\ (exists r t',
        sent (Some 0) = Some (r, t')
        /\ match MindTools.stored_count (MindTools.email user) tracker fdate t with
           | None =>
               MindTools.action r = MindTools.created
               /\ MindTools.finalCount r = Some 1
               /\ MindTools.rows t' =
                  (MindTools.rows t ++
                   [ {| MindTools.id := MindTools.auto_increment t;
                        MindTools.row_user_name := MindTools.name user;
                        MindTools.row_email := MindTools.email user;
                        MindTools.row_tracker_type := tracker;
                        MindTools.row_activity_date := fdate;
                        MindTools.row_count := 1 |} ])%list
               /\ MindTools.stored_count (MindTools.email user) tracker fdate t' = Some 1
           | Some s =>
               (if s <? 1
                then MindTools.action r = MindTools.updated
                     /\ MindTools.finalCount r = Some 1
                else MindTools.action r = MindTools.unchanged
                     /\ MindTools.finalCount r = Some s
                     /\ t' = t)
               /\ MindTools.stored_count (MindTools.email user) tracker fdate t' =
                  Some (Z.max s 1)
           end)
  /\ (forall u tr d t0,
        outcome (MindTools.sync_activity formatDate u
                   {| MindTools.tracker_type := tr; MindTools.activity_date := d;
                      MindTools.count := Some 0 |} t0) =
        outcome (MindTools.sync_activity formatDate u
                   {| MindTools.tracker_type := tr; MindTools.activity_date := d;
                      MindTools.count := None |} t0))
  /\ (forall u activities t0 row,
        In row (MindTools.rows (snd (MindTools.sync formatDate u activities t0))) ->
        MindTools.row_count row = 0 ->
        In row (MindTools.rows t0)).
Proof.
  intros Ht Hd Hf sent. unfold sent.
  rewrite !(sync_activity_present _ _ _ _ _ _ _ Ht Hd Hf).
  change (MindTools.count_or_1 (Some 0)) with 1.
  change (MindTools.count_or_1 None) with 1.
  change (MindTools.count_or_1 (Some 1)) with 1.
  split; [now split|]. split; [|split].
  - rewrite stored_count_select.
    destruct (MindTools.select (MindTools.email user) tracker fdate t)
      as [|existing rest] eqn:E.
    + eexists; eexists; split; [reflexivity|].
      repeat split.
      rewrite stored_count_select, select_insert, E, app_nil_l.
      cbn [filter]. now rewrite key_matches_refl.
    + destruct (MindTools.row_count existing <? 1) eqn:Hlt.
      * eexists; eexists; split; [reflexivity|].
        repeat split.
        rewrite stored_count_select, select_update_count, E. cbn [map].
        unfold MindTools.set_count. rewrite Z.eqb_refl. cbn [MindTools.row_count].
        apply Z.ltb_lt in Hlt. f_equal. lia.
      * eexists; eexists; split; [reflexivity|].
        repeat split.
        rewrite stored_count_select, E.
        apply Z.ltb_ge in Hlt. f_equal. lia.
  - intros u tr d t0. unfold MindTools.sync_activity.
    cbn [MindTools.tracker_type MindTools.activity_date MindTools.count].
    destruct (_ || _)%bool; [reflexivity|].
    destruct tr as [tr|]; [|reflexivity].
    destruct d as [d|]; [|reflexivity].
    destruct (formatDate d) as [fd|]; [|reflexivity].
    reflexivity.
  - intros u activities t0 row. unfold MindTools.sync.
    destruct activities as [[|a rest]|]; try (intros H _; exact H).
    intros Hin Hz.
    apply (zero_rows_process formatDate u (a :: rest) [] t0 row); [|assumption].
    destruct (MindTools.process formatDate u (a :: rest) [] t0) as [[results|] t''];
      exact Hin.
Qed.

Lemma sync_zero_count_as_omitted_witness :
  exists r t',
    MindTools.sync_activity MindTools.isoDateOnly carol
      (item "break_things" "2025-01-01" (Some 0)) carol_at_0 = Some (r, t')
    /\ MindTools.action r = MindTools.updated
    /\ MindTools.finalCount r = Some 1
    /\ MindTools.stored_count "carol@x.org" "break_things" "2025-01-01" t' = Some 1.
Proof.
  destruct (proj1 (proj2 (sync_zero_count_as_omitted MindTools.isoDateOnly carol
              "break_things" "2025-01-01" "2025-01-01" carol_at_0
              ltac:(discriminate) ltac:(discriminate) eq_refl)))
    as (r & t' & Hs & (Ha & Hc) & Hst).
  exists r, t'. repeat split; assumption.
Defined.

(** *** One entry per item *)

Lemma process_length (formatDate : string -> option string) (user : MindTools.User)
    (activities : list MindTools.Activity) (results out : list MindTools.Result)
    (t : MindTools.Table) :
  fst (MindTools.process formatDate user activities results t) = Some out ->
  List.length out = (List.length results + List.length activities)%nat.
Proof.
  revert results t. induction activities as [|a rest IH]; intros results t.
  - cbn. intros [= <-]. lia.
  - cbn [MindTools.process].
    destruct (MindTools.sync_activity formatDate user a t) as [[r t']|];
      [|discriminate].
    intros H. rewrite (IH _ _ H), length_app. cbn. lia.
Qed.

(** A batch that is answered with 200 has one entry per item. *)
Lemma sync_one_result_per_item (formatDate : string -> option string)
    (user : MindTools.User) (activities : list MindTools.Activity)
    (t : MindTools.Table) (msg : string) (results : list MindTools.Result) :
  fst (MindTools.sync formatDate user (Some activities) t) =
    MindTools.SyncOk msg results ->
  List.length results = List.length activities.
Proof.
  unfold MindTools.sync. destruct activities as [|a rest]; [discriminate|].
  destruct (MindTools.process formatDate user (a :: rest) [] t)
    as [[out|] t'] eqn:E; [|discriminate].
  cbn [fst]. intros [= _ <-].
  apply (process_length formatDate user (a :: rest) [] out t).
  now rewrite E.
Qed.

(** Claim C4 at its failing inputs.  A tracker type outside the enumerated
    set is recorded by the sync handler as a new counter and reported as a
    success, where the single-counter handler rejects it with 400 and
    writes nothing.  An item whose date is invalid ends the request with
    500: the items after it get no entry, the write of the item before it
    stays. *)
Theorem sync_accepts_unlisted_tracker :
  MindTools.includes MindTools.validTrackers "juggling" = false
  /\ MindTools.sync MindTools.isoDateOnly carol
       (Some [item "juggling" "2025-01-01" (Some 1)]) MindTools.empty =
     (MindTools.SyncOk "Processed 1 activities"
        [ {| MindTools.success := true; MindTools.message := "Activity recorded";
             MindTools.data := MindTools.Inserted 1 "juggling" "2025-01-01" 1 |} ],
      {| MindTools.rows :=
           [ {| MindTools.id := 1; MindTools.row_user_name := "carol";
                MindTools.row_email := "carol@x.org";
                MindTools.row_tracker_type := "juggling";
                MindTools.row_activity_date := "2025-01-01";
                MindTools.row_count := 1 |} ];
         MindTools.auto_increment := 2 |})
  /\ MindTools.record_activity MindTools.isoDateOnly "2025-01-02" carol
       (Some "juggling") (Some "2025-01-01") MindTools.empty =
     (MindTools.ActivityError 400
        "Invalid tracker_type. Must be one of: thought_shredder, make_me_smile, bubble_wrap_popper, break_things",
      MindTools.empty)
  /\ MindTools.sync MindTools.isoDateOnly carol
       (Some [item "break_things" "2025-01-01" (Some 1);
              item "break_things" "someday" (Some 1);
              item "make_me_smile" "2025-01-01" (Some 1)]) MindTools.empty =
     (MindTools.SyncError 500 "Error syncing activities",
      {| MindTools.rows :=
           [ {| MindTools.id := 1; MindTools.row_user_name := "carol";
                MindTools.row_email := "carol@x.org";
                MindTools.row_tracker_type := "break_things";
                MindTools.row_activity_date := "2025-01-01";
                MindTools.row_count := 1 |} ];
         MindTools.auto_increment := 2 |}).
Proof. repeat split. Qed.

(** * Further properties *)

(** ** Task collections *)

Ltac rejected :=
  left; do 2 eexists; (split; [|reflexivity]); auto.

Lemma tasks_save_cases (schema : string -> Tasks.Schema)
    (requestUser : Gate.Identity) (body : Tasks.Body) (db : Tasks.Tables) :
  (exists st msg, (st = 400 \/ st = 403)
                  /\ Tasks.save schema requestUser body db = (reject st msg, db))
  \/ (exists card_id tasks theme table,
        Tasks.b_user_name body = Some (Gate.user_name requestUser)
        /\ Tasks.b_email body = Some (Gate.email requestUser)
        /\ Tasks.b_card_id body = Some card_id
        /\ Tasks.b_tasks body = Some tasks
        /\ Tasks.b_theme body = Some theme
        /\ Tasks.b_table body = Some table
        /\ (table = "vision_board_tasks" \/ table = "weekly_planner_tasks")
        /\ Tasks.save schema requestUser body db =
           Tasks.upsert schema (Gate.user_name requestUser) (Gate.email requestUser)
             card_id tasks theme table db).
Proof.
  unfold Tasks.save.
  destruct (Tasks.missing_fields body); [rejected|].
  destruct (Tasks.b_user_name body) as [n|]; [|rejected].
  destruct (Tasks.b_email body) as [e|]; [|rejected].
  destruct (Tasks.b_card_id body) as [c|]; [|rejected].
  destruct (Tasks.b_tasks body) as [ts|]; [|rejected].
  destruct (Tasks.b_theme body) as [th|]; [|rejected].
  destruct (Tasks.b_table body) as [tb|]; [|rejected].
  destruct (String.eqb n (Gate.user_name requestUser)) eqn:En; [|rejected].
  destruct (String.eqb e (Gate.email requestUser)) eqn:Ee; [|rejected].
  cbn [negb orb].
  apply String.eqb_eq in En, Ee. subst n e.
  destruct (String.eqb tb "vision_board_tasks") eqn:Ev.
  - apply String.eqb_eq in Ev. subst tb. cbn [negb andb].
    right. exists c, ts, th, "vision_board_tasks". repeat split; auto.
  - destruct (String.eqb tb "weekly_planner_tasks") eqn:Ew; cbn [negb andb].
    + apply String.eqb_eq in Ew. subst tb.
      right. exists c, ts, th, "weekly_planner_tasks". repeat split; auto.
    + rejected.
Qed.




(** A task save that names any other table than the two allowed ones is
    answered 400 and runs no query, also for the owner with all fields
    present. *)
Theorem tasks_save_table_allowlist (schema : string -> Tasks.Schema)
    (requestUser : Gate.Identity) (body : Tasks.Body)
    (db : Tasks.Tables) (table : string) :
  Tasks.missing_fields body = false ->
  same_identity requestUser (Tasks.b_user_name body) (Tasks.b_email body) ->
  Tasks.b_table body = Some table ->
  table <> "vision_board_tasks" -> table <> "weekly_planner_tasks" ->
  Tasks.save schema requestUser body db =
  (reject 400 "Invalid table name. Only vision_board_tasks or weekly_planner_tasks allowed.",
   db).
Proof.
  intros Hm [Hn He] Ht Hv Hw. unfold Tasks.save. rewrite Hm, Hn, He, Ht.
  unfold Tasks.missing_fields in Hm.
  repeat (apply orb_false_iff in Hm; destruct Hm as [Hm ?]).
  destruct (Tasks.b_card_id body); [|discriminate].
  destruct (Tasks.b_tasks body); [|discriminate].
  destruct (Tasks.b_theme body); [|discriminate].
  rewrite !String.eqb_refl. cbn [negb orb].
  apply String.eqb_neq in Hv, Hw. now rewrite Hv, Hw.
Qed.

Lemma tasks_save_table_allowlist_witness :
  Tasks.save folding alice
    {| Tasks.b_user_name := Some "alice"; Tasks.b_email := Some "alice@x.org";
       Tasks.b_card_id := Some "health"; Tasks.b_tasks := Some "[]";
       Tasks.b_theme := Some "animal"; Tasks.b_table := Some "user" |} no_tasks =
  (reject 400 "Invalid table name. Only vision_board_tasks or weekly_planner_tasks allowed.",
   no_tasks).
Proof.
  apply (tasks_save_table_allowlist folding alice _ no_tasks "user");
    try reflexivity; try discriminate.
  split; reflexivity.
Defined.

Lemma id_update_tasks (i : Z) (ts : string) (r : Tasks.Row) :
  Tasks.id (Tasks.update_tasks i ts r) = Tasks.id r.
Proof. unfold Tasks.update_tasks. now destruct (Tasks.id r =? i). Qed.

Lemma key_matches_new_row (n e c th n0 e0 c0 th0 ts : string) (i : Z) :
  Tasks.key_matches String.eqb n e c th
    {| Tasks.id := i; Tasks.user_name := Some n0; Tasks.email := Some e0;
       Tasks.card_id := c0; Tasks.tasks := ts; Tasks.theme := th0 |} = true ->
  n = n0 /\ e = e0 /\ c = c0 /\ th = th0.
Proof.
  unfold Tasks.key_matches. cbn. intros H.
  repeat (apply andb_true_iff in H; destruct H as [H ?]).
  repeat match goal with
         | H : String.eqb _ _ = true |- _ => apply String.eqb_eq in H
         end.
  now subst.
Qed.

(** A key that the lookup of the table does not find is not stored letter
    by letter either, the collation equating every text with itself. *)
Lemma not_found_not_stored (eq : string -> string -> bool) (n e c th : string)
    (l : list Tasks.Row) :
  (forall s, eq s s = true) ->
  filter (Tasks.key_matches eq n e c th) l = [] ->
  filter (Tasks.key_matches String.eqb n e c th) l = [].
Proof.
  intros Hrefl Hnone. apply filter_none. intros r Hin.
  destruct (Tasks.key_matches String.eqb n e c th r) eqn:E; [|reflexivity].
  assert (Hr : In r (filter (Tasks.key_matches eq n e c th) l)).
  { apply filter_In. split; [assumption|].
    unfold Tasks.key_matches in E |- *.
    destruct (Tasks.user_name r), (Tasks.email r); try discriminate.
    repeat (apply andb_true_iff in E; destruct E as [E ?]).
    repeat match goal with
           | H : String.eqb _ _ = true |- _ => apply String.eqb_eq in H; rewrite H
           end.
    now rewrite !Hrefl. }
  rewrite Hnone in Hr. elim Hr.
Qed.

Lemma table_ok_update (i : Z) (ts : string) (t : Tasks.Table) :
  TaskLoad.table_ok t ->
  TaskLoad.table_ok {| Tasks.rows := map (Tasks.update_tasks i ts) (Tasks.rows t);
                       Tasks.auto_increment := Tasks.auto_increment t |}.
Proof.
  intros (Hnd & Hlt & Hk). unfold TaskLoad.table_ok. cbn [Tasks.rows Tasks.auto_increment].
  split; [|split].
  - rewrite map_map. now rewrite (map_ext _ Tasks.id (id_update_tasks i ts)).
  - apply Forall_map. eapply Forall_impl; [|exact Hlt].
    intros r Hr. now rewrite id_update_tasks.
  - intros n e c th.
    rewrite (filter_map_stable _ _ _ (key_matches_update_tasks String.eqb n e c th i ts)).
    rewrite length_map. apply Hk.
Qed.

Lemma table_ok_insert (n e c ts th : string) (t : Tasks.Table) :
  TaskLoad.table_ok t ->
  filter (Tasks.key_matches String.eqb n e c th) (Tasks.rows t) = [] ->
  TaskLoad.table_ok
    {| Tasks.rows := Tasks.rows t ++
         [ {| Tasks.id := Tasks.auto_increment t; Tasks.user_name := Some n;
              Tasks.email := Some e; Tasks.card_id := c; Tasks.tasks := ts;
              Tasks.theme := th |} ];
       Tasks.auto_increment := Tasks.auto_increment t + 1 |}.
Proof.
  intros (Hnd & Hlt & Hk) Hnone. unfold TaskLoad.table_ok.
  cbn [Tasks.rows Tasks.auto_increment]. split; [|split].
  - rewrite map_app. cbn [map Tasks.id].
    apply NoDup_app; [assumption | repeat constructor; intros [] |].
    intros i Hi [<-|[]].
    apply in_map_iff in Hi as (r & Hr & Hin).
    rewrite Forall_forall in Hlt. specialize (Hlt r Hin). lia.
  - apply Forall_app. split.
    + eapply Forall_impl; [|exact Hlt]. cbn. intros; lia.
    + repeat constructor. cbn. lia.
  - intros n' e' c' th'. rewrite filter_app, length_app. cbn [filter].
    destruct (Tasks.key_matches String.eqb n' e' c' th' _) eqn:E.
    + apply key_matches_new_row in E as (-> & -> & -> & ->).
      rewrite Hnone. cbn. lia.
    + specialize (Hk n' e' c' th'). cbn. lia.
Qed.

Lemma table_ok_upsert (schema : string -> Tasks.Schema)
    (n e c ts th table : string) (db : Tasks.Tables) :
  (forall s, Tasks.text_eq (schema table) s s = true) ->
  table = "vision_board_tasks" \/ table = "weekly_planner_tasks" ->
  TaskLoad.tables_ok db ->
  TaskLoad.tables_ok (snd (Tasks.upsert schema n e c ts th table db)).
Proof.
  intros Hrefl Htab [Hv Hw]. unfold Tasks.upsert. cbv zeta.
  assert (Ht : TaskLoad.table_ok (Tasks.get_table table db))
    by (destruct Htab; subst table; assumption).
  destruct (filter (Tasks.key_matches (Tasks.text_eq (schema table)) n e c th)
              (Tasks.rows (Tasks.get_table table db)))
    as [|existing rest] eqn:E;
    destruct (Tasks.tasks_column (schema table) ts) as [kept|]; cbn [snd];
    try (now split).
  - pose proof (table_ok_insert n e c kept th _ Ht
                  (not_found_not_stored _ _ _ _ _ _ Hrefl E)) as Hi.
    destruct Htab; subst table; split; assumption.
  - pose proof (table_ok_update (Tasks.id existing) kept _ Ht) as Hu.
    destruct Htab; subst table; split; assumption.
Qed.

(** Task saves keep the tables sound: ids stay unique and below the
    counter, and no natural key (user, email, card, theme) comes to be held
    by two rows, in either table.  The collation of each table is taken to
    equate every text with itself. *)
Theorem tasks_save_keeps_keys_unique (schema : string -> Tasks.Schema)
    (requestUser : Gate.Identity) (body : Tasks.Body) (db : Tasks.Tables) :
  (forall table s, Tasks.text_eq (schema table) s s = true) ->
  TaskLoad.tables_ok db ->
  TaskLoad.tables_ok (snd (Tasks.save schema requestUser body db)).
Proof.
  intros Hrefl Hok.
  destruct (tasks_save_cases schema requestUser body db)
    as [(st & msg & _ & ->) | (c & ts & th & tb & _ & _ & _ & _ & _ & _ & Htab & ->)].
  - exact Hok.
  - now apply table_ok_upsert.
Qed.

Lemma no_tasks_ok : TaskLoad.tables_ok no_tasks.
Proof.
  split; (split; [constructor | split; [constructor | intros; cbn; lia]]).
Qed.

Lemma folding_refl (table s : string) : Tasks.text_eq (folding table) s s = true.
Proof.
  unfold folding. destruct (String.eqb table "vision_board_tasks"); apply String.eqb_refl.
Qed.

Lemma tasks_save_keeps_keys_unique_witness :
  TaskLoad.tables_ok
    (snd (Tasks.save folding alice
            {| Tasks.b_user_name := Some "alice"; Tasks.b_email := Some "alice@x.org";
               Tasks.b_card_id := Some "health"; Tasks.b_tasks := Some "[]";
               Tasks.b_theme := Some "animal";
               Tasks.b_table := Some "vision_board_tasks" |} no_tasks)).
Proof.
  exact (tasks_save_keeps_keys_unique folding alice _ no_tasks folding_refl no_tasks_ok).
Defined.



Lemma card_update_tasks (i : Z) (ts : string) (r : Tasks.Row) :
  Tasks.card_id (Tasks.update_tasks i ts r) = Tasks.card_id r.
Proof. unfold Tasks.update_tasks. now destruct (Tasks.id r =? i). Qed.



(** ** Calendar entries: the gated save *)

Lemma nothing_matched {A} (p : A -> bool) (l : list A) :
  Nat.ltb 0 (List.length (filter p l)) = false ->
  forall r, In r l -> p r = false.
Proof.
  intros H r Hin. destruct (p r) eqn:E; [|reflexivity].
  now rewrite (filter_some p l r Hin E) in H.
Qed.

Lemma map_unmatched {A} (p : A -> bool) (f : A -> A) (l : list A) :
  (forall r, In r l -> p r = false) ->
  map (fun r => if p r then f r else r) l = l.
Proof.
  intros H. rewrite <- (map_id l) at 2. apply map_ext_in.
  intros r Hin. now rewrite (H r Hin).
Qed.

Lemma same_id_same_task (l : list Calendar.Task) (a b : Calendar.Task) :
  NoDup (map Calendar.id l) -> In a l -> In b l ->
  Calendar.id a = Calendar.id b -> a = b.
Proof.
  induction l as [|x l IH]; intros Hnd Ha Hb Hid; [elim Ha|].
  cbn [map] in Hnd. inversion Hnd as [|? ? Hx Hl]; subst.
  destruct Ha as [<-|Ha], Hb as [<-|Hb]; trivial.
  - elim Hx. rewrite Hid. now apply in_map.
  - elim Hx. rewrite <- Hid. now apply in_map.
  - now apply IH.
Qed.

(** A calendar save that does not report a success has written nothing:
    not on a foreign identity, not when fields are missing, and not when the
    row to delete or update by id is not found. *)
Theorem calendar_save_failure_writes_nothing (requestUser : Gate.Identity)
    (body : Calendar.Body) (t : Calendar.Table) :
  success (fst (Calendar.save requestUser body t)) = false ->
  snd (Calendar.save requestUser body t) = t.
Proof.
  unfold Calendar.save.
  destruct (Calendar.b_user_name body) as [n|]; [|reflexivity].
  destruct (Calendar.b_email body) as [e|]; [|reflexivity].
  destruct (_ || _)%bool; [reflexivity|].
  destruct (Calendar.b_delete body && negb (JS.falsyZ (Calendar.b_id body)))%bool.
  { rewrite (removed_rows (Calendar.owned_id (Calendar.or_else (Calendar.b_id body) 0) n e)).
    destruct (Nat.ltb 0 _) eqn:E; [discriminate|]. intros _. cbn [snd].
    destruct (filter_none _ _ (nothing_matched _ _ E)) as [_ ->].
    apply calendar_table_eta. }
  destruct (negb (JS.falsyZ (Calendar.b_id body))).
  { destruct (Nat.ltb 0 _) eqn:E; [discriminate|]. intros _. cbn [snd].
    rewrite (map_unmatched _ _ _ (nothing_matched _ _ E)).
    apply calendar_table_eta. }
  destruct (_ || _)%bool; [reflexivity|].
  destruct (filter _ _); discriminate.
Qed.

Lemma calendar_save_failure_writes_nothing_witness :
  snd (Calendar.save alice
         {| Calendar.b_user_name := Some "alice"; Calendar.b_email := Some "alice@x.org";
            Calendar.b_task_date := None; Calendar.b_task_type := Some 3;
            Calendar.b_task_description := None; Calendar.b_color_code := None;
            Calendar.b_theme := None; Calendar.b_id := Some 7;
            Calendar.b_delete := false |} bobs_calendar) = bobs_calendar.
Proof.
  apply calendar_save_failure_writes_nothing. reflexivity.
Defined.

Lemma date_key_owner (n e d th : string) (r : Calendar.Task) :
  Calendar.date_key n e d th r = true ->
  Calendar.user_name r = n /\ Calendar.email r = e.
Proof.
  unfold Calendar.date_key. intros H.
  repeat (apply andb_true_iff in H; destruct H as [H ?]).
  split; now apply String.eqb_eq.
Qed.

Lemma owned_id_owner (i : Z) (n e : string) (r : Calendar.Task) :
  Calendar.owned_id i n e r = true ->
  Calendar.user_name r = n /\ Calendar.email r = e.
Proof.
  unfold Calendar.owned_id. intros H.
  repeat (apply andb_true_iff in H; destruct H as [H ?]).
  split; now apply String.eqb_eq.
Qed.

(** Whatever a caller sends to the gated calendar save, the rows of other
    identities stay in the table as they are (ids being unique): delete and
    update by id are restricted to the caller's rows, and the update by
    natural key hits a row of the caller's. *)
Theorem calendar_save_spares_foreign_rows (requestUser : Gate.Identity)
    (body : Calendar.Body) (t : Calendar.Table) (r : Calendar.Task) :
  NoDup (map Calendar.id (Calendar.rows t)) ->
  In r (Calendar.rows t) ->
  Calendar.user_name r <> Gate.user_name requestUser
  \/ Calendar.email r <> Gate.email requestUser ->
  In r (Calendar.rows (snd (Calendar.save requestUser body t))).
Proof.
  intros Hnd Hin Hforeign. unfold Calendar.save.
  destruct (Calendar.b_user_name body) as [n|]; [|assumption].
  destruct (Calendar.b_email body) as [e|]; [|assumption].
  destruct (String.eqb n (Gate.user_name requestUser)) eqn:En; [|assumption].
  destruct (String.eqb e (Gate.email requestUser)) eqn:Ee; [|assumption].
  cbn [negb orb]. apply String.eqb_eq in En, Ee. subst n e.
  assert (Hnot : forall i,
             Calendar.owned_id i (Gate.user_name requestUser)
               (Gate.email requestUser) r = false).
  { intros i. destruct (Calendar.owned_id i _ _ r) eqn:E; [|reflexivity].
    apply owned_id_owner in E as [Hu He]. destruct Hforeign; contradiction. }
  destruct (Calendar.b_delete body && negb (JS.falsyZ (Calendar.b_id body)))%bool.
  { assert (Hk : In r (filter (fun r0 => negb (Calendar.owned_id
                   (Calendar.or_else (Calendar.b_id body) 0)
                   (Gate.user_name requestUser) (Gate.email requestUser) r0))
                   (Calendar.rows t)))
      by (apply filter_In; split; [assumption | now rewrite Hnot]).
    destruct (Nat.ltb 0 _); exact Hk. }
  destruct (negb (JS.falsyZ (Calendar.b_id body))).
  { assert (Hk : In r (map (fun r0 => if Calendar.owned_id
                   (Calendar.or_else (Calendar.b_id body) 0)
                   (Gate.user_name requestUser) (Gate.email requestUser) r0
                   then Calendar.apply_fields body r0 else r0) (Calendar.rows t)))
      by (apply in_map_iff; exists r; split; [now rewrite Hnot | assumption]).
    destruct (Nat.ltb 0 _); exact Hk. }
  destruct (_ || _)%bool; [assumption|].
  destruct (filter _ (Calendar.rows t)) as [|existing rest] eqn:E; cbn [snd Calendar.rows].
  - apply in_or_app. now left.
  - assert (Hex : In existing (filter (Calendar.date_key (Gate.user_name requestUser)
                    (Gate.email requestUser)
                    (Calendar.or_else (Calendar.b_task_date body) "")
                    (Calendar.or_else (Calendar.b_theme body) "")) (Calendar.rows t)))
      by (rewrite E; now left).
    apply filter_In in Hex as [Hex Hk]. apply date_key_owner in Hk as [Hu He].
    apply in_map_iff. exists r. split; [|assumption].
    unfold Calendar.overwrite.
    destruct (Calendar.id r =? Calendar.id existing) eqn:Hid; [|reflexivity].
    apply Z.eqb_eq in Hid.
    rewrite (same_id_same_task _ _ _ Hnd Hin Hex Hid) in Hforeign.
    destruct Hforeign; contradiction.
Qed.

Lemma calendar_save_spares_foreign_rows_witness :
  In {| Calendar.id := 7; Calendar.user_name := "bob"; Calendar.email := "bob@x.org";
        Calendar.task_date := "2025-05-15"; Calendar.task_type := 1;
        Calendar.task_description := "d";
        Calendar.color_code := "selected-color-1"; Calendar.theme := "animal" |}
     (Calendar.rows
        (snd (Calendar.save alice
                {| Calendar.b_user_name := Some "alice";
                   Calendar.b_email := Some "alice@x.org";
                   Calendar.b_task_date := None; Calendar.b_task_type := None;
                   Calendar.b_task_description := None; Calendar.b_color_code := None;
                   Calendar.b_theme := None; Calendar.b_id := Some 7;
                   Calendar.b_delete := true |} bobs_calendar))).
Proof.
  apply calendar_save_spares_foreign_rows.
  - repeat constructor. intros [].
  - now left.
  - left. discriminate.
Defined.

Lemma calendar_day_nonempty (d : string) : calendar_day d = true -> d <> "".
Proof. intros H ->. discriminate H. Qed.

Lemma holds_days_appended (t : Calendar.Table) (row : Calendar.Task) :
  holds_days t -> calendar_day (Calendar.task_date row) = true ->
  holds_days {| Calendar.rows := Calendar.rows t ++ [row];
                Calendar.auto_increment := Calendar.auto_increment t + 1 |}.
Proof.
  intros Ht Hr. unfold holds_days. cbn [Calendar.rows].
  apply Forall_app. split; [exact Ht | now repeat constructor].
Qed.

(** A new calendar entry created through the gated save, for a date that is
    a day and on a table that holds days, is stored as sent and answered 201
    with the id the insert assigned; the table holds days afterwards, and
    the load of the same user and theme returns the entry, normalized.  The
    date of a loaded entry stands for the day the table holds; how the
    answer renders it is not represented. *)
Theorem calendar_create_then_load (requestUser : Gate.Identity)
    (date descr color theme : string) (ty : Z) (del : bool) (t : Calendar.Table) :
  calendar_day date = true -> holds_days t ->
  ty <> 0 -> descr <> "" -> color <> "" -> theme <> "" ->
  filter (Calendar.date_key (Gate.user_name requestUser) (Gate.email requestUser)
            date theme) (Calendar.rows t) = [] ->
  let body :=
    {| Calendar.b_user_name := Some (Gate.user_name requestUser);
       Calendar.b_email := Some (Gate.email requestUser);
       Calendar.b_task_date := Some date; Calendar.b_task_type := Some ty;
       Calendar.b_task_description := Some descr;
       Calendar.b_color_code := Some color; Calendar.b_theme := Some theme;
       Calendar.b_id := None; Calendar.b_delete := del |} in
  let row :=
    {| Calendar.id := Calendar.auto_increment t;
       Calendar.user_name := Gate.user_name requestUser;
       Calendar.email := Gate.email requestUser;
       Calendar.task_date := date; Calendar.task_type := ty;
       Calendar.task_description := descr; Calendar.color_code := color;
       Calendar.theme := theme |} in
  Calendar.save requestUser body t =
    (accept 201 "Calendar task saved successfully" (Some (Calendar.auto_increment t)),
     {| Calendar.rows := Calendar.rows t ++ [row];
        Calendar.auto_increment := Calendar.auto_increment t + 1 |})
  /\ holds_days (snd (Calendar.save requestUser body t))
  /\ exists tasks,
       Calendar.load requestUser (Some theme)
         (snd (Calendar.save requestUser body t)) = Calendar.LoadOk tasks
       /\ In (Calendar.normalize row) tasks.
Proof.
  intros Hday Hdays Hty Hde Hc Hth Hnone body row.
  pose proof (calendar_day_nonempty _ Hday) as Hd.
  assert (Hs : Calendar.save requestUser body t =
    (accept 201 "Calendar task saved successfully" (Some (Calendar.auto_increment t)),
     {| Calendar.rows := Calendar.rows t ++ [row];
        Calendar.auto_increment := Calendar.auto_increment t + 1 |})).
  { unfold Calendar.save, body.
    cbn [Calendar.b_user_name Calendar.b_email Calendar.b_task_date
         Calendar.b_task_type Calendar.b_task_description Calendar.b_color_code
         Calendar.b_theme Calendar.b_id Calendar.b_delete Calendar.or_else JS.falsyZ].
    rewrite !String.eqb_refl. cbn [negb orb]. rewrite andb_false_r.
    rewrite !falsy_some by assumption.
    rewrite (proj2 (Z.eqb_neq ty 0) Hty). cbn [orb].
    now rewrite Hnone. }
  split; [exact Hs|].
  rewrite Hs. cbn [snd].
  split; [now apply holds_days_appended|].
  unfold Calendar.load.
  rewrite (proj2 (String.eqb_neq theme "") Hth).
  eexists. split; [reflexivity|].
  apply in_map. apply filter_In. split.
  - cbn [Calendar.rows]. apply in_or_app. right. now left.
  - unfold Calendar.owned_in_theme, row. cbn. now rewrite !String.eqb_refl.
Qed.

Lemma calendar_create_then_load_witness :
  Calendar.save alice
    {| Calendar.b_user_name := Some "alice"; Calendar.b_email := Some "alice@x.org";
       Calendar.b_task_date := Some "2025-05-15"; Calendar.b_task_type := Some 2;
       Calendar.b_task_description := Some "d"; Calendar.b_color_code := Some "blue";
       Calendar.b_theme := Some "animal"; Calendar.b_id := None;
       Calendar.b_delete := false |} no_calendar =
  (accept 201 "Calendar task saved successfully" (Some 1),
   {| Calendar.rows :=
        [ {| Calendar.id := 1; Calendar.user_name := "alice";
             Calendar.email := "alice@x.org"; Calendar.task_date := "2025-05-15";
             Calendar.task_type := 2; Calendar.task_description := "d";
             Calendar.color_code := "blue"; Calendar.theme := "animal" |} ];
      Calendar.auto_increment := 2 |}).
Proof.
  refine (proj1 (calendar_create_then_load alice "2025-05-15" "d" "blue" "animal" 2
                   false no_calendar _ _ _ _ _ _ _));
    try discriminate; try reflexivity. constructor.
Defined.

Example calendar_day_examples :
  calendar_day "2025-05-15" = true /\ calendar_day "2024-02-29" = true
  /\ calendar_day "someday" = false /\ calendar_day "2025-5-15" = false
  /\ calendar_day "2025-02-30" = false /\ calendar_day "0000-00-00" = false.
Proof. repeat split. Qed.

(** ** Calendar entries: the compatibility writes *)

Lemma compat_post_cases (body : Calendar.Body) (t : Calendar.Table) :
  CalendarCompat.post body t =
    ({| CalendarCompat.status := 400; CalendarCompat.success := false;
        CalendarCompat.message := "Missing required fields";
        CalendarCompat.task := None |}, t)
  \/ exists n e d ty descr color th,
       Calendar.b_user_name body = Some n /\ Calendar.b_email body = Some e
       /\ Calendar.b_task_date body = Some d /\ Calendar.b_task_type body = Some ty
       /\ Calendar.b_task_description body = Some descr
       /\ Calendar.b_color_code body = Some color /\ Calendar.b_theme body = Some th
       /\ let stored := if negb (JS.startsWith color "selected-color-")
                        then "selected-color-" ++ JS.toString ty else color in
          match filter (Calendar.date_key n e d th) (Calendar.rows t) with
          | existing :: _ =>
              CalendarCompat.post body t =
              ({| CalendarCompat.status := 200; CalendarCompat.success := true;
                  CalendarCompat.message := "Calendar task updated successfully";
                  CalendarCompat.task :=
                    Some (CalendarCompat.NumId (Calendar.id existing)) |},
               {| Calendar.rows :=
                    map (Calendar.overwrite (Calendar.id existing) ty descr stored)
                      (Calendar.rows t);
                  Calendar.auto_increment := Calendar.auto_increment t |})
          | [] =>
              CalendarCompat.post body t =
              ({| CalendarCompat.status := 201; CalendarCompat.success := true;
                  CalendarCompat.message := "Calendar task saved successfully";
                  CalendarCompat.task :=
                    Some (CalendarCompat.NumId (Calendar.auto_increment t)) |},
               {| Calendar.rows := Calendar.rows t ++
                    [ {| Calendar.id := Calendar.auto_increment t;
                         Calendar.user_name := n; Calendar.email := e;
                         Calendar.task_date := d; Calendar.task_type := ty;
                         Calendar.task_description := descr;
                         Calendar.color_code := stored; Calendar.theme := th |} ];
                  Calendar.auto_increment := Calendar.auto_increment t + 1 |})
          end.
Proof.
  unfold CalendarCompat.post.
  destruct (_ || _)%bool eqn:Hm; [now left|]. right.
  repeat (apply orb_false_iff in Hm; destruct Hm as [Hm ?]).
  destruct (Calendar.b_user_name body) as [n|]; [|discriminate].
  destruct (Calendar.b_email body) as [e|]; [|discriminate].
  destruct (Calendar.b_task_date body) as [d|]; [|discriminate].
  destruct (Calendar.b_task_type body) as [ty|]; [|discriminate].
  destruct (Calendar.b_task_description body) as [descr|]; [|discriminate].
  destruct (Calendar.b_color_code body) as [color|]; [|discriminate].
  destruct (Calendar.b_theme body) as [th|]; [|discriminate].
  exists n, e, d, ty, descr, color, th. repeat split.
  cbn [Calendar.or_else]. cbv zeta.
  now destruct (filter _ _).
Qed.

Lemma stored_color_prefixed (color : string) (ty : Z) :
  JS.startsWith
    (if negb (JS.startsWith color "selected-color-")
     then "selected-color-" ++ JS.toString ty else color) "selected-color-" = true.
Proof.
  destruct (JS.startsWith color "selected-color-") eqn:E; cbn [negb]; [exact E|].
  apply prefix_append.
Qed.

(** The compatibility POST never leaves the row it answers for with a
    color code outside the [selected-color-] family: on a table whose ids lie
    below the counter, every row carrying the answered id has the prefix. *)
Theorem compat_post_color_prefixed (body : Calendar.Body) (t : Calendar.Table)
    (i : Z) (row : Calendar.Task) :
  Forall (fun r => Calendar.id r < Calendar.auto_increment t) (Calendar.rows t) ->
  CalendarCompat.task (fst (CalendarCompat.post body t)) =
    Some (CalendarCompat.NumId i) ->
  In row (Calendar.rows (snd (CalendarCompat.post body t))) ->
  Calendar.id row = i ->
  JS.startsWith (Calendar.color_code row) "selected-color-" = true.
Proof.
  intros Hlt Htask Hin Hid.
  destruct (compat_post_cases body t)
    as [H | (n & e & d & ty & descr & color & th & _ & _ & _ & _ & _ & _ & _ & H)];
    [rewrite H in Htask; discriminate|].
  cbv zeta in H.
  destruct (filter _ (Calendar.rows t)) as [|existing rest];
    rewrite H in Htask, Hin; cbn in Htask, Hin; injection Htask as <-.
  - apply in_app_or in Hin as [Hin|[<-|[]]].
    + rewrite Forall_forall in Hlt. specialize (Hlt row Hin). lia.
    + apply stored_color_prefixed.
  - apply in_map_iff in Hin as (r & <- & Hr).
    unfold Calendar.overwrite in Hid |- *.
    destruct (Calendar.id r =? Calendar.id existing) eqn:E.
    + apply stored_color_prefixed.
    + cbn in Hid. apply Z.eqb_neq in E. contradiction.
Qed.

Lemma compat_post_color_prefixed_witness :
  JS.startsWith "selected-color-2" "selected-color-" = true.
Proof.
  apply (compat_post_color_prefixed
           {| Calendar.b_user_name := Some "alice"; Calendar.b_email := Some "alice@x.org";
              Calendar.b_task_date := Some "2025-05-15"; Calendar.b_task_type := Some 2;
              Calendar.b_task_description := Some "d";
              Calendar.b_color_code := Some "#ff6f61";
              Calendar.b_theme := Some "animal"; Calendar.b_id := None;
              Calendar.b_delete := false |} no_calendar 1
           {| Calendar.id := 1; Calendar.user_name := "alice";
              Calendar.email := "alice@x.org"; Calendar.task_date := "2025-05-15";
              Calendar.task_type := 2; Calendar.task_description := "d";
              Calendar.color_code := "selected-color-2"; Calendar.theme := "animal" |}).
  - constructor.
  - reflexivity.
  - now left.
  - reflexivity.
Defined.

Lemma rewritten_row_fixed (i : Z) (n e d descr th : string) (ty : Z) :
  Calendar.normalize
    {| Calendar.id := i; Calendar.user_name := n; Calendar.email := e;
       Calendar.task_date := d; Calendar.task_type := ty;
       Calendar.task_description := descr;
       Calendar.color_code := "selected-color-" ++ JS.toString ty;
       Calendar.theme := th |} =
  {| Calendar.id := i; Calendar.user_name := n; Calendar.email := e;
     Calendar.task_date := d; Calendar.task_type := ty;
     Calendar.task_description := descr;
     Calendar.color_code := "selected-color-" ++ JS.toString ty;
     Calendar.theme := th |}.
Proof.
  apply normalize_fixed; cbn [Calendar.color_code Calendar.task_type].
  - apply prefix_append.
  - pose proof (regex_match_rewritten ty) as H.
    destruct (Calendar.regex_match ("selected-color-" ++ JS.toString ty));
      [now symmetry | exact I].
Qed.

(** Write-side and read-side repair agree: an entry posted through the
    compatibility endpoint with a color code outside the family, for a date
    that is a day and on a table that holds days, is stored with
    [selected-color-<task_type>]; the table holds days afterwards, and the
    gated load of that user and theme returns the stored row unchanged.  The
    date of a loaded entry stands for the day the table holds; how the
    answer renders it is not represented. *)
Theorem compat_post_then_load (n e d descr color th : string) (ty : Z)
    (t : Calendar.Table) :
  calendar_day d = true -> holds_days t ->
  n <> "" -> e <> "" -> ty <> 0 -> descr <> "" -> color <> "" -> th <> "" ->
  JS.startsWith color "selected-color-" = false ->
  filter (Calendar.date_key n e d th) (Calendar.rows t) = [] ->
  let body :=
    {| Calendar.b_user_name := Some n; Calendar.b_email := Some e;
       Calendar.b_task_date := Some d; Calendar.b_task_type := Some ty;
       Calendar.b_task_description := Some descr;
       Calendar.b_color_code := Some color; Calendar.b_theme := Some th;
       Calendar.b_id := None; Calendar.b_delete := false |} in
  let row :=
    {| Calendar.id := Calendar.auto_increment t; Calendar.user_name := n;
       Calendar.email := e; Calendar.task_date := d; Calendar.task_type := ty;
       Calendar.task_description := descr;
       Calendar.color_code := "selected-color-" ++ JS.toString ty;
       Calendar.theme := th |} in
  snd (CalendarCompat.post body t) =
    {| Calendar.rows := Calendar.rows t ++ [row];
       Calendar.auto_increment := Calendar.auto_increment t + 1 |}
  /\ CalendarCompat.status (fst (CalendarCompat.post body t)) = 201
  /\ holds_days (snd (CalendarCompat.post body t))
  /\ exists tasks,
       Calendar.load {| Gate.user_name := n; Gate.email := e |} (Some th)
         (snd (CalendarCompat.post body t)) = Calendar.LoadOk tasks
       /\ In row tasks.
Proof.
  intros Hday Hdays Hn He Hty Hde Hc Hth Hp Hnone body row.
  pose proof (calendar_day_nonempty _ Hday) as Hd.
  assert (Hs : CalendarCompat.post body t =
    ({| CalendarCompat.status := 201; CalendarCompat.success := true;
        CalendarCompat.message := "Calendar task saved successfully";
        CalendarCompat.task := Some (CalendarCompat.NumId (Calendar.auto_increment t)) |},
     {| Calendar.rows := Calendar.rows t ++ [row];
        Calendar.auto_increment := Calendar.auto_increment t + 1 |})).
  { unfold CalendarCompat.post, body.
    cbn [Calendar.b_user_name Calendar.b_email Calendar.b_task_date
         Calendar.b_task_type Calendar.b_task_description Calendar.b_color_code
         Calendar.b_theme Calendar.or_else JS.falsyZ].
    rewrite !falsy_some by assumption.
    rewrite (proj2 (Z.eqb_neq ty 0) Hty). cbn [orb]. cbv zeta.
    rewrite Hnone, Hp. reflexivity. }
  rewrite Hs. cbn [fst snd CalendarCompat.status].
  split; [reflexivity|]. split; [reflexivity|].
  split; [now apply holds_days_appended|].
  unfold Calendar.load. rewrite (proj2 (String.eqb_neq th "") Hth).
  eexists. split; [reflexivity|].
  apply in_map_iff. exists row.
  split; [apply rewritten_row_fixed|].
  apply filter_In. split.
  - cbn [Calendar.rows]. apply in_or_app. right. now left.
  - unfold Calendar.owned_in_theme. cbn. now rewrite !String.eqb_refl.
Qed.

Lemma compat_post_then_load_witness :
  snd (CalendarCompat.post
         {| Calendar.b_user_name := Some "alice"; Calendar.b_email := Some "alice@x.org";
            Calendar.b_task_date := Some "2025-05-15"; Calendar.b_task_type := Some 2;
            Calendar.b_task_description := Some "d";
            Calendar.b_color_code := Some "#ff6f61";
            Calendar.b_theme := Some "animal"; Calendar.b_id := None;
            Calendar.b_delete := false |} no_calendar) =
  {| Calendar.rows :=
       [ {| Calendar.id := 1; Calendar.user_name := "alice";
            Calendar.email := "alice@x.org"; Calendar.task_date := "2025-05-15";
            Calendar.task_type := 2; Calendar.task_description := "d";
            Calendar.color_code := "selected-color-2"; Calendar.theme := "animal" |} ];
     Calendar.auto_increment := 2 |}.
Proof.
  refine (proj1 (compat_post_then_load "alice" "alice@x.org" "2025-05-15" "d"
                   "#ff6f61" "animal" 2 no_calendar _ _ _ _ _ _ _ _ _ _));
    try discriminate; try reflexivity. constructor.
Defined.

Lemma put_fields_keeps (body : Calendar.Body) (r : Calendar.Task) :
  Calendar.id (CalendarCompat.put_fields body r) = Calendar.id r
  /\ Calendar.user_name (CalendarCompat.put_fields body r) = Calendar.user_name r
  /\ Calendar.email (CalendarCompat.put_fields body r) = Calendar.email r
  /\ Calendar.theme (CalendarCompat.put_fields body r) = Calendar.theme r.
Proof. now repeat split. Qed.

(** The compatibility PUT changes nothing but the type, description, color
    code and date of the rows that match both the path id and the owner
    named in the body: the ids, owners and themes of all rows and the counter
    stay as they are, a row that fails the id or names another owner is left
    untouched, and an answer that is not a success leaves the table as it
    was. *)
Theorem compat_put_scope (sql_id_eq : Z -> string -> bool) (taskId : string)
    (body : Calendar.Body) (t : Calendar.Table) :
  let t' := snd (CalendarCompat.put sql_id_eq taskId body t) in
  map (fun r => (Calendar.id r, Calendar.user_name r, Calendar.email r, Calendar.theme r))
      (Calendar.rows t') =
  map (fun r => (Calendar.id r, Calendar.user_name r, Calendar.email r, Calendar.theme r))
      (Calendar.rows t)
  /\ Calendar.auto_increment t' = Calendar.auto_increment t
  /\ (forall r, In r (Calendar.rows t) ->
        sql_id_eq (Calendar.id r) taskId = false
        \/ Calendar.b_user_name body <> Some (Calendar.user_name r)
        \/ Calendar.b_email body <> Some (Calendar.email r) ->
        In r (Calendar.rows t'))
  /\ (CalendarCompat.success (fst (CalendarCompat.put sql_id_eq taskId body t)) = false ->
      t' = t).
Proof.
  unfold CalendarCompat.put.
  destruct (_ || _)%bool eqn:Hm.
  { cbn [snd fst CalendarCompat.success]. now repeat split. }
  apply orb_false_iff in Hm as [Hn He].
  destruct (Calendar.b_user_name body) as [n|]; [|discriminate].
  destruct (Calendar.b_email body) as [e|]; [|discriminate].
  cbn [Calendar.or_else]. cbv zeta.
  set (p := CalendarCompat.put_target sql_id_eq taskId n e).
  assert (Hkeys :
    map (fun r => (Calendar.id r, Calendar.user_name r, Calendar.email r, Calendar.theme r))
        (map (fun r => if p r then CalendarCompat.put_fields body r else r)
           (Calendar.rows t)) =
    map (fun r => (Calendar.id r, Calendar.user_name r, Calendar.email r, Calendar.theme r))
        (Calendar.rows t)).
  { rewrite map_map. apply map_ext. intros r. now destruct (p r). }
  assert (Hspare : forall r, In r (Calendar.rows t) ->
            sql_id_eq (Calendar.id r) taskId = false
            \/ Some n <> Some (Calendar.user_name r)
            \/ Some e <> Some (Calendar.email r) ->
            In r (map (fun r => if p r then CalendarCompat.put_fields body r else r)
                    (Calendar.rows t))).
  { intros r Hin Hno. apply in_map_iff. exists r. split; [|assumption].
    destruct (p r) eqn:E; [|reflexivity].
    unfold p, CalendarCompat.put_target in E.
    repeat (apply andb_true_iff in E; destruct E as [E ?]).
    repeat match goal with
           | H : String.eqb _ _ = true |- _ => apply String.eqb_eq in H
           end.
    destruct Hno as [Hno|[Hno|Hno]]; [congruence | elim Hno | elim Hno]; congruence. }
  destruct (Nat.ltb 0 _) eqn:E; cbn [snd fst CalendarCompat.success Calendar.rows
                                      Calendar.auto_increment].
  - repeat split; trivial. discriminate.
  - repeat split; trivial. intros _.
    rewrite (map_unmatched _ _ _ (nothing_matched _ _ E)).
    apply calendar_table_eta.
Qed.

Lemma compat_put_scope_witness :
  snd (CalendarCompat.put Calendar.decimal_id_eq "7"
         {| Calendar.b_user_name := Some "alice"; Calendar.b_email := Some "alice@x.org";
            Calendar.b_task_date := None; Calendar.b_task_type := Some 3;
            Calendar.b_task_description := None; Calendar.b_color_code := None;
            Calendar.b_theme := None; Calendar.b_id := None;
            Calendar.b_delete := false |} bobs_calendar) = bobs_calendar.
Proof.
  apply (proj2 (proj2 (proj2 (compat_put_scope Calendar.decimal_id_eq "7" _
                                bobs_calendar)))).
  reflexivity.
Defined.

(** ** Mind-tools counters: further properties *)

Lemma record_activity_cases (formatDate : string -> option string) (today : string)
    (user : MindTools.User) (tracker date : option string) (t : MindTools.Table) :
  (exists st msg,
     MindTools.record_activity formatDate today user tracker date t =
     (MindTools.ActivityError st msg, t))
  \/ (exists tr fd,
        tracker = Some tr /\ MindTools.includes MindTools.validTrackers tr = true
        /\ (JS.falsy date = true /\ fd = today
            \/ exists d, date = Some d /\ d <> "" /\ formatDate d = Some fd)
        /\ MindTools.record_activity formatDate today user tracker date t =
           match MindTools.select (MindTools.email user) tr fd t with
           | existing :: _ =>
               (MindTools.ActivityOk 200 "Activity count updated"
                  (MindTools.Counter tr fd (MindTools.row_count existing + 1)),
                MindTools.update_count (MindTools.id existing)
                  (MindTools.row_count existing + 1) t)
           | [] =>
               (MindTools.ActivityOk 201 "Activity recorded"
                  (MindTools.Inserted (MindTools.auto_increment t) tr fd 1),
                MindTools.insert (MindTools.name user) (MindTools.email user) tr fd 1 t)
           end).
Proof.
  unfold MindTools.record_activity.
  destruct tracker as [tr|]; [|left; eauto].
  destruct (String.eqb tr ""); [left; eauto|].
  destruct (JS.falsy date) eqn:Hf.
  - destruct (negb (MindTools.includes MindTools.validTrackers tr)) eqn:Hv;
      [left; eauto|].
    right. exists tr, today. apply negb_false_iff in Hv.
    repeat split; auto.
  - destruct date as [d|]; [|discriminate].
    destruct (formatDate d) as [fd|] eqn:Hd; [|left; eauto].
    destruct (negb (MindTools.includes MindTools.validTrackers tr)) eqn:Hv;
      [left; eauto|].
    right. exists tr, fd. apply negb_false_iff in Hv.
    repeat split; auto. right. exists d. repeat split; auto.
    intros ->. discriminate.
Qed.

(** The single-counter increment writes only for a tracker type of the
    enumerated set: for any other tracker type, and for every request it
    answers with an error, the table is left as it was. *)
Theorem record_activity_rejects_unlisted (formatDate : string -> option string)
    (today : string) (user : MindTools.User) (tracker date : option string)
    (t : MindTools.Table) :
  (forall tr, tracker = Some tr -> MindTools.includes MindTools.validTrackers tr = false ->
     exists st msg,
       MindTools.record_activity formatDate today user tracker date t =
       (MindTools.ActivityError st msg, t))
  /\ (forall st msg,
        fst (MindTools.record_activity formatDate today user tracker date t) =
        MindTools.ActivityError st msg ->
        snd (MindTools.record_activity formatDate today user tracker date t) = t).
Proof.
  destruct (record_activity_cases formatDate today user tracker date t)
    as [(st & msg & H) | (tr & fd & -> & Hv & _ & H)].
  - split.
    + intros tr _ _. eauto.
    + intros st' msg' _. now rewrite H.
  - split.
    + intros tr' [= <-] Hno. congruence.
    + intros st msg. rewrite H.
      destruct (MindTools.select _ _ _ _); discriminate.
Qed.

Lemma record_activity_rejects_unlisted_witness :
  exists st msg,
    MindTools.record_activity MindTools.isoDateOnly "2025-01-02" carol
      (Some "juggling") None MindTools.empty =
    (MindTools.ActivityError st msg, MindTools.empty).
Proof.
  exact (proj1 (record_activity_rejects_unlisted MindTools.isoDateOnly "2025-01-02"
                  carol (Some "juggling") None MindTools.empty)
           "juggling" eq_refl eq_refl).
Defined.

Lemma stored_after_update (e tr d : string) (existing : MindTools.Row)
    (rest : list MindTools.Row) (n : Z) (t : MindTools.Table) :
  MindTools.select e tr d t = existing :: rest ->
  MindTools.stored_count e tr d (MindTools.update_count (MindTools.id existing) n t) =
  Some n.
Proof.
  intros E. rewrite stored_count_select, select_update_count, E. cbn [map].
  unfold MindTools.set_count. now rewrite Z.eqb_refl.
Qed.

Lemma stored_after_insert (un e tr d : string) (n : Z) (t : MindTools.Table) :
  MindTools.select e tr d t = [] ->
  MindTools.stored_count e tr d (MindTools.insert un e tr d n t) = Some n.
Proof.
  intros E. rewrite stored_count_select, select_insert, E, app_nil_l.
  cbn [filter]. now rewrite key_matches_refl.
Qed.

(** An accepted increment raises the stored count of its key by exactly
    one, starting a missing counter at 1, and answers with the count it
    stored. *)
Lemma record_activity_step (formatDate : string -> option string)
    (today : string) (user : MindTools.User) (tr : string) (date : option string)
    (fd : string) (t : MindTools.Table) :
  tr <> "" -> MindTools.includes MindTools.validTrackers tr = true ->
  (JS.falsy date = true /\ fd = today
   \/ exists d, date = Some d /\ d <> "" /\ formatDate d = Some fd) ->
  let next := match MindTools.stored_count (MindTools.email user) tr fd t with
              | Some s => s + 1
              | None => 1
              end in
  exists st msg data,
    fst (MindTools.record_activity formatDate today user (Some tr) date t) =
      MindTools.ActivityOk st msg data
    /\ MindTools.finalCount {| MindTools.success := true; MindTools.message := msg;
                               MindTools.data := data |} = Some next
    /\ MindTools.stored_count (MindTools.email user) tr fd
         (snd (MindTools.record_activity formatDate today user (Some tr) date t)) =
       Some next.
Proof.
  intros Htr Hv Hd next.
  assert (H : MindTools.record_activity formatDate today user (Some tr) date t =
           match MindTools.select (MindTools.email user) tr fd t with
           | existing :: _ =>
               (MindTools.ActivityOk 200 "Activity count updated"
                  (MindTools.Counter tr fd (MindTools.row_count existing + 1)),
                MindTools.update_count (MindTools.id existing)
                  (MindTools.row_count existing + 1) t)
           | [] =>
               (MindTools.ActivityOk 201 "Activity recorded"
                  (MindTools.Inserted (MindTools.auto_increment t) tr fd 1),
                MindTools.insert (MindTools.name user) (MindTools.email user) tr fd 1 t)
           end).
  { unfold MindTools.record_activity.
    rewrite (proj2 (String.eqb_neq tr "") Htr).
    destruct Hd as [[Hf ->] | (d & -> & Hne & Hfd)].
    - rewrite Hf, Hv. reflexivity.
    - rewrite (falsy_some _ Hne), Hfd, Hv. reflexivity. }
  rewrite H. unfold next. rewrite stored_count_select.
  destruct (MindTools.select (MindTools.email user) tr fd t) as [|existing rest] eqn:E;
    cbn [fst snd].
  - do 3 eexists. split; [reflexivity|]. split; [reflexivity|].
    now apply stored_after_insert.
  - do 3 eexists. split; [reflexivity|]. split; [reflexivity|].
    now apply (stored_after_update _ _ _ _ rest).
Qed.

(** Increments add up: [n] accepted increments of one counter, one after
    the other, leave it [n] above where it was, a missing counter counting
    as 0. *)
Theorem record_times_adds_n (formatDate : string -> option string)
    (today : string) (user : MindTools.User) (tr : string) (date : option string)
    (fd : string) (n : nat) (t : MindTools.Table) :
  tr <> "" -> MindTools.includes MindTools.validTrackers tr = true ->
  (JS.falsy date = true /\ fd = today
   \/ exists d, date = Some d /\ d <> "" /\ formatDate d = Some fd) ->
  MindTools.stored_count (MindTools.email user) tr fd
    (record_times formatDate today user (Some tr) date (S n) t) =
  Some (match MindTools.stored_count (MindTools.email user) tr fd t with
        | Some s => s
        | None => 0
        end + Z.of_nat (S n)).
Proof.
  intros Htr Hv Hd. unfold record_times.
  induction n as [|n IH].
  - change (Nat.iter 1 ?f t) with (f t). cbv beta.
    destruct (record_activity_step formatDate today user tr date fd t Htr Hv Hd)
      as (st & msg & data & _ & _ & ->).
    destruct (MindTools.stored_count _ _ _ t); f_equal; lia.
  - change (Nat.iter (S (S n)) ?f t) with (f (Nat.iter (S n) f t)). cbv beta.
    destruct (record_activity_step formatDate today user tr date fd
                (Nat.iter (S n)
                   (fun t0 => snd (MindTools.record_activity formatDate today user
                                     (Some tr) date t0)) t) Htr Hv Hd)
      as (st & msg & data & _ & _ & ->).
    rewrite IH. f_equal. lia.
Qed.

Lemma record_times_adds_n_witness :
  MindTools.stored_count "carol@x.org" "break_things" "2025-01-02"
    (record_times MindTools.isoDateOnly "2025-01-02" carol (Some "break_things") None
       3 MindTools.empty) = Some 3.
Proof.
  apply (record_times_adds_n MindTools.isoDateOnly "2025-01-02" carol "break_things"
           None "2025-01-02" 2 MindTools.empty).
  - discriminate.
  - reflexivity.
  - left. split; reflexivity.
Defined.

Lemma sync_activity_merged (formatDate : string -> option string)
    (user : MindTools.User) (tracker date fdate : string) (c : option Z)
    (t : MindTools.Table) :
  tracker <> "" -> date <> "" -> formatDate date = Some fdate ->
  let merged := match MindTools.stored_count (MindTools.email user) tracker fdate t with
                | Some s => Z.max s (MindTools.count_or_1 c)
                | None => MindTools.count_or_1 c
                end in
  exists r t',
    MindTools.sync_activity formatDate user (item tracker date c) t = Some (r, t')
    /\ MindTools.finalCount r = Some merged
    /\ MindTools.stored_count (MindTools.email user) tracker fdate t' = Some merged.
Proof.
  intros Ht Hd Hf merged.
  rewrite (sync_activity_present _ _ _ _ _ _ _ Ht Hd Hf).
  unfold merged. clear merged. rewrite stored_count_select.
  destruct (MindTools.select (MindTools.email user) tracker fdate t)
    as [|existing rest] eqn:E.
  - do 2 eexists. split; [reflexivity|]. split; [reflexivity|].
    now apply stored_after_insert.
  - destruct (MindTools.row_count existing <? MindTools.count_or_1 c) eqn:Hlt.
    + apply Z.ltb_lt in Hlt.
      rewrite (Z.max_r _ _ (Z.lt_le_incl _ _ Hlt)).
      do 2 eexists. split; [reflexivity|]. split; [reflexivity|].
      now apply (stored_after_update _ _ _ _ rest).
    + apply Z.ltb_ge in Hlt. rewrite (Z.max_l _ _ Hlt).
      do 2 eexists. split; [reflexivity|]. split; [reflexivity|].
      now rewrite stored_count_select, E.
Qed.

(** The sync merge is a maximum: after an item that carries a tracker type
    and a date that formats, the stored count of its key is the larger of the
    count found and the item's count, or the item's count when none was
    found; sending the same item again changes nothing and is reported as
    unchanged with that count. *)
Theorem sync_activity_stores_max (formatDate : string -> option string)
    (user : MindTools.User) (tracker date fdate : string) (c : option Z)
    (t : MindTools.Table) :
  tracker <> "" -> date <> "" -> formatDate date = Some fdate ->
  let merged := match MindTools.stored_count (MindTools.email user) tracker fdate t with
                | Some s => Z.max s (MindTools.count_or_1 c)
                | None => MindTools.count_or_1 c
                end in
  exists r t',
    MindTools.sync_activity formatDate user (item tracker date c) t = Some (r, t')
    /\ MindTools.finalCount r = Some merged
    /\ MindTools.stored_count (MindTools.email user) tracker fdate t' = Some merged
    /\ exists r',
         MindTools.sync_activity formatDate user (item tracker date c) t' = Some (r', t')
         /\ MindTools.action r' = MindTools.unchanged
         /\ MindTools.finalCount r' = Some merged.
Proof.
  intros Ht Hd Hf merged.
  destruct (sync_activity_merged formatDate user tracker date fdate c t Ht Hd Hf)
    as (r & t' & Hs & Hc & Hst).
  fold merged in Hc, Hst.
  assert (Hle : MindTools.count_or_1 c <= merged)
    by (unfold merged; destruct (MindTools.stored_count _ _ _ t); lia).
  exists r, t'. repeat split; trivial.
  rewrite (sync_activity_present _ _ _ _ _ _ _ Ht Hd Hf).
  rewrite stored_count_select in Hst.
  destruct (MindTools.select (MindTools.email user) tracker fdate t')
    as [|ex rest]; [discriminate|].
  injection Hst as Hst. rewrite Hst.
  rewrite (proj2 (Z.ltb_ge merged (MindTools.count_or_1 c)) Hle).
  eexists. repeat split.
Qed.

Lemma sync_activity_stores_max_witness :
  exists r t',
    MindTools.sync_activity MindTools.isoDateOnly carol
      (item "break_things" "2025-01-01" (Some 2)) carol_at_3 = Some (r, t')
    /\ MindTools.finalCount r = Some 3.
Proof.
  destruct (sync_activity_stores_max MindTools.isoDateOnly carol
              "break_things" "2025-01-01" "2025-01-01" (Some 2) carol_at_3
              ltac:(discriminate) ltac:(discriminate) eq_refl)
    as (r & t' & Hs & Hc & _).
  exists r, t'. split; assumption.
Defined.

Lemma sync_two_items (formatDate : string -> option string) (user : MindTools.User)
    (a1 a2 : MindTools.Activity) (t t1 t2 : MindTools.Table)
    (r1 r2 : MindTools.Result) :
  MindTools.sync_activity formatDate user a1 t = Some (r1, t1) ->
  MindTools.sync_activity formatDate user a2 t1 = Some (r2, t2) ->
  MindTools.sync formatDate user (Some [a1; a2]) t =
  (MindTools.SyncOk "Processed 2 activities" [r1; r2], t2).
Proof.
  intros H1 H2. unfold MindTools.sync. cbn [MindTools.process].
  rewrite H1, H2. reflexivity.
Qed.

(** The order in which two counts for one key arrive in a batch does not
    matter: either way the stored count ends as the largest of the count
    found and the two counts sent. *)
Theorem sync_order_irrelevant (formatDate : string -> option string)
    (user : MindTools.User) (tracker date fdate : string) (c1 c2 : option Z)
    (t : MindTools.Table) :
  tracker <> "" -> date <> "" -> formatDate date = Some fdate ->
  let final := match MindTools.stored_count (MindTools.email user) tracker fdate t with
               | Some s => Z.max s (Z.max (MindTools.count_or_1 c1) (MindTools.count_or_1 c2))
               | None => Z.max (MindTools.count_or_1 c1) (MindTools.count_or_1 c2)
               end in
  MindTools.stored_count (MindTools.email user) tracker fdate
    (snd (MindTools.sync formatDate user
            (Some [item tracker date c1; item tracker date c2]) t)) = Some final
  /\ MindTools.stored_count (MindTools.email user) tracker fdate
       (snd (MindTools.sync formatDate user
               (Some [item tracker date c2; item tracker date c1]) t)) = Some final.
Proof.
  intros Ht Hd Hf final.
  assert (Hpair : forall x y,
    MindTools.stored_count (MindTools.email user) tracker fdate
      (snd (MindTools.sync formatDate user
              (Some [item tracker date x; item tracker date y]) t)) =
    Some (match MindTools.stored_count (MindTools.email user) tracker fdate t with
          | Some s => Z.max (Z.max s (MindTools.count_or_1 x)) (MindTools.count_or_1 y)
          | None => Z.max (MindTools.count_or_1 x) (MindTools.count_or_1 y)
          end)).
  { intros x y.
    destruct (sync_activity_merged formatDate user tracker date fdate x t Ht Hd Hf)
      as (r1 & t1 & H1 & _ & Hs1).
    destruct (sync_activity_merged formatDate user tracker date fdate y t1 Ht Hd Hf)
      as (r2 & t2 & H2 & _ & Hs2).
    rewrite (sync_two_items _ _ _ _ _ _ _ _ _ H1 H2). cbn [snd].
    rewrite Hs2, Hs1.
    now destruct (MindTools.stored_count (MindTools.email user) tracker fdate t). }
  rewrite (Hpair c1 c2), (Hpair c2 c1). unfold final.
  destruct (MindTools.stored_count (MindTools.email user) tracker fdate t);
    split; f_equal; lia.
Qed.

Lemma sync_order_irrelevant_witness :
  MindTools.stored_count "carol@x.org" "break_things" "2025-01-01"
    (snd (MindTools.sync MindTools.isoDateOnly carol
            (Some [item "break_things" "2025-01-01" (Some 7);
                   item "break_things" "2025-01-01" (Some 5)]) carol_at_3)) = Some 7.
Proof.
  exact (proj1 (sync_order_irrelevant MindTools.isoDateOnly carol
                  "break_things" "2025-01-01" "2025-01-01" (Some 7) (Some 5)
                  carol_at_3 ltac:(discriminate) ltac:(discriminate) eq_refl)).
Defined.

Lemma sync_activity_throws (formatDate : string -> option string)
    (user : MindTools.User) (a : MindTools.Activity) (t : MindTools.Table) :
  MindTools.sync_activity formatDate user a t = None <-> formats formatDate a = false.
Proof.
  unfold MindTools.sync_activity, formats.
  destruct (JS.falsy (MindTools.tracker_type a) || JS.falsy (MindTools.activity_date a))%bool
    eqn:Hm; cbn [orb].
  - split; discriminate.
  - destruct (MindTools.tracker_type a) as [tr|]; [|discriminate Hm].
    destruct (MindTools.activity_date a) as [d|];
      [|cbn in Hm; rewrite orb_true_r in Hm; discriminate Hm].
    destruct (formatDate d) as [fd|]; [|now split].
    destruct (MindTools.select _ _ _ _) as [|ex rest];
      [split; discriminate|].
    destruct (_ <? _); split; discriminate.
Qed.

Lemma process_throws (formatDate : string -> option string) (user : MindTools.User)
    (activities : list MindTools.Activity) (results : list MindTools.Result)
    (t : MindTools.Table) :
  fst (MindTools.process formatDate user activities results t) = None <->
  forallb (formats formatDate) activities = false.
Proof.
  revert results t. induction activities as [|a rest IH]; intros results t.
  - cbn. split; discriminate.
  - cbn [MindTools.process forallb].
    destruct (MindTools.sync_activity formatDate user a t) as [[r t']|] eqn:E.
    + assert (Hf : formats formatDate a = true).
      { destruct (formats formatDate a) eqn:F; [reflexivity|].
        apply sync_activity_throws with (user := user) (t := t) in F. congruence. }
      rewrite Hf. cbn [andb]. apply IH.
    + apply sync_activity_throws in E. rewrite E. cbn. now split.
Qed.

(** A non-empty batch is answered 200 with exactly one result per item
    when every item either lacks a field or has a date that formats; as soon
    as one present date does not format, the whole request is answered 500
    and carries no results. *)
Theorem sync_answers_all_or_none (formatDate : string -> option string)
    (user : MindTools.User) (a : MindTools.Activity) (rest : list MindTools.Activity)
    (t : MindTools.Table) :
  if forallb (formats formatDate) (a :: rest)
  then exists msg results,
         fst (MindTools.sync formatDate user (Some (a :: rest)) t) =
           MindTools.SyncOk msg results
         /\ List.length results = List.length (a :: rest)
  else fst (MindTools.sync formatDate user (Some (a :: rest)) t) =
       MindTools.SyncError 500 "Error syncing activities".
Proof.
  pose proof (process_throws formatDate user (a :: rest) [] t) as Hthrow.
  pose proof (fun out => process_length formatDate user (a :: rest) [] out t) as Hlen.
  unfold MindTools.sync.
  destruct (MindTools.process formatDate user (a :: rest) [] t) as [[results|] t'].
  - destruct (forallb (formats formatDate) (a :: rest)).
    + do 2 eexists. split; [reflexivity|]. now apply (Hlen results).
    + destruct Hthrow as [_ H]. discriminate (H eq_refl).
  - rewrite (proj1 Hthrow eq_refl). reflexivity.
Qed.

Lemma key_matches_inserted (e tr d un e0 tr0 d0 : string) (i n : Z) :
  MindTools.key_matches e tr d
    {| MindTools.id := i; MindTools.row_user_name := un; MindTools.row_email := e0;
       MindTools.row_tracker_type := tr0; MindTools.row_activity_date := d0;
       MindTools.row_count := n |} = true ->
  e = e0 /\ tr = tr0 /\ d = d0.
Proof.
  unfold MindTools.key_matches. cbn. intros H.
  repeat (apply andb_true_iff in H; destruct H as [H ?]).
  repeat match goal with
         | H : String.eqb _ _ = true |- _ => apply String.eqb_eq in H
         end.
  now subst.
Qed.

Lemma counters_ok_insert (un e tr d : string) (n : Z) (t : MindTools.Table) :
  counters_ok t -> MindTools.select e tr d t = [] ->
  counters_ok (MindTools.insert un e tr d n t).
Proof.
  intros [Hwf Hk] Hnone. split; [now apply well_formed_insert|].
  intros e' tr' d'. rewrite select_insert, length_app. cbn [filter].
  destruct (MindTools.key_matches e' tr' d' _) eqn:E.
  - apply key_matches_inserted in E as (-> & -> & ->). rewrite Hnone. cbn. lia.
  - specialize (Hk e' tr' d'). cbn. lia.
Qed.

Lemma counters_ok_update (i n : Z) (t : MindTools.Table) :
  counters_ok t -> counters_ok (MindTools.update_count i n t).
Proof.
  intros [Hwf Hk]. split; [now apply well_formed_update|].
  intros e tr d. rewrite select_update_count, length_map. apply Hk.
Qed.

Lemma counters_ok_process (formatDate : string -> option string) (user : MindTools.User)
    (activities : list MindTools.Activity) (results : list MindTools.Result)
    (t : MindTools.Table) :
  counters_ok t ->
  counters_ok (snd (MindTools.process formatDate user activities results t)).
Proof.
  revert results t. induction activities as [|a rest IH]; intros results t Hok.
  - exact Hok.
  - cbn [MindTools.process].
    destruct (MindTools.sync_activity formatDate user a t) as [[r t']|] eqn:E;
      [|exact Hok].
    apply IH.
    destruct (sync_activity_cases _ _ _ _ _ _ E)
      as [-> | [(tr & d & Hnone & ->) | (tr & d & ex & rest' & _ & _ & ->)]].
    + exact Hok.
    + now apply counters_ok_insert.
    + now apply counters_ok_update.
Qed.

(** Requests handled one after the other keep the counter table sound:
    after a sync batch, also an aborted one, and after an increment, ids are
    still unique and below the counter and no (email, tracker, date) is held
    by two rows. *)
Theorem counters_stay_sound (formatDate : string -> option string) (today : string)
    (user : MindTools.User) (t : MindTools.Table) :
  counters_ok t ->
  (forall activities,
     counters_ok (snd (MindTools.sync formatDate user activities t)))
  /\ (forall tracker date,
        counters_ok (snd (MindTools.record_activity formatDate today user tracker date t))).
Proof.
  intros Hok. split.
  - intros activities. unfold MindTools.sync.
    destruct activities as [[|a rest]|]; try exact Hok.
    pose proof (counters_ok_process formatDate user (a :: rest) [] t Hok) as H.
    destruct (MindTools.process formatDate user (a :: rest) [] t) as [[results|] t'];
      exact H.
  - intros tracker date.
    destruct (record_activity_cases formatDate today user tracker date t)
      as [(st & msg & ->) | (tr & fd & _ & _ & _ & ->)]; [exact Hok|].
    destruct (MindTools.select (MindTools.email user) tr fd t) as [|ex rest] eqn:E;
      cbn [snd].
    + now apply counters_ok_insert.
    + now apply counters_ok_update.
Qed.

Lemma carol_at_3_sound : counters_ok carol_at_3.
Proof.
  split; [apply carol_at_3_well_formed|].
  intros e tr d. unfold MindTools.select. cbn.
  destruct (MindTools.key_matches e tr d _); cbn; lia.
Qed.

Lemma counters_stay_sound_witness :
  counters_ok
    (snd (MindTools.sync MindTools.isoDateOnly carol
            (Some [item "break_things" "2025-01-01" (Some 5);
                   item "make_me_smile" "2025-01-01" None]) carol_at_3)).
Proof.
  exact (proj1 (counters_stay_sound MindTools.isoDateOnly "2025-01-02" carol
                  carol_at_3 carol_at_3_sound) _).
Defined.

(** ** The identity gate: what it lets through *)

Lemma occurs_colon_append (a b : string) :
  JS.occurs ":" (a ++ b) = (JS.occurs ":" a || JS.occurs ":" b)%bool.
Proof.
  induction a as [|c a IH].
  - reflexivity.
  - change (String c a ++ b) with (String c (a ++ b)).
    cbn [JS.occurs]. rewrite IH, (prefix_colon_head c (a ++ b) a).
    now rewrite orb_assoc.
Qed.

Lemma split_go_colon_free (s cur x : string) :
  JS.occurs ":" cur = false ->
  In x (JS.split_go ":" s 0 cur) -> JS.occurs ":" x = false.
Proof.
  revert cur. induction s as [|c s IH]; intros cur Hcur Hin.
  - destruct Hin as [<-|[]]. exact Hcur.
  - cbn [JS.split_go] in Hin.
    destruct (String.prefix ":" (String c s)) eqn:Hp.
    + destruct Hin as [<-|Hin]; [exact Hcur|].
      now apply (IH "").
    + apply (IH (cur ++ String c "")); [|exact Hin].
      rewrite occurs_colon_append, Hcur. cbn [JS.occurs orb].
      rewrite (prefix_colon_head c "" s), Hp. reflexivity.
Qed.

(** Whatever identity the gate passes on came with a header that starts
    with the scheme, and its name and email are both non-empty and free of
    colons. *)
Theorem gate_identity_well_formed (authHeader : option string) (user : Gate.Identity) :
  Gate.authenticateUserByToken authHeader = Gate.Next user ->
  (exists h, authHeader = Some h /\ JS.startsWith h "Bearer " = true)
  /\ Gate.user_name user <> "" /\ Gate.email user <> ""
  /\ JS.occurs ":" (Gate.user_name user) = false
  /\ JS.occurs ":" (Gate.email user) = false.
Proof.
  unfold Gate.authenticateUserByToken.
  destruct authHeader as [h|]; [|discriminate].
  destruct (String.eqb h "" || negb (JS.startsWith h "Bearer "))%bool eqn:Hh;
    [discriminate|].
  apply orb_false_iff in Hh as [_ Hb]. apply negb_false_iff in Hb.
  destruct (nth_error (JS.split h "Bearer ") 1) as [token|]; [|discriminate].
  cbv zeta.
  destruct (JS.falsy (nth_error (JS.split token ":") 0)
            || JS.falsy (nth_error (JS.split token ":") 1))%bool eqn:Hf;
    [discriminate|].
  apply orb_false_iff in Hf as [Hf0 Hf1].
  destruct (nth_error (JS.split token ":") 0) as [n|] eqn:E0; [|discriminate].
  destruct (nth_error (JS.split token ":") 1) as [e|] eqn:E1; [|discriminate].
  intros [= <-]. cbn [Gate.user_name Gate.email].
  split; [now exists h|].
  split; [now apply String.eqb_neq|].
  split; [now apply String.eqb_neq|].
  split.
  - apply (split_go_colon_free token ""); [reflexivity|].
    apply (nth_error_In _ _ E0).
  - apply (split_go_colon_free token ""); [reflexivity|].
    apply (nth_error_In _ _ E1).
Qed.

Lemma gate_identity_well_formed_witness :
  JS.occurs ":" "a@x.org" = false.
Proof.
  exact (proj2 (proj2 (proj2 (proj2
           (gate_identity_well_formed (Some "Bearer alice:a@x.org:extra")
              {| Gate.user_name := "alice"; Gate.email := "a@x.org" |} eq_refl))))).
Defined.

(** ** Accounts *)

Lemma by_email_mark_sent (e : string) (i : Z) (t : Auth.Table) :
  Auth.by_email e (Auth.mark_sent i t) =
  map (fun u => if Auth.id u =? i
                then {| Auth.id := Auth.id u; Auth.name := Auth.name u;
                        Auth.email := Auth.email u;
                        Auth.password_hash := Auth.password_hash u;
                        Auth.welcome_email_sent := 1 |}
                else u) (Auth.by_email e t).
Proof.
  unfold Auth.by_email, Auth.mark_sent. cbn [Auth.rows].
  apply filter_map_stable. intros u. now destruct (Auth.id u =? i).
Qed.

Lemma users_ok_mark_sent (i : Z) (t : Auth.Table) :
  Auth.table_ok t -> Auth.table_ok (Auth.mark_sent i t).
Proof.
  intros (Hnd & Hlt & He). split; [|split].
  - unfold Auth.mark_sent. cbn [Auth.rows]. rewrite map_map.
    erewrite map_ext; [exact Hnd|]. intros u. now destruct (Auth.id u =? i).
  - unfold Auth.mark_sent. cbn [Auth.rows Auth.auto_increment].
    apply Forall_map. eapply Forall_impl; [|exact Hlt].
    intros u Hu. now destruct (Auth.id u =? i).
  - intros e. rewrite by_email_mark_sent, length_map. apply He.
Qed.

Lemma users_ok_insert (username e : string) (h : option string) (t : Auth.Table) :
  Auth.table_ok t -> Auth.by_email e t = [] ->
  Auth.table_ok
    {| Auth.rows := Auth.rows t ++
         [ {| Auth.id := Auth.auto_increment t; Auth.name := username;
              Auth.email := e; Auth.password_hash := h;
              Auth.welcome_email_sent := 0 |} ];
       Auth.auto_increment := Auth.auto_increment t + 1 |}.
Proof.
  intros (Hnd & Hlt & He) Hnone. split; [|split]; cbn [Auth.rows Auth.auto_increment].
  - rewrite map_app. cbn [map Auth.id].
    apply NoDup_app; [assumption | repeat constructor; intros [] |].
    intros i Hi [<-|[]].
    apply in_map_iff in Hi as (r & Hr & Hin).
    rewrite Forall_forall in Hlt. specialize (Hlt r Hin). lia.
  - apply Forall_app. split.
    + eapply Forall_impl; [|exact Hlt]. cbn. intros; lia.
    + repeat constructor. cbn. lia.
  - intros e'. unfold Auth.by_email in *. cbn [Auth.rows].
    rewrite filter_app, length_app. cbn [filter Auth.email].
    destruct (String.eqb e e') eqn:E.
    + apply String.eqb_eq in E. subst e'. rewrite Hnone. cbn. lia.
    + specialize (He e'). cbn. lia.
Qed.

(** Requests handled one after the other keep the user table sound:
    after a registration, a login or a welcome-email request, ids are still
    unique and below the counter and no email is held by two rows. *)
Theorem accounts_stay_sound (bcrypt_hash : string -> string)
    (bcrypt_compare : string -> string -> bool) (jwt_sign : Z -> string -> string)
    (emailOk : bool) (t : Auth.Table) :
  Auth.table_ok t ->
  (forall body,
     Auth.table_ok (Auth.users (Auth.register bcrypt_hash jwt_sign emailOk body t)))
  /\ (forall body,
        Auth.table_ok (Auth.users (Auth.login bcrypt_compare jwt_sign emailOk body t)))
  /\ (forall body,
        Auth.table_ok (Auth.users (Auth.send_welcome_email emailOk body t))).
Proof.
  intros Hok. split; [|split]; intros body.
  - unfold Auth.register.
    destruct (_ || _)%bool; [exact Hok|].
    destruct (Auth.r_username body) as [username|]; [|exact Hok].
    destruct (Auth.r_email body) as [e|]; [|exact Hok].
    destruct (Auth.r_password body) as [p|]; [|exact Hok].
    destruct (Auth.by_email e t) eqn:E; [|exact Hok].
    cbv zeta. cbn [Auth.users].
    pose proof (users_ok_insert username e (Some (bcrypt_hash p)) t Hok E) as Hi.
    destruct emailOk; [now apply users_ok_mark_sent | exact Hi].
  - unfold Auth.login. cbv zeta.
    destruct (match Auth.l_email body with Some e => Auth.by_email e t | None => [] end)
      as [|u rest]; [exact Hok|].
    destruct (Auth.l_password body); [|exact Hok].
    destruct (Auth.password_hash u); [|exact Hok].
    destruct (negb _); [exact Hok|].
    destruct (Auth.welcome_email_sent u =? 0); [|exact Hok].
    cbn [Auth.users]. destruct emailOk; [now apply users_ok_mark_sent | exact Hok].
  - unfold Auth.send_welcome_email.
    destruct (_ || _)%bool; [exact Hok|]. cbv zeta.
    destruct emailOk; [|exact Hok]. cbn [Auth.users].
    destruct (JS.falsyZ (Auth.w_userId body)); [exact Hok|].
    now apply users_ok_mark_sent.
Qed.

Lemma no_users_ok : Auth.table_ok Auth.no_users.
Proof. split; [constructor | split; [constructor | intros; cbn; lia]]. Qed.

Lemma accounts_stay_sound_witness :
  Auth.table_ok
    (Auth.users
       (Auth.register (fun p => "#" ++ p) (fun _ _ => "t") true
          {| Auth.r_username := Some "dora"; Auth.r_email := Some "dora@x.org";
             Auth.r_password := Some "pw" |} Auth.no_users)).
Proof.
  exact (proj1 (accounts_stay_sound (fun p => "#" ++ p)
                  (fun p h => String.eqb h ("#" ++ p)) (fun _ _ => "t") true
                  Auth.no_users no_users_ok) _).
Defined.

Lemma by_id_fresh (row : Auth.UserRow) (t : Auth.Table) :
  Forall (fun u => Auth.id u < Auth.auto_increment t) (Auth.rows t) ->
  Auth.id row = Auth.auto_increment t ->
  filter (fun u => Auth.id u =? Auth.auto_increment t) (Auth.rows t ++ [row]) = [row].
Proof.
  intros Hlt Hid. rewrite filter_app.
  replace (filter _ (Auth.rows t)) with (@nil Auth.UserRow).
  - cbn. now rewrite Hid, Z.eqb_refl.
  - symmetry.
    apply (filter_none (fun u => Auth.id u =? Auth.auto_increment t) (Auth.rows t)).
    intros u Hu. rewrite Forall_forall in Hlt. specialize (Hlt u Hu).
    apply Z.eqb_neq. lia.
Qed.

Lemma register_fresh (bcrypt_hash : string -> string) (jwt_sign : Z -> string -> string)
    (emailOk : bool) (username e password : string) (t : Auth.Table) :
  username <> "" -> e <> "" -> password <> "" ->
  Auth.table_ok t -> Auth.by_email e t = [] ->
  let row flag := {| Auth.id := Auth.auto_increment t; Auth.name := username;
                     Auth.email := e;
                     Auth.password_hash := Some (bcrypt_hash password);
                     Auth.welcome_email_sent := flag |} in
  Auth.register bcrypt_hash jwt_sign emailOk
    {| Auth.r_username := Some username; Auth.r_email := Some e;
       Auth.r_password := Some password |} t =
  {| Auth.response :=
       {| Auth.status := 201; Auth.message := "Registration successful";
          Auth.user := Some (Auth.view (row 0));
          Auth.token := Some (jwt_sign (Auth.auto_increment t) e) |};
     Auth.users :=
       {| Auth.rows := Auth.rows t ++ [row (if emailOk then 1 else 0)];
          Auth.auto_increment := Auth.auto_increment t + 1 |};
     Auth.mails := [(e, username)] |}.
Proof.
  intros Hu He Hp (Hnd & Hlt & _) Hnone row. subst row. cbv beta.
  unfold Auth.register.
  cbn [Auth.r_username Auth.r_email Auth.r_password].
  rewrite !falsy_some by assumption. cbn [orb]. rewrite Hnone. cbv zeta.
  unfold Auth.by_id. cbn [Auth.rows].
  erewrite by_id_fresh; [|exact Hlt|reflexivity]. cbn [hd_error option_map].
  f_equal. destruct emailOk; [|reflexivity].
  unfold Auth.mark_sent. cbn [Auth.rows Auth.auto_increment]. f_equal.
  rewrite map_app. cbn [map Auth.id]. rewrite Z.eqb_refl. f_equal.
  rewrite <- (map_id (Auth.rows t)) at 2. apply map_ext_in.
  intros u Hin. rewrite Forall_forall in Hlt. specialize (Hlt u Hin).
  now rewrite (proj2 (Z.eqb_neq (Auth.id u) (Auth.auto_increment t)) ltac:(lia)).
Qed.

(** Who has registered can log in: with a hash the comparison accepts, a
    login with the registered email and password is answered 200 with the
    user of the registration and a token signed for that user's id and email;
    it sends the welcome email again exactly when the registration failed to
    send it. *)
Theorem register_then_login (bcrypt_hash : string -> string)
    (bcrypt_compare : string -> string -> bool) (jwt_sign : Z -> string -> string)
    (sentAtRegistration sentAtLogin : bool) (username e password : string)
    (t : Auth.Table) :
  username <> "" -> e <> "" -> password <> "" ->
  Auth.table_ok t -> Auth.by_email e t = [] ->
  bcrypt_compare password (bcrypt_hash password) = true ->
  let registered :=
    Auth.register bcrypt_hash jwt_sign sentAtRegistration
      {| Auth.r_username := Some username; Auth.r_email := Some e;
         Auth.r_password := Some password |} t in
  let logged :=
    Auth.login bcrypt_compare jwt_sign sentAtLogin
      {| Auth.l_email := Some e; Auth.l_password := Some password |}
      (Auth.users registered) in
  Auth.status (Auth.response registered) = 201
  /\ Auth.status (Auth.response logged) = 200
  /\ Auth.user (Auth.response logged) = Auth.user (Auth.response registered)
  /\ Auth.user (Auth.response logged) =
     Some {| Auth.view_id := Auth.auto_increment t; Auth.view_name := username;
             Auth.view_email := e |}
  /\ Auth.token (Auth.response logged) = Some (jwt_sign (Auth.auto_increment t) e)
  /\ Auth.mails logged = if sentAtRegistration then [] else [(e, username)].
Proof.
  intros Hu He Hp Hok Hnone Hcmp registered logged.
  unfold logged, registered.
  rewrite (register_fresh bcrypt_hash jwt_sign sentAtRegistration username e password t
             Hu He Hp Hok Hnone).
  cbv zeta. cbn [Auth.users Auth.response Auth.status Auth.user Auth.token].
  unfold Auth.login. cbn [Auth.l_email Auth.l_password].
  unfold Auth.by_email in *. cbn [Auth.rows].
  rewrite filter_app, Hnone. cbn [filter app Auth.email].
  rewrite String.eqb_refl. cbn [Auth.password_hash]. rewrite Hcmp.
  cbn [negb Auth.welcome_email_sent Auth.id Auth.name Calendar.or_else].
  destruct sentAtRegistration; cbn; now repeat split.
Qed.

Lemma register_then_login_witness :
  Auth.status
    (Auth.response
       (Auth.login (fun p h => String.eqb h ("#" ++ p)) (fun _ _ => "t") true
          {| Auth.l_email := Some "dora@x.org"; Auth.l_password := Some "pw" |}
          (Auth.users
             (Auth.register (fun p => "#" ++ p) (fun _ _ => "t") true
                {| Auth.r_username := Some "dora"; Auth.r_email := Some "dora@x.org";
                   Auth.r_password := Some "pw" |} Auth.no_users)))) = 200.
Proof.
  refine (proj1 (proj2 (register_then_login (fun p => "#" ++ p)
            (fun p h => String.eqb h ("#" ++ p)) (fun _ _ => "t") true true
            "dora" "dora@x.org" "pw" Auth.no_users _ _ _ no_users_ok _ _)));
    try discriminate; reflexivity.
Defined.

(** A login that is not answered 200 writes nothing and sends nothing, and
    an unknown email gets the very answer a wrong password gets. *)
Theorem login_failure_opaque (bcrypt_compare : string -> string -> bool)
    (jwt_sign : Z -> string -> string) (emailOk : bool) (body : Auth.LoginBody)
    (t : Auth.Table) :
  let o := Auth.login bcrypt_compare jwt_sign emailOk body t in
  (Auth.status (Auth.response o) <> 200 ->
   Auth.users o = t /\ Auth.mails o = []
   /\ Auth.user (Auth.response o) = None /\ Auth.token (Auth.response o) = None)
  /\ (forall e, Auth.l_email body = Some e -> Auth.by_email e t = [] ->
        Auth.response o = Auth.answer 401 "Invalid email or password")
  /\ (forall e u rest p h,
        Auth.l_email body = Some e -> Auth.by_email e t = u :: rest ->
        Auth.l_password body = Some p -> Auth.password_hash u = Some h ->
        bcrypt_compare p h = false ->
        Auth.response o = Auth.answer 401 "Invalid email or password").
Proof.
  cbv zeta. split; [|split].
  - unfold Auth.login. cbv zeta.
    destruct (match Auth.l_email body with Some e => Auth.by_email e t | None => [] end)
      as [|u rest]; [now repeat split|].
    destruct (Auth.l_password body); [|now repeat split].
    destruct (Auth.password_hash u); [|now repeat split].
    destruct (negb _); [now repeat split|].
    destruct (Auth.welcome_email_sent u =? 0); cbn; intros H; now elim H.
  - intros e He Hnone. unfold Auth.login. now rewrite He, Hnone.
  - intros e u rest p h He Hu Hp Hh Hc. unfold Auth.login.
    now rewrite He, Hu, Hp, Hh, Hc.
Qed.

Lemma login_failure_opaque_witness :
  Auth.response
    (Auth.login (fun p h => String.eqb h ("#" ++ p)) (fun _ _ => "t") true
       {| Auth.l_email := Some "dora@x.org"; Auth.l_password := Some "pw" |}
       Auth.no_users) =
  Auth.answer 401 "Invalid email or password".
Proof.
  exact (proj1 (proj2 (login_failure_opaque (fun p h => String.eqb h ("#" ++ p))
                         (fun _ _ => "t") true
                         {| Auth.l_email := Some "dora@x.org";
                            Auth.l_password := Some "pw" |} Auth.no_users))
           "dora@x.org" eq_refl eq_refl).
Defined.

(** The welcome email never decides an answer: registration and login
    answer the same whether sending it works or not, and when it fails they
    leave every welcome flag as it was, so that the next login tries
    again. *)
Theorem welcome_email_never_blocks (bcrypt_hash : string -> string)
    (bcrypt_compare : string -> string -> bool) (jwt_sign : Z -> string -> string)
    (t : Auth.Table) :
  (forall body,
     Auth.response (Auth.register bcrypt_hash jwt_sign true body t) =
     Auth.response (Auth.register bcrypt_hash jwt_sign false body t)
     /\ Auth.mails (Auth.register bcrypt_hash jwt_sign true body t) =
        Auth.mails (Auth.register bcrypt_hash jwt_sign false body t))
  /\ (forall body,
        Auth.response (Auth.login bcrypt_compare jwt_sign true body t) =
        Auth.response (Auth.login bcrypt_compare jwt_sign false body t)
        /\ Auth.mails (Auth.login bcrypt_compare jwt_sign true body t) =
           Auth.mails (Auth.login bcrypt_compare jwt_sign false body t)
        /\ Auth.users (Auth.login bcrypt_compare jwt_sign false body t) = t).
Proof.
  split; intros body.
  - unfold Auth.register.
    destruct (_ || _)%bool; [now split|].
    destruct (Auth.r_username body); [|now split].
    destruct (Auth.r_email body) as [e|]; [|now split].
    destruct (Auth.r_password body); [|now split].
    destruct (Auth.by_email e t); now split.
  - unfold Auth.login. cbv zeta.
    destruct (match Auth.l_email body with Some e => Auth.by_email e t | None => [] end)
      as [|u rest]; [now repeat split|].
    destruct (Auth.l_password body); [|now repeat split].
    destruct (Auth.password_hash u); [|now repeat split].
    destruct (negb _); [now repeat split|].
    destruct (Auth.welcome_email_sent u =? 0); now repeat split.
Qed.

Lemma login_accepted (bcrypt_compare : string -> string -> bool)
    (jwt_sign : Z -> string -> string) (emailOk : bool) (body : Auth.LoginBody)
    (t : Auth.Table) :
  Auth.status (Auth.response (Auth.login bcrypt_compare jwt_sign emailOk body t)) = 200 ->
  exists e u rest p h,
    Auth.l_email body = Some e /\ Auth.by_email e t = u :: rest
    /\ Auth.l_password body = Some p /\ Auth.password_hash u = Some h
    /\ bcrypt_compare p h = true
    /\ Auth.login bcrypt_compare jwt_sign emailOk body t =
       {| Auth.response :=
            {| Auth.status := 200; Auth.message := "Login successful";
               Auth.user := Some (Auth.view u);
               Auth.token := Some (jwt_sign (Auth.id u) e) |};
          Auth.users := if Auth.welcome_email_sent u =? 0
                        then (if emailOk then Auth.mark_sent (Auth.id u) t else t)
                        else t;
          Auth.mails := if Auth.welcome_email_sent u =? 0
                        then [(Auth.email u, Auth.name u)] else [] |}.
Proof.
  unfold Auth.login. cbv zeta.
  destruct (Auth.l_email body) as [e|]; [|discriminate].
  destruct (Auth.by_email e t) as [|u rest] eqn:E; [discriminate|].
  destruct (Auth.l_password body) as [p|]; [|discriminate].
  destruct (Auth.password_hash u) as [h|] eqn:Hh; [|discriminate].
  destruct (bcrypt_compare p h) eqn:Hc; [|discriminate].
  cbn [negb Calendar.or_else]. intros _.
  exists e, u, rest, p, h. repeat split; trivial.
  now destruct (Auth.welcome_email_sent u =? 0).
Qed.

(** The welcome email goes out once: a login that follows a login whose
    welcome email was delivered sends none, changes nothing, and is answered
    200 with the same user. *)
Theorem login_welcome_once (bcrypt_compare : string -> string -> bool)
    (jwt_sign : Z -> string -> string) (emailOk : bool) (body : Auth.LoginBody)
    (t : Auth.Table) :
  let first := Auth.login bcrypt_compare jwt_sign true body t in
  let second := Auth.login bcrypt_compare jwt_sign emailOk body (Auth.users first) in
  Auth.status (Auth.response first) = 200 ->
  Auth.mails second = []
  /\ Auth.status (Auth.response second) = 200
  /\ Auth.user (Auth.response second) = Auth.user (Auth.response first)
  /\ Auth.users second = Auth.users first.
Proof.
  intros first second Hst. unfold second, first in *. clear first second.
  destruct (login_accepted _ _ _ _ _ Hst)
    as (e & u & rest & p & h & He & Hu & Hp & Hh & Hc & ->).
  cbn [Auth.users Auth.response]. unfold Auth.login. cbv zeta. rewrite He, Hp.
  destruct (Auth.welcome_email_sent u =? 0) eqn:Hz.
  - rewrite by_email_mark_sent, Hu. cbn [map].
    rewrite Z.eqb_refl. cbn [Auth.password_hash]. rewrite Hh, Hc.
    cbn [negb Auth.welcome_email_sent Z.eqb Calendar.or_else]. now repeat split.
  - rewrite Hu, Hh, Hc. cbn [negb Calendar.or_else]. rewrite Hz. now repeat split.
Qed.

Lemma login_welcome_once_witness :
  Auth.mails
    (Auth.login (fun p h => String.eqb h ("#" ++ p)) (fun _ _ => "t") true
       {| Auth.l_email := Some "dora@x.org"; Auth.l_password := Some "pw" |}
       (Auth.users
          (Auth.login (fun p h => String.eqb h ("#" ++ p)) (fun _ _ => "t") true
             {| Auth.l_email := Some "dora@x.org"; Auth.l_password := Some "pw" |}
             {| Auth.rows :=
                  [ {| Auth.id := 1; Auth.name := "dora"; Auth.email := "dora@x.org";
                       Auth.password_hash := Some "#pw";
                       Auth.welcome_email_sent := 0 |} ];
                Auth.auto_increment := 2 |}))) = [].
Proof.
  apply (login_welcome_once (fun p h => String.eqb h ("#" ++ p)) (fun _ _ => "t") true
           {| Auth.l_email := Some "dora@x.org"; Auth.l_password := Some "pw" |}).
  reflexivity.
Defined.

Lemma bearer_token_of (token : string) :
  JS.occurs " " token = false ->
  Auth.bearer_token ("Bearer " ++ token) = Some token.
Proof.
  intros H. unfold Auth.bearer_token, JS.split.
  change (JS.split_go " " ("Bearer " ++ token) 0 "")
    with (if String.prefix "" token
          then "Bearer" :: JS.split_go " " token 0 ""
          else JS.split_go " " token 0 "Bearer ").
  replace (String.prefix "" token) with true by now destruct token.
  now rewrite split_go_no_occurrence.
Qed.

Lemma bearer_header_ok (token : string) :
  (String.eqb ("Bearer " ++ token) ""
   || negb (JS.startsWith ("Bearer " ++ token) "Bearer "))%bool = false.
Proof. unfold JS.startsWith. now rewrite prefix_append. Qed.

(** A token whose verification fails is answered 401 by the resource
    handlers whatever the failure, but by the profile handler only when the
    error is named [JsonWebTokenError]: an expired token gets 500 there. *)
Theorem failed_token_answers (jwt_verify : string -> Auth.Verified)
    (token errorName : string) (t : Auth.Table) :
  JS.occurs " " token = false ->
  jwt_verify token = Auth.Failed errorName ->
  Auth.resolve_user jwt_verify (Some ("Bearer " ++ token)) t =
    Auth.Denied 401 "Invalid token"
  /\ Auth.profile jwt_verify (Some ("Bearer " ++ token)) t =
     if String.eqb errorName "JsonWebTokenError"
     then Auth.answer 401 "Invalid token"
     else Auth.answer 500 "Server error".
Proof.
  intros Hsp Hv. unfold Auth.resolve_user, Auth.profile.
  rewrite bearer_header_ok, (bearer_token_of _ Hsp), Hv. now split.
Qed.

Lemma failed_token_answers_witness :
  Auth.profile (fun _ => Auth.Failed "TokenExpiredError") (Some "Bearer abc")
    Auth.no_users =
  Auth.answer 500 "Server error".
Proof.
  exact (proj2 (failed_token_answers (fun _ => Auth.Failed "TokenExpiredError")
                  "abc" "TokenExpiredError" Auth.no_users eq_refl eq_refl)).
Defined.

(** The token a registration hands out opens the profile of the user it
    registered, given that verifying a signed token yields the id it was
    signed for and that a token holds no space. *)
Theorem register_then_profile (bcrypt_hash : string -> string)
    (jwt_sign : Z -> string -> string) (jwt_verify : string -> Auth.Verified)
    (emailOk : bool) (username e password : string) (t : Auth.Table) :
  username <> "" -> e <> "" -> password <> "" ->
  Auth.table_ok t -> Auth.by_email e t = [] ->
  jwt_verify (jwt_sign (Auth.auto_increment t) e) =
    Auth.Decoded (Some (Auth.auto_increment t)) ->
  JS.occurs " " (jwt_sign (Auth.auto_increment t) e) = false ->
  let registered :=
    Auth.register bcrypt_hash jwt_sign emailOk
      {| Auth.r_username := Some username; Auth.r_email := Some e;
         Auth.r_password := Some password |} t in
  exists token,
    Auth.token (Auth.response registered) = Some token
    /\ Auth.status (Auth.profile jwt_verify (Some ("Bearer " ++ token))
                      (Auth.users registered)) = 200
    /\ Auth.user (Auth.profile jwt_verify (Some ("Bearer " ++ token))
                    (Auth.users registered)) =
       Some {| Auth.view_id := Auth.auto_increment t; Auth.view_name := username;
               Auth.view_email := e |}
    /\ exists u,
         Auth.resolve_user jwt_verify (Some ("Bearer " ++ token))
           (Auth.users registered) = Auth.Known u
         /\ Auth.view u =
            {| Auth.view_id := Auth.auto_increment t; Auth.view_name := username;
               Auth.view_email := e |}.
Proof.
  intros Hu He Hp Hok Hnone Hv Hsp registered. unfold registered.
  rewrite (register_fresh bcrypt_hash jwt_sign emailOk username e password t
             Hu He Hp Hok Hnone).
  cbv zeta. cbn [Auth.users Auth.response Auth.token].
  exists (jwt_sign (Auth.auto_increment t) e). split; [reflexivity|].
  unfold Auth.profile, Auth.resolve_user.
  rewrite bearer_header_ok, (bearer_token_of _ Hsp), Hv.
  unfold Auth.by_id. cbn [Auth.rows].
  destruct Hok as (_ & Hlt & _).
  erewrite by_id_fresh; [|exact Hlt|reflexivity].
  repeat split. eexists. split; reflexivity.
Qed.

Lemma register_then_profile_witness :
  exists token,
    Auth.token
      (Auth.response
         (Auth.register (fun p => "#" ++ p) (fun _ _ => "t") true
            {| Auth.r_username := Some "dora"; Auth.r_email := Some "dora@x.org";
               Auth.r_password := Some "pw" |} Auth.no_users)) = Some token
    /\ Auth.status
         (Auth.profile (fun _ => Auth.Decoded (Some 1)) (Some ("Bearer " ++ token))
            (Auth.users
               (Auth.register (fun p => "#" ++ p) (fun _ _ => "t") true
                  {| Auth.r_username := Some "dora"; Auth.r_email := Some "dora@x.org";
                     Auth.r_password := Some "pw" |} Auth.no_users))) = 200.
Proof.
  destruct (register_then_profile (fun p => "#" ++ p) (fun _ _ => "t")
              (fun _ => Auth.Decoded (Some 1)) true "dora" "dora@x.org" "pw"
              Auth.no_users ltac:(discriminate) ltac:(discriminate)
              ltac:(discriminate) no_users_ok eq_refl eq_refl eq_refl)
    as (token & Ht & Hs & _).
  exists token. split; assumption.
Defined.

(** ** Weekly planner and annual calendar *)

Lemma planner_post_known (jwt_verify : string -> Auth.Verified)
    (authHeader : option string) (users : Auth.Table) (user : Auth.UserRow)
    (card_id tasks theme : string) (t : Tasks.Table) :
  Auth.resolve_user jwt_verify authHeader users = Auth.Known user ->
  card_id <> "" -> tasks <> "" -> theme <> "" ->
  Planner.post jwt_verify authHeader
    {| Planner.b_card_id := Some card_id; Planner.b_tasks := Some tasks;
       Planner.b_theme := Some theme |} users t =
  match filter (Tasks.key_matches String.eqb (Auth.name user) (Auth.email user) card_id theme)
          (Tasks.rows t) with
  | existing :: _ =>
      (accept 200 "Task updated successfully" (Some (Tasks.id existing)),
       {| Tasks.rows := map (Tasks.update_tasks (Tasks.id existing) tasks) (Tasks.rows t);
          Tasks.auto_increment := Tasks.auto_increment t |})
  | [] =>
      (accept 201 "Task created successfully" (Some (Tasks.auto_increment t)),
       {| Tasks.rows := Tasks.rows t ++
            [ {| Tasks.id := Tasks.auto_increment t;
                 Tasks.user_name := Some (Auth.name user);
                 Tasks.email := Some (Auth.email user); Tasks.card_id := card_id;
                 Tasks.tasks := tasks; Tasks.theme := theme |} ];
          Tasks.auto_increment := Tasks.auto_increment t + 1 |})
  end.
Proof.
  intros Hr Hc Ht Hth. unfold Planner.post. rewrite Hr.
  cbn [Planner.b_card_id Planner.b_tasks Planner.b_theme Calendar.or_else].
  rewrite !falsy_some by assumption. reflexivity.
Qed.

Lemma key_matches_planner_owned (n e c th : string) (r : Tasks.Row) :
  Tasks.key_matches String.eqb n e c th r = true -> Planner.owned n e r = true.
Proof.
  unfold Tasks.key_matches, Planner.owned.
  destruct (Tasks.user_name r), (Tasks.email r); try discriminate.
  intros H. repeat (apply andb_true_iff in H; destruct H as [H ?]).
  now rewrite H, H2.
Qed.

Lemma planner_owned_update (n e : string) (i : Z) (ts : string) (r : Tasks.Row) :
  Planner.owned n e (Tasks.update_tasks i ts r) = Planner.owned n e r.
Proof. unfold Tasks.update_tasks. now destruct (Tasks.id r =? i). Qed.

(** What a token's user posts to the planner comes back from the planner's
    list for the same token, under the id the post answered and with the
    tasks posted, whether the post created the row or updated it. *)
Theorem planner_post_then_get (jwt_verify : string -> Auth.Verified)
    (authHeader : option string) (users : Auth.Table) (user : Auth.UserRow)
    (card_id tasks theme : string) (t : Tasks.Table) :
  Auth.resolve_user jwt_verify authHeader users = Auth.Known user ->
  card_id <> "" -> tasks <> "" -> theme <> "" ->
  let posted :=
    Planner.post jwt_verify authHeader
      {| Planner.b_card_id := Some card_id; Planner.b_tasks := Some tasks;
         Planner.b_theme := Some theme |} users t in
  success (fst posted) = true
  /\ exists rows row,
       Planner.get jwt_verify authHeader users (snd posted) = Planner.Listed rows
       /\ In row rows
       /\ id (fst posted) = Some (Tasks.id row)
       /\ Tasks.card_id row = card_id
       /\ Tasks.theme row = theme
       /\ Tasks.tasks row = tasks.
Proof.
  intros Hr Hc Ht Hth posted. unfold posted.
  rewrite (planner_post_known _ _ _ _ _ _ _ _ Hr Hc Ht Hth).
  unfold Planner.get. rewrite Hr.
  destruct (filter _ (Tasks.rows t)) as [|existing rest] eqn:E; cbn [fst snd].
  - split; [reflexivity|]. eexists.
    exists {| Tasks.id := Tasks.auto_increment t;
              Tasks.user_name := Some (Auth.name user);
              Tasks.email := Some (Auth.email user); Tasks.card_id := card_id;
              Tasks.tasks := tasks; Tasks.theme := theme |}.
    split; [reflexivity|]. split; [|repeat split; reflexivity].
    apply filter_In. split; [cbn; apply in_or_app; right; now left|].
    unfold Planner.owned. cbn. now rewrite !String.eqb_refl.
  - assert (Hin : In existing (filter (Tasks.key_matches String.eqb (Auth.name user)
                    (Auth.email user) card_id theme) (Tasks.rows t)))
      by (rewrite E; now left).
    apply filter_In in Hin as [Hin Hk].
    pose proof (key_matches_planner_owned _ _ _ _ _ Hk) as Ho.
    assert (Hfields : Tasks.card_id existing = card_id /\ Tasks.theme existing = theme).
    { unfold Tasks.key_matches in Hk.
      destruct (Tasks.user_name existing), (Tasks.email existing); try discriminate.
      repeat (apply andb_true_iff in Hk; destruct Hk as [Hk ?]).
      split; now apply String.eqb_eq. }
    destruct Hfields as [Hcard Htheme].
    split; [reflexivity|]. eexists.
    exists (Tasks.update_tasks (Tasks.id existing) tasks existing).
    split; [reflexivity|].
    split; [|split; [|split; [|split]]].
    + apply filter_In. cbn [Tasks.rows]. split; [now apply in_map|].
      now rewrite planner_owned_update.
    + now rewrite id_update_tasks.
    + now rewrite card_update_tasks.
    + unfold Tasks.update_tasks. now rewrite Z.eqb_refl.
    + unfold Tasks.update_tasks. now rewrite Z.eqb_refl.
Qed.

(** The generic task save and the weekly planner agree on the natural key:
    a collection created through POST /api/tasks/save in
    [weekly_planner_tasks] is updated, not doubled, by a planner post of a
    token user of the same name and email, under the same id, and exactly one
    row holds the key afterwards.  The table is taken as the planner takes
    it: texts compared letter by letter, the tasks text kept as sent. *)
Theorem weekly_post_after_save (jwt_verify : string -> Auth.Verified)
    (authHeader : option string) (users : Auth.Table) (user : Auth.UserRow)
    (card_id tasks tasks' theme : string) (db : Tasks.Tables) :
  Auth.resolve_user jwt_verify authHeader users = Auth.Known user ->
  Auth.name user <> "" -> Auth.email user <> "" ->
  card_id <> "" -> tasks <> "" -> tasks' <> "" -> theme <> "" ->
  filter (Tasks.key_matches String.eqb (Auth.name user) (Auth.email user) card_id theme)
    (Tasks.rows (Tasks.weekly_planner_tasks db)) = [] ->
  let saved :=
    Tasks.save plain {| Gate.user_name := Auth.name user; Gate.email := Auth.email user |}
      {| Tasks.b_user_name := Some (Auth.name user);
         Tasks.b_email := Some (Auth.email user);
         Tasks.b_card_id := Some card_id; Tasks.b_tasks := Some tasks;
         Tasks.b_theme := Some theme;
         Tasks.b_table := Some "weekly_planner_tasks" |} db in
  let posted :=
    Planner.weekly_post jwt_verify authHeader
      {| Planner.b_card_id := Some card_id; Planner.b_tasks := Some tasks';
         Planner.b_theme := Some theme |} users (snd saved) in
  status (fst saved) = 201
  /\ status (fst posted) = 200
  /\ id (fst posted) = id (fst saved)
  /\ List.length
       (filter (Tasks.key_matches String.eqb (Auth.name user) (Auth.email user) card_id theme)
          (Tasks.rows (Tasks.weekly_planner_tasks (snd posted)))) = 1%nat.
Proof.
  intros Hr Hn He Hc Ht Ht' Hth Hnone saved posted. unfold posted, saved.
  pose proof (tasks_save_own plain {| Gate.user_name := Auth.name user;
                                      Gate.email := Auth.email user |}
                card_id tasks theme "weekly_planner_tasks" db Hn He Hc Ht Hth
                (or_intror eq_refl)) as Hs.
  cbn [Gate.user_name Gate.email] in Hs. rewrite Hs. clear Hs.
  unfold Tasks.upsert. cbv zeta.
  change (Tasks.get_table "weekly_planner_tasks" db) with (Tasks.weekly_planner_tasks db).
  cbn [plain Tasks.text_eq Tasks.tasks_column Gate.user_name Gate.email].
  rewrite Hnone. cbn [fst snd status accept id].
  unfold Planner.weekly_post.
  rewrite (planner_post_known _ _ _ _ _ _ _ _ Hr Hc Ht' Hth).
  cbn [Tasks.set_table String.eqb Ascii.eqb Bool.eqb Tasks.weekly_planner_tasks Tasks.rows].
  rewrite (select_appended String.eqb _ _ _ _ _ _ _ String.eqb_refl Hnone).
  cbn [fst snd status accept id Tasks.id Tasks.weekly_planner_tasks Tasks.rows].
  repeat split.
  rewrite (filter_map_stable _ _ _
             (key_matches_update_tasks String.eqb (Auth.name user) (Auth.email user) card_id theme
                (Tasks.auto_increment (Tasks.weekly_planner_tasks db)) tasks')).
  rewrite length_map. now rewrite (select_appended String.eqb _ _ _ _ _ _ _ String.eqb_refl Hnone).
Qed.

Lemma planner_post_then_get_witness :
  success
    (fst (Planner.post (fun _ => Auth.Decoded (Some 1)) (Some "Bearer abc")
            {| Planner.b_card_id := Some "monday"; Planner.b_tasks := Some "[]";
               Planner.b_theme := Some "animal" |} only_dora no_rows)) = true.
Proof.
  refine (proj1 (planner_post_then_get (fun _ => Auth.Decoded (Some 1))
                   (Some "Bearer abc") only_dora dora "monday" "[]" "animal" no_rows
                   _ _ _ _)); try discriminate. reflexivity.
Defined.

Lemma weekly_post_after_save_witness :
  status
    (fst (Planner.weekly_post (fun _ => Auth.Decoded (Some 1)) (Some "Bearer abc")
            {| Planner.b_card_id := Some "monday"; Planner.b_tasks := Some "[1]";
               Planner.b_theme := Some "animal" |} only_dora
            (snd (Tasks.save plain {| Gate.user_name := "dora"; Gate.email := "dora@x.org" |}
                    {| Tasks.b_user_name := Some "dora";
                       Tasks.b_email := Some "dora@x.org";
                       Tasks.b_card_id := Some "monday"; Tasks.b_tasks := Some "[]";
                       Tasks.b_theme := Some "animal";
                       Tasks.b_table := Some "weekly_planner_tasks" |} no_tasks)))) = 200.
Proof.
  refine (proj1 (proj2 (weekly_post_after_save (fun _ => Auth.Decoded (Some 1))
                          (Some "Bearer abc") only_dora dora "monday" "[]" "[1]" "animal"
                          no_tasks _ _ _ _ _ _ _ _)));
    try discriminate; reflexivity.
Defined.

(** ** The connection test *)

Lemma tryConnect_settles (connects : nat -> bool) (attemptsLeft attempt : nat) :
  match Database.tryConnect connects attempt attemptsLeft with
  | Database.Resolved k =>
      (attempt < k <= attempt + attemptsLeft + 1)%nat
      /\ connects (k - 1)%nat = true
      /\ forall j, (attempt <= j < k - 1)%nat -> connects j = false
  | Database.Rejected k =>
      k = (attempt + attemptsLeft + 1)%nat
      /\ forall j, (attempt <= j <= attempt + attemptsLeft)%nat -> connects j = false
  end.
Proof.
  revert attempt. induction attemptsLeft as [|n IH]; intros attempt;
    cbn [Database.tryConnect]; destruct (connects attempt) eqn:E.
  - replace (S attempt - 1)%nat with attempt by lia.
    split; [lia|]. split; [exact E|]. intros j Hj. lia.
  - split; [lia|]. intros j Hj. now replace j with attempt by lia.
  - replace (S attempt - 1)%nat with attempt by lia.
    split; [lia|]. split; [exact E|]. intros j Hj. lia.
  - specialize (IH (S attempt)).
    destruct (Database.tryConnect connects (S attempt) n) as [k|k].
    + destruct IH as (Hk & Hc & Hf). split; [lia|]. split; [exact Hc|].
      intros j Hj. destruct (Nat.eq_dec j attempt) as [->|Hne]; [exact E|].
      apply Hf. lia.
    + destruct IH as (Hk & Hf). split; [lia|].
      intros j Hj. destruct (Nat.eq_dec j attempt) as [->|Hne]; [exact E|].
      apply Hf. lia.
Qed.

(** The connection test asks for a connection up to [retries + 1] times,
    four times with the default of three retries: it resolves at the first
    call that connects, having made no call beyond it, and rejects exactly
    when all [retries + 1] calls fail. *)
Theorem testConnection_attempts (retries : nat) (connects : nat -> bool) :
  match Database.testConnection retries connects with
  | Database.Resolved k =>
      (1 <= k <= retries + 1)%nat
      /\ connects (k - 1)%nat = true
      /\ forall j, (j < k - 1)%nat -> connects j = false
  | Database.Rejected k =>
      k = (retries + 1)%nat
      /\ forall j, (j <= retries)%nat -> connects j = false
  end.
Proof.
  unfold Database.testConnection.
  pose proof (tryConnect_settles connects retries 0) as H.
  destruct (Database.tryConnect connects 0 retries) as [k|k].
  - destruct H as (Hk & Hc & Hf). split; [lia|]. split; [exact Hc|].
    intros j Hj. apply Hf. lia.
  - destruct H as (Hk & Hf). split; [lia|].
    intros j Hj. apply Hf. lia.
Qed.

Example testConnection_fourth_call :
  Database.testConnection 3 (fun k => Nat.eqb k 3) = Database.Resolved 4
  /\ Database.testConnection 3 (fun _ => false) = Database.Rejected 4.
Proof. split; reflexivity. Qed.

(** ** The mail transporter *)

Lemma transporter_cached (env : Email.Env) (tr : Email.Transporter)
    (outsides : list Email.Outside) :
  Email.calls env outsides (Some tr) =
  (map (fun _ => Email.Returned tr) outsides, Some tr).
Proof.
  induction outsides as [|o rest IH]; [reflexivity|].
  cbn [Email.calls Email.initializeTransporter map]. now rewrite IH.
Qed.

(** The transporter is set up once: whatever a call leaves in the module
    variable is what every later call returns, without asking outside
    again.  This holds also for a Gmail transporter whose verification
    failed, when the Ethereal account could not be created either: that call
    throws, and all later calls return the unverified transporter. *)
Theorem transporter_sticks (env : Email.Env) (first : Email.Outside)
    (later : list Email.Outside) :
  (forall tr,
     snd (Email.initializeTransporter env first None) = Some tr ->
     Email.calls env (first :: later) None =
     (fst (Email.initializeTransporter env first None)
        :: map (fun _ => Email.Returned tr) later, Some tr))
  /\ (forall tr,
        fst (Email.initializeTransporter env first None) = Email.Returned tr ->
        snd (Email.initializeTransporter env first None) = Some tr)
  /\ (forall user pass,
        Email.EMAIL_USER env = Some user -> user <> "" ->
        Email.EMAIL_PASS env = Some pass -> pass <> "" ->
        Email.verifies first = false -> Email.testAccount first = None ->
        Email.calls env (first :: later) None =
        (Email.Thrown :: map (fun _ => Email.Returned (Email.Gmail user pass)) later,
         Some (Email.Gmail user pass))).
Proof.
  split; [|split].
  - intros tr H. cbn [Email.calls].
    destruct (Email.initializeTransporter env first None) as [r st]. cbn [fst snd] in *.
    subst st. now rewrite transporter_cached.
  - intros tr. unfold Email.initializeTransporter.
    destruct (negb (JS.falsy (Email.EMAIL_USER env))
              && negb (JS.falsy (Email.EMAIL_PASS env)))%bool.
    + destruct (Email.verifies first); cbn [fst snd]; [now intros [= <-]|].
      destruct (Email.testAccount first) as [[u p]|]; cbn [fst snd];
        [now intros [= <-] | discriminate].
    + destruct (Email.testAccount first) as [[u p]|]; cbn [fst snd];
        [now intros [= <-] | discriminate].
  - intros user pass Hu Hune Hp Hpne Hv Ht. cbn [Email.calls].
    unfold Email.initializeTransporter at 1.
    rewrite Hu, Hp, Hv, Ht, !falsy_some by assumption.
    cbn [negb andb Calendar.or_else]. now rewrite transporter_cached.
Qed.

Lemma transporter_sticks_witness :
  Email.calls {| Email.EMAIL_USER := Some "me@gmail.com"; Email.EMAIL_PASS := Some "app" |}
    [ {| Email.verifies := false; Email.testAccount := None |};
      {| Email.verifies := true; Email.testAccount := Some ("t", "p") |} ] None =
  ([Email.Thrown; Email.Returned (Email.Gmail "me@gmail.com" "app")],
   Some (Email.Gmail "me@gmail.com" "app")).
Proof.
  refine (proj2 (proj2 (transporter_sticks
            {| Email.EMAIL_USER := Some "me@gmail.com"; Email.EMAIL_PASS := Some "app" |}
            {| Email.verifies := false; Email.testAccount := None |}
            [ {| Email.verifies := true; Email.testAccount := Some ("t", "p") |} ]))
            "me@gmail.com" "app" eq_refl _ eq_refl _ eq_refl eq_refl);
    discriminate.
Defined.

(** ** What the single handlers leave alone, and what they do not keep *)

Lemma two_matches {A} (p : A -> bool) (l : list A) (a b : A) :
  In a l -> In b l -> a <> b -> p a = true -> p b = true ->
  (2 <= List.length (filter p l))%nat.
Proof.
  intros Ha Hb Hne Hpa Hpb.
  assert (Hfa : In a (filter p l)) by (apply filter_In; now split).
  assert (Hfb : In b (filter p l)) by (apply filter_In; now split).
  destruct (filter p l) as [|x [|y rest]]; cbn; [elim Hfa | | lia].
  destruct Hfa as [<-|[]], Hfb as [<-|[]]. now elim Hne.
Qed.

(** The update by id of the gated calendar save does not keep the natural
    key unique: moving an entry to the day of another entry of the same user
    and theme is answered 200 and leaves two rows under one (user, date,
    theme). *)
Theorem calendar_update_doubles_key (requestUser : Gate.Identity)
    (r1 r2 : Calendar.Task) (body : Calendar.Body) (t : Calendar.Table) :
  In r1 (Calendar.rows t) -> In r2 (Calendar.rows t) ->
  Calendar.id r1 <> Calendar.id r2 -> Calendar.id r2 <> 0 ->
  Calendar.user_name r1 = Gate.user_name requestUser ->
  Calendar.email r1 = Gate.email requestUser ->
  Calendar.user_name r2 = Gate.user_name requestUser ->
  Calendar.email r2 = Gate.email requestUser ->
  Calendar.theme r1 = Calendar.theme r2 ->
  Calendar.b_user_name body = Some (Gate.user_name requestUser) ->
  Calendar.b_email body = Some (Gate.email requestUser) ->
  Calendar.b_id body = Some (Calendar.id r2) ->
  Calendar.b_delete body = false ->
  Calendar.b_task_date body = Some (Calendar.task_date r1) ->
  Calendar.b_theme body = None ->
  status (fst (Calendar.save requestUser body t)) = 200
  /\ (2 <= List.length
            (filter (Calendar.date_key (Gate.user_name requestUser)
                       (Gate.email requestUser) (Calendar.task_date r1)
                       (Calendar.theme r1))
               (Calendar.rows (snd (Calendar.save requestUser body t)))))%nat.
Proof.
  intros H1 H2 Hid Hnz Hu1 He1 Hu2 He2 Hth Hbu Hbe Hbi Hbd Hbt Hbth.
  unfold Calendar.save. rewrite Hbu, Hbe, Hbi, Hbd, !String.eqb_refl.
  cbn [negb orb andb JS.falsyZ Calendar.or_else].
  rewrite (proj2 (Z.eqb_neq _ 0) Hnz). cbn [negb].
  set (p := Calendar.owned_id (Calendar.id r2) (Gate.user_name requestUser)
              (Gate.email requestUser)).
  assert (Hp2 : p r2 = true).
  { unfold p, Calendar.owned_id. now rewrite Z.eqb_refl, Hu2, He2, !String.eqb_refl. }
  assert (Hp1 : p r1 = false).
  { unfold p, Calendar.owned_id.
    now rewrite (proj2 (Z.eqb_neq _ _) Hid). }
  rewrite (filter_some p _ r2 H2 Hp2). cbn [fst snd status accept Calendar.rows].
  split; [reflexivity|].
  apply (two_matches _ _ r1 (Calendar.apply_fields body r2)).
  - apply in_map_iff. exists r1. now rewrite Hp1.
  - apply in_map_iff. exists r2. now rewrite Hp2.
  - intros Heq. apply Hid. now rewrite Heq.
  - unfold Calendar.date_key. now rewrite Hu1, He1, !String.eqb_refl.
  - unfold Calendar.date_key, Calendar.apply_fields. cbn.
    rewrite Hbt, Hbth. cbn [Calendar.or_else].
    now rewrite Hu2, He2, <- Hth, !String.eqb_refl.
Qed.

Lemma calendar_update_doubles_key_witness :
  status
    (fst (Calendar.save alice
            {| Calendar.b_user_name := Some "alice"; Calendar.b_email := Some "alice@x.org";
               Calendar.b_task_date := Some "2025-05-15"; Calendar.b_task_type := None;
               Calendar.b_task_description := None; Calendar.b_color_code := None;
               Calendar.b_theme := None; Calendar.b_id := Some 2;
               Calendar.b_delete := false |}
            {| Calendar.rows :=
                 [ {| Calendar.id := 1; Calendar.user_name := "alice";
                      Calendar.email := "alice@x.org";
                      Calendar.task_date := "2025-05-15"; Calendar.task_type := 1;
                      Calendar.task_description := "a";
                      Calendar.color_code := "selected-color-1";
                      Calendar.theme := "animal" |};
                   {| Calendar.id := 2; Calendar.user_name := "alice";
                      Calendar.email := "alice@x.org";
                      Calendar.task_date := "2025-05-16"; Calendar.task_type := 2;
                      Calendar.task_description := "b";
                      Calendar.color_code := "selected-color-2";
                      Calendar.theme := "animal" |} ];
               Calendar.auto_increment := 3 |})) = 200.
Proof.
  refine (proj1 (calendar_update_doubles_key alice
            {| Calendar.id := 1; Calendar.user_name := "alice";
               Calendar.email := "alice@x.org";
               Calendar.task_date := "2025-05-15"; Calendar.task_type := 1;
               Calendar.task_description := "a";
               Calendar.color_code := "selected-color-1"; Calendar.theme := "animal" |}
            {| Calendar.id := 2; Calendar.user_name := "alice";
               Calendar.email := "alice@x.org";
               Calendar.task_date := "2025-05-16"; Calendar.task_type := 2;
               Calendar.task_description := "b";
               Calendar.color_code := "selected-color-2"; Calendar.theme := "animal" |}
            _ _ _ _ _ _ _ _ _ _ _ _ _ _ _ _ _));
    try reflexivity; try discriminate.
  - now left.
  - right. now left.
Defined.

Lemma mark_sent_keeps (i : Z) (t : Auth.Table) (u : Auth.UserRow) :
  In u (Auth.rows t) ->
  exists u', In u' (Auth.rows (Auth.mark_sent i t))
             /\ Auth.id u' = Auth.id u /\ Auth.name u' = Auth.name u
             /\ Auth.email u' = Auth.email u
             /\ Auth.password_hash u' = Auth.password_hash u
             /\ (Auth.welcome_email_sent u' = Auth.welcome_email_sent u
                 \/ Auth.welcome_email_sent u' = 1).
Proof.
  intros Hin. unfold Auth.mark_sent. cbn [Auth.rows].
  eexists. split; [apply in_map; exact Hin|].
  destruct (Auth.id u =? i); cbn; repeat split; auto.
Qed.

Lemma row_kept (t : Auth.Table) (u : Auth.UserRow) :
  In u (Auth.rows t) ->
  exists u', In u' (Auth.rows t)
             /\ Auth.id u' = Auth.id u /\ Auth.name u' = Auth.name u
             /\ Auth.email u' = Auth.email u
             /\ Auth.password_hash u' = Auth.password_hash u
             /\ (Auth.welcome_email_sent u' = Auth.welcome_email_sent u
                 \/ Auth.welcome_email_sent u' = 1).
Proof. intros Hin. exists u. repeat split; auto. Qed.

(** Registration, login and the welcome-email request never remove a user
    and never touch the name, email or password hash of an existing one; the
    only thing they may change on an existing row is the welcome flag, and
    only to 1. *)
Theorem accounts_only_flag_changes (bcrypt_hash : string -> string)
    (bcrypt_compare : string -> string -> bool) (jwt_sign : Z -> string -> string)
    (emailOk : bool) (t : Auth.Table) (u : Auth.UserRow) :
  In u (Auth.rows t) ->
  let kept t' :=
    exists u', In u' (Auth.rows t')
               /\ Auth.id u' = Auth.id u /\ Auth.name u' = Auth.name u
               /\ Auth.email u' = Auth.email u
               /\ Auth.password_hash u' = Auth.password_hash u
               /\ (Auth.welcome_email_sent u' = Auth.welcome_email_sent u
                   \/ Auth.welcome_email_sent u' = 1) in
  (forall body, kept (Auth.users (Auth.register bcrypt_hash jwt_sign emailOk body t)))
  /\ (forall body, kept (Auth.users (Auth.login bcrypt_compare jwt_sign emailOk body t)))
  /\ (forall body, kept (Auth.users (Auth.send_welcome_email emailOk body t))).
Proof.
  intros Hin kept. unfold kept. split; [|split]; intros body.
  - unfold Auth.register.
    destruct (_ || _)%bool; [now apply row_kept|].
    destruct (Auth.r_username body) as [username|]; [|now apply row_kept].
    destruct (Auth.r_email body) as [e|]; [|now apply row_kept].
    destruct (Auth.r_password body) as [p|]; [|now apply row_kept].
    destruct (Auth.by_email e t); [|now apply row_kept].
    cbv zeta. cbn [Auth.users].
    destruct emailOk.
    + apply mark_sent_keeps. cbn [Auth.rows]. apply in_or_app. now left.
    + apply row_kept. cbn [Auth.rows]. apply in_or_app. now left.
  - unfold Auth.login. cbv zeta.
    destruct (match Auth.l_email body with Some e => Auth.by_email e t | None => [] end)
      as [|v rest]; [now apply row_kept|].
    destruct (Auth.l_password body); [|now apply row_kept].
    destruct (Auth.password_hash v); [|now apply row_kept].
    destruct (negb _); [now apply row_kept|].
    destruct (Auth.welcome_email_sent v =? 0); [|now apply row_kept].
    cbn [Auth.users].
    destruct emailOk; [now apply mark_sent_keeps | now apply row_kept].
  - unfold Auth.send_welcome_email.
    destruct (_ || _)%bool; [now apply row_kept|]. cbv zeta.
    destruct emailOk; [|now apply row_kept]. cbn [Auth.users].
    destruct (JS.falsyZ (Auth.w_userId body));
      [now apply row_kept | now apply mark_sent_keeps].
Qed.

Lemma accounts_only_flag_changes_witness :
  exists u', In u' (Auth.rows
                      (Auth.users
                         (Auth.send_welcome_email true
                            {| Auth.w_email := Some "x@x.org"; Auth.w_name := Some "x";
                               Auth.w_userId := Some 1 |} only_dora)))
             /\ Auth.id u' = 1 /\ Auth.name u' = "dora"
             /\ Auth.email u' = "dora@x.org"
             /\ Auth.password_hash u' = Some "#pw"
             /\ (Auth.welcome_email_sent u' = 0 \/ Auth.welcome_email_sent u' = 1).
Proof.
  exact (proj2 (proj2 (accounts_only_flag_changes (fun p => "#" ++ p)
                         (fun p h => String.eqb h ("#" ++ p)) (fun _ _ => "t") true
                         only_dora dora (or_introl eq_refl)))
           {| Auth.w_email := Some "x@x.org"; Auth.w_name := Some "x";
              Auth.w_userId := Some 1 |}).
Defined.
